(** * Checkout backend: PIX charge creation, provider webhook, tracking reports

    A shallow embedding of the TypeScript sources

      - [src/lib/slimpay.ts]   the Payment Provider client,
      - [src/lib/utmfy.ts]     the Tracking Service client,
      - [src/unnamed/part_000] the charge-creation handler ([PixCreate.POST]),
      - [src/unnamed/part_001] the webhook handler ([SlimpayWebhook.POST]),
      - [src/app/api/pix/status/route.ts] the status query ([PixStatus.GET]),

    followed by the properties of the specification that talk about them.

    Conventions of the embedding.
      - A JS [number] is an IEEE-754 binary64 value: Rocq's primitive [float].
      - A JS string is a [string]; a property that may be absent ([undefined]
        or [null]) is an [option]; a JS object used as a dictionary
        ([trackingParams], [trackProps], [metadata]) is a [gmap string string].
      - The replies of the Payment Provider are parsed JSON that the clients
        cast to an interface without checking it: every property of such a
        reply is an [option], and a body on which a property cannot be read
        ([null]) is told apart.
      - A handler is a computation in the monad [Js]: it reads the outside
        world (environment variables, clock, the replies of the two remote
        services), may throw, and records every HTTP request it issues.
      - [console.log] and friends have no effect on any result and are left
        out. *)

From Stdlib Require Import String Ascii List ZArith Bool Lia.
From Stdlib Require Import Floats.
From stdpp Require Import gmap strings.
Import ListNotations.

Open Scope string_scope.

(* ===================================================================== *)
(** * JavaScript values                                                   *)
(* ===================================================================== *)

(** A thrown value: whether it is an [Error] instance, its [message], and
    what [String(e)] gives. *)
Record JsError := {
  err_is_Error : bool;
  err_message : string;
  err_String : string
}.

Definition new_Error (msg : string) : JsError :=
  {| err_is_Error := true; err_message := msg; err_String := "Error: " ++ msg |}.

(** The [TypeError] thrown by reading a property of [undefined] or [null]. *)
Definition TypeError (msg : string) : JsError :=
  {| err_is_Error := true; err_message := msg; err_String := "TypeError: " ++ msg |}.

(** The result of evaluating something that may throw. *)
Inductive Outcome (A : Type) : Type :=
| Returns (a : A)
| Throws (e : JsError).
Arguments Returns {A} a.
Arguments Throws {A} e.

(** ** Strings *)

(** [/\d/]: the ten ASCII digits. *)
Definition is_digit (c : ascii) : bool :=
  let n := nat_of_ascii c in (48 <=? n)%nat && (n <=? 57)%nat.

(** [s.replace(/\D/g, "")] *)
Fixpoint replace_non_digits (s : string) : string :=
  match s with
  | EmptyString => EmptyString
  | String c s' =>
      if is_digit c then String c (replace_non_digits s') else replace_non_digits s'
  end.

(** [s.slice(from)] and [s.slice(from, to)] / [s.substring(from, to)], for
    the non-negative literal bounds the sources use. *)
Definition slice_from (from : nat) (s : string) : string :=
  String.substring from (String.length s - from) s.

Definition slice (from to : nat) (s : string) : string :=
  String.substring from (to - from) s.

(** [s.replace("T", " ")]: only the first occurrence of a string pattern is
    replaced. *)
Fixpoint replace_first_char (old new : ascii) (s : string) : string :=
  match s with
  | EmptyString => EmptyString
  | String c s' =>
      if Ascii.eqb c old then String new s' else String c (replace_first_char old new s')
  end.

(** [toUpperCase] / [toLowerCase] map the letters of the ASCII range and
    leave every other character as it is. This is what the JS methods do on
    a string of ASCII characters, such as the base-36 numerals that
    [generateOrderId] upper-cases and the provider's names of statuses and
    payment methods ([PIX], [CHARGED_BACK], ...). The JS methods also map
    the letters outside ASCII; the two definitions do not, and say nothing
    about a string that has such a letter. *)
Definition ascii_upper (c : ascii) : ascii :=
  let n := nat_of_ascii c in
  if (97 <=? n)%nat && (n <=? 122)%nat then ascii_of_nat (n - 32) else c.

Definition ascii_lower (c : ascii) : ascii :=
  let n := nat_of_ascii c in
  if (65 <=? n)%nat && (n <=? 90)%nat then ascii_of_nat (n + 32) else c.

Fixpoint string_map (f : ascii -> ascii) (s : string) : string :=
  match s with
  | EmptyString => EmptyString
  | String c s' => String (f c) (string_map f s')
  end.

Definition toUpperCase : string -> string := string_map ascii_upper.
Definition toLowerCase : string -> string := string_map ascii_lower.

(** Truthiness of an optional string: [undefined], [null] and [""] are falsy.
    [truthy o] returns the string when it is truthy. *)
Definition truthy (o : option string) : option string :=
  match o with
  | Some s => if String.eqb s "" then None else Some s
  | None => None
  end.

Definition is_truthy (o : option string) : bool :=
  match truthy o with Some _ => true | None => false end.

(** [o || d] with a string default. *)
Definition or_string (o : option string) (d : string) : string :=
  match truthy o with Some s => s | None => d end.

(** [o || null] *)
Definition or_null (o : option string) : option string := truthy o.

(** ** Numbers *)

(** [x || d] on numbers: [0], [-0] and [NaN] are falsy. *)
Definition or_number (x d : float) : float :=
  if PrimFloat.is_zero x || PrimFloat.is_nan x then d else x.

(** [Math.round(x)]: the integer nearest to [x], ties towards +infinity;
    [NaN], the infinities and the zeros are returned as they are, and a
    result that is zero keeps the sign of [x]. The integer is computed
    exactly from the mantissa and exponent of [x]. *)
Definition Math_round (x : float) : float :=
  match Prim2SF x with
  | S754_finite s m e =>
      if (0 <=? e)%Z then x
      else
        let k := (- e)%Z in
        let num := ((if s then - (2 * Z.pos m) else 2 * Z.pos m) + 2 ^ k)%Z in
        let n := (num / 2 ^ (k + 1))%Z in
        if (n =? 0)%Z then (if s then (-0)%float else 0%float)
        else SF2Prim (binary_normalize prec emax n 0 false)
  | _ => x
  end.

(* ===================================================================== *)
(** * Data model                                                          *)
(* ===================================================================== *)

(** ** [src/lib/slimpay.ts]: types *)

(** The [address] object of [SlimPayClient]. *)
Record SlimPayAddress := {
  addr_country : string;
  addr_zipCode : string;
  addr_state : string;
  addr_city : string;
  addr_neighborhood : string;
  addr_street : string;
  addr_number : string;
  addr_complement : option string
}.

Record SlimPayClient := {
  client_name : string;
  client_email : string;
  client_phone : string;
  client_document : string;
  client_cpf : option string;
  client_cnpj : option string;
  client_address : option SlimPayAddress
}.

Record SlimPayProduct := {
  product_id : string;
  product_name : string;
  product_price : float;
  product_quantity : float
}.

Record SlimPaySplit := {
  split_accountId : string;
  split_amount : float
}.

Record SlimPayPixRequest := {
  pix_identifier : string;
  pix_amount : float;
  pix_shippingFee : option float;
  pix_extraFee : option float;
  pix_discount : option float;
  pix_client : SlimPayClient;
  pix_products : option (list SlimPayProduct);
  pix_splits : option (list SlimPaySplit);
  pix_dueDate : option string;
  pix_metadata : option (gmap string string);
  pix_callbackUrl : option string
}.

(** [SlimPayPixResponse] and [SlimPayError] type the provider's replies.
    A reply is the parsed body cast to the interface, unchecked: any of its
    properties may be absent ([None]), whatever the interface declares. A
    property that is present is taken to be of its declared JSON type; no
    branch of the code depends on that type. For [pix] and [order], whose
    properties the handler reads, [None] is [undefined] or [null], the two
    values a property cannot be read from. *)
Record SlimPayOrder := {
  order_id : option string;
  order_amount : option float;
  order_currency : option string
}.

Record SlimPayPix := {
  pix_qrCode : option string;
  pix_expiresAt : option string
}.

Record SlimPayPixResponse := {
  resp_transactionId : option string;
  resp_status : option string;
  resp_fee : option float;
  resp_order : option SlimPayOrder;
  resp_pix : option SlimPayPix;
  resp_details : option string;
  resp_errorDescription : option string
}.

Record SlimPayError := {
  error_statusCode : option float;
  error_errorCode : option string;
  error_message : option string;
  error_details : option (gmap string string)
}.

(** [SlimPayWebhookPayload] and its nested objects. *)
Record WebhookClient := {
  wh_client_id : string;
  wh_client_name : string;
  wh_client_email : string;
  wh_client_phone : string;
  wh_client_cpf : option string;
  wh_client_cnpj : option string;
  wh_client_address : option SlimPayAddress
}.

Record PixInformation := {
  pixinfo_qrCode : string;
  pixinfo_endToEndId : option string
}.

Record WebhookTransaction := {
  tx_id : string;
  tx_identifier : string;
  tx_status : string;
  tx_paymentMethod : string;
  tx_originalCurrency : string;
  tx_originalAmount : float;
  tx_currency : string;
  tx_exchangeRate : option float;
  tx_installments : float;
  tx_amount : float;
  tx_createdAt : string;
  tx_payedAt : option string;
  tx_pixInformation : option PixInformation
}.

Record WebhookProduct := {
  wh_product_id : string;
  wh_product_name : string;
  wh_product_externalId : option string
}.

Record WebhookOrderItem := {
  oi_id : string;
  oi_price : float;
  oi_product : WebhookProduct
}.

Record SlimPayWebhookPayload := {
  wh_event : string;
  wh_token : string;
  wh_offerCode : option string;
  wh_client : WebhookClient;
  wh_transaction : WebhookTransaction;
  wh_orderItems : list WebhookOrderItem;
  wh_trackProps : option (gmap string string)
}.

(** The object [createPixPayment] resolves to. *)
Record PixResult := {
  pr_success : bool;
  pr_data : option SlimPayPixResponse;
  pr_error : option string;
  pr_errorCode : option string
}.

(** ** [src/lib/utmfy.ts]: types *)

Record UtmfyCustomer := {
  ucust_name : string;
  ucust_email : string;
  ucust_phone : option string;
  ucust_document : option string;
  ucust_country : option string;
  ucust_ip : option string
}.

Record UtmfyProduct := {
  uprod_id : string;
  uprod_name : string;
  uprod_planId : option string;
  uprod_planName : option string;
  uprod_quantity : float;
  uprod_priceInCents : float
}.

Record UtmfyTrackingParameters := {
  tp_src : option string;
  tp_sck : option string;
  tp_utm_source : option string;
  tp_utm_campaign : option string;
  tp_utm_medium : option string;
  tp_utm_content : option string;
  tp_utm_term : option string
}.

Record UtmfyCommission := {
  totalPriceInCents : float;
  gatewayFeeInCents : float;
  userCommissionInCents : float;
  commission_currency : option string
}.

Record UtmfyOrderRequest := {
  uo_orderId : string;
  uo_platform : string;
  uo_paymentMethod : string;
  uo_status : string;
  uo_createdAt : string;
  uo_approvedDate : option string;
  uo_refundedAt : option string;
  uo_customer : UtmfyCustomer;
  uo_products : list UtmfyProduct;
  uo_trackingParameters : UtmfyTrackingParameters;
  uo_commission : UtmfyCommission;
  uo_isTest : option bool
}.

(** [SendOrderParams] and its nested objects. *)
Record SendOrderCustomer := {
  so_cust_name : string;
  so_cust_email : string;
  so_cust_phone : option string;
  so_cust_document : option string;
  so_cust_country : option string
}.

Record SendOrderProduct := {
  so_prod_id : string;
  so_prod_name : string;
  so_prod_quantity : float;
  so_prod_priceInCents : float
}.

Record SendOrderCommission := {
  so_totalPriceInCents : float;
  so_gatewayFeeInCents : float;
  so_userCommissionInCents : float
}.

Record SendOrderParams := {
  so_orderId : string;
  so_status : string;
  so_paymentMethod : string;
  so_customer : SendOrderCustomer;
  so_products : list SendOrderProduct;
  so_commission : SendOrderCommission;
  so_trackingParams : option (gmap string string);
  so_approvedDate : option string
}.

(** The object [sendOrderToUtmfy] resolves to. *)
Record SendResult := {
  sr_success : bool;
  sr_error : option string;
  sr_response : option string
}.

(* ===================================================================== *)
(** * The outside world and the monad of handlers                         *)
(* ===================================================================== *)

(** A [Date] object, known by what its [toISOString()] gives: the ISO string,
    or a [RangeError] for an invalid date. *)
Record Date := { toISOString : Outcome string }.

(** An HTTP request as [fetch] receives it. The body is kept as the object
    handed to [JSON.stringify]. *)
Inductive RequestBody :=
| PixBody (data : SlimPayPixRequest)
| OrderBody (order : UtmfyOrderRequest).

Record HttpRequest := {
  req_url : string;
  req_method : string;
  req_headers : list (string * string);
  req_body : RequestBody
}.

(** A parsed JSON reply, seen through the two casts the client applies to it.
    [result as SlimPayError]: the properties read off the body, or, when the
    body is [null], the [TypeError] that reading a property of it throws.
    [result as SlimPayPixResponse]: [None] when the body is a falsy value such
    as [null]; otherwise the properties of the body, each of which may be
    absent. *)
Record JsonValue := {
  as_SlimPayError : Outcome SlimPayError;
  as_SlimPayPixResponse : option SlimPayPixResponse
}.

(** A [Response]: [ok], [status], and what [json()] and [text()] resolve to. *)
Record Response := {
  response_ok : bool;
  response_status : float;
  response_json : Outcome JsonValue;
  response_text : Outcome string
}.

Record World := {
  env_SLIMPAY_PUBLIC_KEY : option string;
  env_SLIMPAY_SECRET_KEY : option string;
  env_SLIMPAY_WEBHOOK_TOKEN : option string;
  env_NEXT_PUBLIC_APP_URL : option string;
  (** [Date.now().toString(36)] *)
  Date_now_base36 : string;
  (** [Math.random().toString(36)] *)
  Math_random_base36 : string;
  (** [new Date()] on [None], [new Date(s)] on [Some s] *)
  world_new_Date : option string -> Date;
  (** the promise [fetch] returns: rejected, or resolved with a response *)
  world_fetch : HttpRequest -> Outcome Response
}.

(** A computation reads the world and yields a value or a thrown error,
    together with the HTTP requests it issued, oldest first. *)
Definition Js (A : Type) : Type := World -> Outcome A * list HttpRequest.

Definition ret {A} (a : A) : Js A := fun _ => (Returns a, []).

Definition throw {A} (e : JsError) : Js A := fun _ => (Throws e, []).

Definition bind {A B} (m : Js A) (k : A -> Js B) : Js B :=
  fun w =>
    match m w with
    | (Returns a, t) => let (r, t') := k a w in (r, (t ++ t')%list)
    | (Throws e, t) => (Throws e, t)
    end.

(** [try { m } catch (error) { h error }] *)
Definition try_catch {A} (m : Js A) (h : JsError -> Js A) : Js A :=
  fun w =>
    match m w with
    | (Returns a, t) => (Returns a, t)
    | (Throws e, t) => let (r, t') := h e w in (r, (t ++ t')%list)
    end.

(** [await p] for a promise already settled with [o]. *)
Definition await {A} (o : Outcome A) : Js A := fun _ => (o, []).

Definition process_env (var : World -> option string) : Js (option string) :=
  fun w => (Returns (var w), []).

Definition new_Date (arg : option string) : Js Date :=
  fun w => (Returns (world_new_Date w arg), []).

Definition fetch (r : HttpRequest) : Js Response :=
  fun w => (world_fetch w r, [r]).

Declare Scope js_scope.
Delimit Scope js_scope with js.
Notation "x <- m ;; k" := (bind m (fun x => k))
  (at level 62, m at next level, right associativity) : js_scope.
Open Scope js_scope.

(** The value and the trace of a run. *)
Definition result_of {A} (m : Js A) (w : World) : Outcome A := fst (m w).
Definition calls_of {A} (m : Js A) (w : World) : list HttpRequest := snd (m w).

(** The create-charge requests and the order reports among issued requests. *)
Definition slimpay_requests (t : list HttpRequest) : list SlimPayPixRequest :=
  flat_map (fun r => match req_body r with PixBody d => [d] | OrderBody _ => [] end) t.

Definition utmfy_orders (t : list HttpRequest) : list UtmfyOrderRequest :=
  flat_map (fun r => match req_body r with OrderBody o => [o] | PixBody _ => [] end) t.

(* ===================================================================== *)
(** * [src/lib/slimpay.ts]: the Payment Provider client                   *)
(* ===================================================================== *)

Definition SLIMPAY_API_URL : string := "https://app.slimmpayy.com.br/api/v1".

Definition getHeaders : Js (list (string * string)) :=
  publicKey <- process_env env_SLIMPAY_PUBLIC_KEY ;;
  secretKey <- process_env env_SLIMPAY_SECRET_KEY ;;
  match truthy publicKey, truthy secretKey with
  | Some publicKey, Some secretKey =>
      ret [("Content-Type", "application/json");
           ("x-public-key", publicKey);
           ("x-secret-key", secretKey)]
  | _, _ =>
      throw (new_Error "SlimPay credentials not configured. Please set SLIMPAY_PUBLIC_KEY and SLIMPAY_SECRET_KEY environment variables.")
  end.

Definition createPixPayment (data : SlimPayPixRequest) : Js PixResult :=
  try_catch
    (headers <- getHeaders ;;
     response <- fetch {| req_url := SLIMPAY_API_URL ++ "/gateway/pix/receive";
                          req_method := "POST";
                          req_headers := headers;
                          req_body := PixBody data |} ;;
     result <- await (response_json response) ;;
     if negb (response_ok response) then
       (* [result.details] is the first property read off the body *)
       error <- await (as_SlimPayError result) ;;
       ret {| pr_success := false;
              pr_data := None;
              pr_error := Some (or_string (error_message error) "Erro ao criar cobranca PIX");
              pr_errorCode := error_errorCode error |}
     else
       ret {| pr_success := true;
              pr_data := as_SlimPayPixResponse result;
              pr_error := None;
              pr_errorCode := None |})
    (fun error =>
       ret {| pr_success := false;
              pr_data := None;
              pr_error := Some (if err_is_Error error then err_message error
                                else "Erro de conexao com SlimPay");
              pr_errorCode := None |}).

Definition verifyWebhookToken (receivedToken : string) (expectedToken : option string) : bool :=
  match truthy expectedToken with
  | None => true
  | Some expectedToken => String.eqb receivedToken expectedToken
  end.

Definition mapSlimPayStatus (status : string) : string :=
  if String.eqb status "COMPLETED" then "paid"
  else if String.eqb status "PENDING" then "waiting_payment"
  else if String.eqb status "FAILED" then "refused"
  else if String.eqb status "REJECTED" then "refused"
  else if String.eqb status "CANCELED" then "refused"
  else if String.eqb status "REFUNDED" then "refunded"
  else if String.eqb status "CHARGED_BACK" then "chargedback"
  else "waiting_payment".

Definition generateOrderId : Js string :=
  fun w =>
    let timestamp := Date_now_base36 w in
    let random := slice 2 8 (Math_random_base36 w) in
    (Returns (toUpperCase ("ORD-" ++ timestamp ++ "-" ++ random)), []).

(* ===================================================================== *)
(** * [src/lib/utmfy.ts]: the Tracking Service client                     *)
(* ===================================================================== *)

(** The argument of [formatUtmfyDate]: [Date | string | null]. *)
Inductive DateArg :=
| ArgDate (d : Date)
| ArgString (s : string)
| ArgNull.

Definition formatUtmfyDate (date : DateArg) : Js (option string) :=
  let format (d : Date) : Js (option string) :=
    iso <- await (toISOString d) ;;
    ret (Some (slice 0 19 (replace_first_char "T" " " iso))) in
  match date with
  | ArgNull => ret None
  | ArgString s =>
      if String.eqb s "" then ret None
      else d <- new_Date (Some s) ;; format d
  | ArgDate d => format d
  end.

Definition UTMFY_API_TOKEN : string := "5wWR3OtU5Pla0dTHL6qJg6Z3M7XvxUunCaVY".
Definition UTMFY_API_URL : string := "https://api.utmify.com.br/api-credentials/orders".

(** [params.trackingParams?.key] *)
Definition tracking_param (tp : option (gmap string string)) (key : string) : option string :=
  tp ≫= (fun o => o !! key).

(** The local constant [utmfyStatus] of [sendOrderToUtmfy]. *)
Definition utmfyStatus (status : string) : string :=
  if String.eqb status "approved" then "paid" else status.

Definition sendOrderToUtmfy (params : SendOrderParams) : Js SendResult :=
  try_catch
    (now <- new_Date None ;;
     createdAt <- formatUtmfyDate (ArgDate now) ;;
     approvedDate <- match truthy (so_approvedDate params) with
                     | Some d => formatUtmfyDate (ArgString d)
                     | None => ret None
                     end ;;
     let order := {|
       uo_orderId := so_orderId params;
       uo_platform := "CometaPapelaria";
       uo_paymentMethod := so_paymentMethod params;
       uo_status := utmfyStatus (so_status params);
       uo_createdAt := or_string createdAt "";
       uo_approvedDate := approvedDate;
       uo_refundedAt := None;
       uo_customer := {|
         ucust_name := so_cust_name (so_customer params);
         ucust_email := so_cust_email (so_customer params);
         ucust_phone := so_cust_phone (so_customer params);
         ucust_document := so_cust_document (so_customer params);
         ucust_country := Some (or_string (so_cust_country (so_customer params)) "BR");
         ucust_ip := None |};
       uo_products :=
         map (fun p => {| uprod_id := so_prod_id p;
                          uprod_name := so_prod_name p;
                          uprod_planId := None;
                          uprod_planName := None;
                          uprod_quantity := so_prod_quantity p;
                          uprod_priceInCents := so_prod_priceInCents p |})
             (so_products params);
       uo_trackingParameters := {|
         tp_src := or_null (tracking_param (so_trackingParams params) "src");
         tp_sck := or_null (tracking_param (so_trackingParams params) "sck");
         tp_utm_source := or_null (tracking_param (so_trackingParams params) "utm_source");
         tp_utm_campaign := or_null (tracking_param (so_trackingParams params) "utm_campaign");
         tp_utm_medium := or_null (tracking_param (so_trackingParams params) "utm_medium");
         tp_utm_content := or_null (tracking_param (so_trackingParams params) "utm_content");
         tp_utm_term := or_null (tracking_param (so_trackingParams params) "utm_term") |};
       uo_commission := {|
         totalPriceInCents := so_totalPriceInCents (so_commission params);
         gatewayFeeInCents := so_gatewayFeeInCents (so_commission params);
         userCommissionInCents := so_userCommissionInCents (so_commission params);
         commission_currency := Some "BRL" |};
       uo_isTest := None |} in
     response <- fetch {| req_url := UTMFY_API_URL;
                          req_method := "POST";
                          req_headers := [("x-api-token", UTMFY_API_TOKEN);
                                          ("Content-Type", "application/json")];
                          req_body := OrderBody order |} ;;
     responseText <- await (response_text response) ;;
     if negb (response_ok response) then
       ret {| sr_success := false; sr_error := Some responseText; sr_response := Some responseText |}
     else
       ret {| sr_success := true; sr_error := None; sr_response := Some responseText |})
    (fun error =>
       ret {| sr_success := false; sr_error := Some (err_String error); sr_response := None |}).

Definition mapStatusToUtmfy (status : string) : string :=
  if String.eqb status "waiting_payment" then "waiting_payment"
  else if String.eqb status "pending" then "waiting_payment"
  else if String.eqb status "approved" then "paid"
  else if String.eqb status "paid" then "paid"
  else if String.eqb status "refused" then "refused"
  else if String.eqb status "cancelled" then "refused"
  else if String.eqb status "refunded" then "refunded"
  else if String.eqb status "chargeback" then "chargedback"
  else "waiting_payment".

(* ===================================================================== *)
(** * The route handlers                                                  *)
(* ===================================================================== *)

(** The JSON bodies the handlers answer with. *)
Inductive JsonBody :=
| ErrorJson (error : string)
| PixCreatedJson (transactionId : option string) (orderId : string)
                 (qrcode expiresAt order_id : option string)
                 (order_amount : option float)
| WebhookAckJson (event orderId status : string).

Record NextResponse := {
  status : Z;
  json_body : JsonBody
}.

(** [NextResponse.json(body, { status })]; the status defaults to 200. *)
Definition NextResponse_json (body : JsonBody) (init : option Z) : NextResponse :=
  {| status := match init with Some s => s | None => 200%Z end; json_body := body |}.

(** ** [src/unnamed/part_000]: charge creation *)

Module PixCreate.

(** [CreatePixRequest]. The handler guards against an absent [customer],
    absent customer fields and an absent [items]; these are options. The
    other properties are as the interface declares them. *)
Record Customer := {
  customer_name : option string;
  customer_email : option string;
  customer_cpf : option string;
  customer_phone : option string
}.

Record Address := {
  address_cep : string;
  address_street : string;
  address_number : string;
  address_complement : option string;
  address_neighborhood : string;
  address_city : string;
  address_state : string
}.

Record Item := {
  item_id : string;
  item_name : string;
  item_price : float;
  item_quantity : float
}.

Record Shipping := {
  shipping_id : string;
  shipping_name : string;
  shipping_price : float;
  shipping_days : string
}.

Record CreatePixRequest := {
  customer : option Customer;
  address : Address;
  items : option (list Item);
  total : float;
  shipping : option Shipping;
  trackingParams : option (gmap string string)
}.

(** The local constants of [POST], as functions of what they are computed
    from. *)
Definition productsTotal (items : list Item) : float :=
  fold_left (fun acc item => (acc + item_price item * item_quantity item)%float) items 0%float.

Definition shippingFee (shipping : option Shipping) : float :=
  match shipping with
  | Some s => or_number (shipping_price s) 0
  | None => 0
  end.

Definition finalAmount (items : list Item) (shipping : option Shipping) : float :=
  (productsTotal items + shippingFee shipping)%float.

Definition cpfClean (cpf : string) : string := replace_non_digits cpf.

Definition phoneClean (phone : string) : string := replace_non_digits phone.

Definition cepNumbers (cep : string) : string := replace_non_digits cep.

Definition cepFormatted (cep : string) : string :=
  if (String.length (cepNumbers cep) =? 8)%nat
  then slice 0 5 (cepNumbers cep) ++ "-" ++ slice_from 5 (cepNumbers cep)
  else cepNumbers cep.

(** [...(value && { key: value })] inside an object literal. *)
Definition spread_if (key : string) (value : option string)
           (obj : gmap string string) : gmap string string :=
  match truthy value with
  | Some v => <[key := v]> obj
  | None => obj
  end.

Definition POST (request_json : Outcome CreatePixRequest) : Js NextResponse :=
  try_catch
    (body <- await request_json ;;
     let field (f : Customer -> option string) := truthy (customer body ≫= f) in
     match field customer_name, field customer_email,
           field customer_cpf, field customer_phone with
     | Some name, Some email, Some cpf, Some phone =>
       match items body with
       | None | Some [] =>
           ret (NextResponse_json (ErrorJson "Carrinho vazio") (Some 400%Z))
       | Some items =>
         orderId <- generateOrderId ;;
         if negb (String.length (cpfClean cpf) =? 11)%nat then
           ret (NextResponse_json (ErrorJson "CPF invalido. Deve conter 11 digitos.")
                                  (Some 400%Z))
         else
           appUrl <- process_env env_NEXT_PUBLIC_APP_URL ;;
           pixResult <- createPixPayment {|
             pix_identifier := orderId;
             pix_amount := finalAmount items (shipping body);
             pix_shippingFee := Some (shippingFee (shipping body));
             pix_extraFee := None;
             pix_discount := Some 0%float;
             pix_client := {|
               client_name := name;
               client_email := email;
               client_phone := phoneClean phone;
               client_document := cpfClean cpf;
               client_cpf := Some (cpfClean cpf);
               client_cnpj := None;
               client_address := Some {|
                 addr_country := "BR";
                 addr_zipCode := cepFormatted (address_cep (address body));
                 addr_state := address_state (address body);
                 addr_city := address_city (address body);
                 addr_neighborhood := address_neighborhood (address body);
                 addr_street := address_street (address body);
                 addr_number := address_number (address body);
                 addr_complement := Some (or_string (address_complement (address body)) "") |} |};
             pix_products :=
               Some (map (fun item => {| product_id := item_id item;
                                         product_name := item_name item;
                                         product_price := item_price item;
                                         product_quantity := item_quantity item |})
                         items);
             pix_splits := None;
             pix_dueDate := None;
             pix_metadata :=
               Some (spread_if "utm_campaign" (tracking_param (trackingParams body) "utm_campaign")
                    (spread_if "utm_medium" (tracking_param (trackingParams body) "utm_medium")
                    (spread_if "utm_source" (tracking_param (trackingParams body) "utm_source")
                       {["source" := "CometaPapelaria"]})));
             pix_callbackUrl := Some (or_string appUrl "" ++ "/api/webhook/slimpay") |} ;;
           match pr_success pixResult, pr_data pixResult with
           | true, Some data =>
             let totalInCents := Math_round (finalAmount items (shipping body) * 100)%float in
             _ <- try_catch
                    (_ <- sendOrderToUtmfy {|
                       so_orderId := orderId;
                       so_status := "waiting_payment";
                       so_paymentMethod := "pix";
                       so_customer := {|
                         so_cust_name := name;
                         so_cust_email := email;
                         so_cust_phone := Some (phoneClean phone);
                         so_cust_document := Some (cpfClean cpf);
                         so_cust_country := None |};
                       so_products :=
                         map (fun item => {|
                                so_prod_id := item_id item;
                                so_prod_name := item_name item;
                                so_prod_quantity := item_quantity item;
                                so_prod_priceInCents := Math_round (item_price item * 100)%float |})
                             items;
                       so_commission := {|
                         so_totalPriceInCents := totalInCents;
                         so_gatewayFeeInCents := 0%float;
                         so_userCommissionInCents := totalInCents |};
                       so_trackingParams :=
                         Some (match trackingParams body with Some tp => tp | None => ∅ end);
                       so_approvedDate := None |} ;;
                     ret tt)
                    (fun utmfyError => ret tt) ;;
             (* [pix.qrCode] and [order.id] throw when the reply has no
                [pix] or no [order] *)
             match resp_pix data with
             | None => throw (TypeError "Cannot read properties of undefined (reading 'qrCode')")
             | Some pix =>
               match resp_order data with
               | None => throw (TypeError "Cannot read properties of undefined (reading 'id')")
               | Some order =>
                 ret (NextResponse_json
                        (PixCreatedJson (resp_transactionId data) orderId
                                        (pix_qrCode pix) (pix_expiresAt pix)
                                        (order_id order) (order_amount order))
                        None)
               end
             end
           | _, _ =>
             ret (NextResponse_json (ErrorJson (or_string (pr_error pixResult) "Erro ao gerar PIX"))
                                    (Some 400%Z))
           end
       end
     | _, _, _, _ =>
         ret (NextResponse_json (ErrorJson "Dados do cliente incompletos") (Some 400%Z))
     end)
    (fun error =>
       ret (NextResponse_json (ErrorJson "Erro interno ao processar pagamento") (Some 500%Z))).

End PixCreate.

(** ** [src/unnamed/part_001]: the provider's webhook *)

Module SlimpayWebhook.

(** [client.cpf || client.cnpj || ""] *)
Definition document_of (client : WebhookClient) : string :=
  match truthy (wh_client_cpf client) with
  | Some cpf => cpf
  | None => or_string (wh_client_cnpj client) ""
  end.

Definition POST (request_json : Outcome SlimPayWebhookPayload) : Js NextResponse :=
  try_catch
    (payload <- await request_json ;;
     expectedToken <- process_env env_SLIMPAY_WEBHOOK_TOKEN ;;
     if is_truthy expectedToken && negb (verifyWebhookToken (wh_token payload) expectedToken) then
       ret (NextResponse_json (ErrorJson "Invalid token") (Some 401%Z))
     else
       let event := wh_event payload in
       let transaction := wh_transaction payload in
       let client := wh_client payload in
       let orderItems := wh_orderItems payload in
       let trackProps := wh_trackProps payload in
       let mappedStatus := mapSlimPayStatus (tx_status transaction) in
       _ <- (if String.eqb event "TRANSACTION_PAID" then
           let paidTotalInCents := Math_round (tx_amount transaction * 100)%float in
           try_catch
             (_ <- sendOrderToUtmfy {|
                so_orderId := tx_identifier transaction;
                so_status := "approved";
                so_paymentMethod := toLowerCase (tx_paymentMethod transaction);
                so_customer := {|
                  so_cust_name := wh_client_name client;
                  so_cust_email := wh_client_email client;
                  so_cust_phone := Some (wh_client_phone client);
                  so_cust_document := Some (document_of client);
                  so_cust_country := None |};
                so_products :=
                  map (fun item => {|
                         so_prod_id := or_string (wh_product_externalId (oi_product item))
                                                 (wh_product_id (oi_product item));
                         so_prod_name := wh_product_name (oi_product item);
                         so_prod_quantity := 1%float;
                         so_prod_priceInCents := Math_round (oi_price item * 100)%float |})
                      orderItems;
                so_commission := {|
                  so_totalPriceInCents := paidTotalInCents;
                  so_gatewayFeeInCents := 0%float;
                  so_userCommissionInCents := paidTotalInCents |};
                so_trackingParams :=
                  Some (match trackProps with Some tp => tp | None => ∅ end);
                so_approvedDate := tx_payedAt transaction |} ;;
              ret tt)
             (fun utmfyError => ret tt)
         else if String.eqb event "TRANSACTION_CANCELED" then
           let canceledTotalInCents := Math_round (tx_amount transaction * 100)%float in
           try_catch
             (_ <- sendOrderToUtmfy {|
                so_orderId := tx_identifier transaction;
                so_status := "refused";
                so_paymentMethod := toLowerCase (tx_paymentMethod transaction);
                so_customer := {|
                  so_cust_name := wh_client_name client;
                  so_cust_email := wh_client_email client;
                  so_cust_phone := Some (wh_client_phone client);
                  so_cust_document := Some (document_of client);
                  so_cust_country := None |};
                so_products :=
                  map (fun item => {|
                         so_prod_id := or_string (wh_product_externalId (oi_product item))
                                                 (wh_product_id (oi_product item));
                         so_prod_name := wh_product_name (oi_product item);
                         so_prod_quantity := 1%float;
                         so_prod_priceInCents := Math_round (oi_price item * 100)%float |})
                      orderItems;
                so_commission := {|
                  so_totalPriceInCents := canceledTotalInCents;
                  so_gatewayFeeInCents := 0%float;
                  so_userCommissionInCents := canceledTotalInCents |};
                so_trackingParams :=
                  Some (match trackProps with Some tp => tp | None => ∅ end);
                so_approvedDate := None |} ;;
              ret tt)
             (fun utmfyError => ret tt)
         else if String.eqb event "TRANSACTION_REFUNDED" then
           let refundedTotalInCents := Math_round (tx_amount transaction * 100)%float in
           try_catch
             (_ <- sendOrderToUtmfy {|
                so_orderId := tx_identifier transaction;
                so_status := "refunded";
                so_paymentMethod := toLowerCase (tx_paymentMethod transaction);
                so_customer := {|
                  so_cust_name := wh_client_name client;
                  so_cust_email := wh_client_email client;
                  so_cust_phone := Some (wh_client_phone client);
                  so_cust_document := Some (document_of client);
                  so_cust_country := None |};
                so_products :=
                  map (fun item => {|
                         so_prod_id := or_string (wh_product_externalId (oi_product item))
                                                 (wh_product_id (oi_product item));
                         so_prod_name := wh_product_name (oi_product item);
                         so_prod_quantity := 1%float;
                         so_prod_priceInCents := Math_round (oi_price item * 100)%float |})
                      orderItems;
                so_commission := {|
                  so_totalPriceInCents := refundedTotalInCents;
                  so_gatewayFeeInCents := 0%float;
                  so_userCommissionInCents := refundedTotalInCents |};
                so_trackingParams :=
                  Some (match trackProps with Some tp => tp | None => ∅ end);
                so_approvedDate := None |} ;;
              ret tt)
             (fun utmfyError => ret tt)
         else if String.eqb event "TRANSACTION_CREATED" then
           ret tt
         else
           ret tt) ;;
       ret (NextResponse_json
              (WebhookAckJson event (tx_identifier transaction) mappedStatus) None))
    (fun error =>
       ret (NextResponse_json (ErrorJson "Error processing webhook") (Some 200%Z))).

End SlimpayWebhook.

(** ** [src/lib/slimpay.ts]: [getTransaction], and
       [src/app/api/pix/status/route.ts]: the status query *)

Module PixStatus.

(** [SlimPayTransaction] types the provider's reply to a lookup; as for
    the other replies, any of its properties may be absent. The route calls
    a string method on [status]: for that property [None] also stands for a
    value that is not a string. *)
Record SlimPayTransaction := {
  transaction_id : option string;
  transaction_identifier : option string;
  transaction_status : option string;
  transaction_paymentMethod : option string;
  transaction_amount : option float;
  transaction_currency : option string;
  transaction_createdAt : option string;
  transaction_payedAt : option string;
  transaction_pixInformation : option PixInformation
}.

(** The GET request of [getTransaction]. The query string is kept as the
    pairs held by the [URLSearchParams] object that is serialised into it. *)
Record GetRequest := {
  get_url : string;
  get_searchParams : list (string * string);
  get_method : string;
  get_headers : list (string * string)
}.

(** The parsed reply, seen through [result as SlimPayError] (the properties
    of the body, or the [TypeError] of reading a property of [null]) and
    [result as SlimPayTransaction] ([None]: a falsy body). *)
Record TransactionJson := {
  reply_as_SlimPayError : Outcome SlimPayError;
  reply_as_SlimPayTransaction : option SlimPayTransaction
}.

Record GetResponse := {
  get_response_ok : bool;
  get_response_json : Outcome TransactionJson
}.

(** The world of the status query: the world of the other handlers, and the
    provider's answers to GET requests. *)
Record QueryWorld := {
  base_world : World;
  world_fetch_get : GetRequest -> Outcome GetResponse
}.

(** A request issued during a status query. *)
Inductive Issued :=
| IssuedPost (r : HttpRequest)
| IssuedGet (r : GetRequest).

(** The monad of the status query; as [Js], over [QueryWorld]. *)
Definition JsQ (A : Type) : Type := QueryWorld -> Outcome A * list Issued.

Definition retQ {A} (a : A) : JsQ A := fun _ => (Returns a, []).

Definition bindQ {A B} (m : JsQ A) (k : A -> JsQ B) : JsQ B :=
  fun w =>
    match m w with
    | (Returns a, t) => let (r, t') := k a w in (r, (t ++ t')%list)
    | (Throws e, t) => (Throws e, t)
    end.

Definition try_catchQ {A} (m : JsQ A) (h : JsError -> JsQ A) : JsQ A :=
  fun w =>
    match m w with
    | (Returns a, t) => (Returns a, t)
    | (Throws e, t) => let (r, t') := h e w in (r, (t ++ t')%list)
    end.

Definition awaitQ {A} (o : Outcome A) : JsQ A := fun _ => (o, []).

Definition throwQ {A} (e : JsError) : JsQ A := fun _ => (Throws e, []).

(** A computation of the other handlers, run in the base world. *)
Definition liftQ {A} (m : Js A) : JsQ A :=
  fun w => let (o, t) := m (base_world w) in (o, map IssuedPost t).

Definition fetch_get (r : GetRequest) : JsQ GetResponse :=
  fun w => (world_fetch_get w r, [IssuedGet r]).

Declare Scope jsq_scope.
Delimit Scope jsq_scope with jsq.
Notation "x <- m ;; k" := (bindQ m (fun x => k))
  (at level 62, m at next level, right associativity) : jsq_scope.

(** The argument and the result of [getTransaction]. *)
Record GetTransactionParams := {
  params_id : option string;
  params_clientIdentifier : option string
}.

Record TransactionResult := {
  tr_success : bool;
  tr_data : option SlimPayTransaction;
  tr_error : option string
}.

(** [if (value) searchParams.set(key, value)] *)
Definition set_if (key : string) (value : option string)
           (searchParams : list (string * string)) : list (string * string) :=
  match truthy value with
  | Some v => (searchParams ++ [(key, v)])%list
  | None => searchParams
  end.

Definition getTransaction (params : GetTransactionParams) : JsQ TransactionResult :=
  try_catchQ
    (let searchParams :=
       set_if "clientIdentifier" (params_clientIdentifier params)
         (set_if "id" (params_id params) []) in
     headers <- liftQ getHeaders ;;
     response <- fetch_get {| get_url := SLIMPAY_API_URL ++ "/gateway/transactions";
                              get_searchParams := searchParams;
                              get_method := "GET";
                              get_headers := headers |} ;;
     result <- awaitQ (get_response_json response) ;;
     if negb (get_response_ok response) then
       (* [error.message] reads a property off the body *)
       error <- awaitQ (reply_as_SlimPayError result) ;;
       retQ {| tr_success := false;
               tr_data := None;
               tr_error := Some (or_string (error_message error)
                                           "Erro ao buscar transacao") |}
     else
       retQ {| tr_success := true;
               tr_data := reply_as_SlimPayTransaction result;
               tr_error := None |})%jsq
    (fun error =>
       retQ {| tr_success := false;
               tr_data := None;
               tr_error := Some (if err_is_Error error then err_message error
                                 else "Erro de conexao com SlimPay") |}).

(** What the handler reads off [request.url]: [searchParams.get] of the two
    parameters, [None] when the parameter is not in the query string. *)
Record StatusQuery := {
  query_transactionId : option string;
  query_orderId : option string
}.

(** The JSON bodies of the status route. *)
Record StatusJson := {
  json_transactionId : option string;
  json_orderId : option string;
  json_status : string;
  json_paymentMethod : option string;
  json_amount : option float;
  json_currency : option string;
  json_createdAt : option string;
  json_paidAt : option string;
  (** [None]: [pixInfo] is [null]; [Some e]: [pixInfo] is [{ endToEndId: e }] *)
  json_pixInfo : option (option string)
}.

Inductive StatusBody :=
| StatusError (error : string)
| StatusFound (json : StatusJson).

Record StatusResponse := {
  status_code : Z;
  status_body : StatusBody
}.

Definition GET (request_url : Outcome StatusQuery) : JsQ StatusResponse :=
  try_catchQ
    (searchParams <- awaitQ request_url ;;
     let transactionId := query_transactionId searchParams in
     let orderId := query_orderId searchParams in
     if negb (is_truthy transactionId) && negb (is_truthy orderId) then
       retQ {| status_code := 400;
               status_body := StatusError "transactionId ou orderId é obrigatório" |}
     else
       result <- getTransaction {| params_id := truthy transactionId;
                                   params_clientIdentifier := truthy orderId |} ;;
       match tr_success result, tr_data result with
       | true, Some transaction =>
           (* [mapSlimPayStatus(undefined)] takes the [default] case *)
           let mappedStatus := match transaction_status transaction with
                               | Some status => mapSlimPayStatus status
                               | None => "waiting_payment"
                               end in
           (* [transaction.status.toLowerCase()] throws without a [status] *)
           status <- (if String.eqb mappedStatus "paid" then retQ "paid"
                      else match transaction_status transaction with
                           | Some status => retQ (toLowerCase status)
                           | None =>
                               throwQ (TypeError "Cannot read properties of undefined (reading 'toLowerCase')")
                           end) ;;
           retQ {| status_code := 200;
                   status_body := StatusFound {|
                     json_transactionId := transaction_id transaction;
                     json_orderId := transaction_identifier transaction;
                     json_status := status;
                     json_paymentMethod := transaction_paymentMethod transaction;
                     json_amount := transaction_amount transaction;
                     json_currency := transaction_currency transaction;
                     json_createdAt := transaction_createdAt transaction;
                     json_paidAt := transaction_payedAt transaction;
                     json_pixInfo :=
                       match transaction_pixInformation transaction with
                       | Some info => Some (pixinfo_endToEndId info)
                       | None => None
                       end |} |}
       | _, _ =>
           retQ {| status_code := 404;
                   status_body := StatusError (or_string (tr_error result)
                                                         "Transação não encontrada") |}
       end)%jsq
    (fun error =>
       retQ {| status_code := 500;
               status_body := StatusError "Erro ao verificar status do pagamento" |}).

End PixStatus.

(* ===================================================================== *)
(** * Concrete runs                                                       *)
(* ===================================================================== *)

Module Demo.
Import PixCreate.

Definition charge : SlimPayPixResponse :=
  {| resp_transactionId := Some "tx_1";
     resp_status := Some "OK";
     resp_fee := Some 0.5%float;
     resp_order := Some {| order_id := Some "ord_1"; order_amount := Some 25%float;
                           order_currency := Some "BRL" |};
     resp_pix := Some {| pix_qrCode := Some "00020126";
                         pix_expiresAt := Some "2025-01-01T00:30:00Z" |};
     resp_details := None;
     resp_errorDescription := None |}.

(** The error properties of a body that has none of them. *)
Definition no_error : SlimPayError :=
  {| error_statusCode := None; error_errorCode := None;
     error_message := None; error_details := None |}.

(** The provider accepts every charge; the tracking service answers
    [tracking] to every report. *)
Definition world (token : option string) (tracking : Outcome Response) : World :=
  {| env_SLIMPAY_PUBLIC_KEY := Some "pk";
     env_SLIMPAY_SECRET_KEY := Some "sk";
     env_SLIMPAY_WEBHOOK_TOKEN := token;
     env_NEXT_PUBLIC_APP_URL := Some "https://loja.example";
     Date_now_base36 := "lq2x7k3f";
     Math_random_base36 := "0.4fzyo82mvyr";
     world_new_Date := fun _ => {| toISOString := Returns "2025-01-01T00:00:00.000Z" |};
     world_fetch := fun r =>
       match req_body r with
       | PixBody _ =>
           Returns {| response_ok := true;
                      response_status := 200%float;
                      response_json := Returns {| as_SlimPayError := Returns no_error;
                                                  as_SlimPayPixResponse := Some charge |};
                      response_text := Returns "" |}
       | OrderBody _ => tracking
       end |}.

Definition tracking_ok : Outcome Response :=
  Returns {| response_ok := true;
             response_status := 200%float;
             response_json := Throws (new_Error "body already read");
             response_text := Returns "{}" |}.

Definition tracking_500 : Outcome Response :=
  Returns {| response_ok := false;
             response_status := 500%float;
             response_json := Throws (new_Error "body already read");
             response_text := Returns "Internal Server Error" |}.

Definition tracking_down : Outcome Response :=
  Throws {| err_is_Error := true; err_message := "fetch failed";
            err_String := "TypeError: fetch failed" |}.

Definition request (cpf cep : string) (total : float)
           (tp : option (gmap string string)) : CreatePixRequest :=
  {| customer := Some {| customer_name := Some "Ana Souza";
                         customer_email := Some "ana@example.com";
                         customer_cpf := Some cpf;
                         customer_phone := Some "(11) 99999-9999" |};
     address := {| address_cep := cep;
                   address_street := "Rua A";
                   address_number := "10";
                   address_complement := None;
                   address_neighborhood := "Centro";
                   address_city := "Sao Paulo";
                   address_state := "SP" |};
     items := Some [ {| item_id := "p1"; item_name := "Caderno";
                        item_price := 10%float; item_quantity := 2%float |} ];
     total := total;
     shipping := Some {| shipping_id := "s1"; shipping_name := "PAC";
                         shipping_price := 5%float; shipping_days := "5" |};
     trackingParams := tp |}.

(** A provider notification for the order above. *)
Definition payload (event token : string) : SlimPayWebhookPayload :=
  {| wh_event := event;
     wh_token := token;
     wh_offerCode := None;
     wh_client := {| wh_client_id := "c1";
                     wh_client_name := "Ana Souza";
                     wh_client_email := "ana@example.com";
                     wh_client_phone := "11999999999";
                     wh_client_cpf := Some "12345678901";
                     wh_client_cnpj := None;
                     wh_client_address := None |};
     wh_transaction := {| tx_id := "tx_1";
                          tx_identifier := "ORD-LQ2X7K3F-4FZYO8";
                          tx_status := "COMPLETED";
                          tx_paymentMethod := "PIX";
                          tx_originalCurrency := "BRL";
                          tx_originalAmount := 25%float;
                          tx_currency := "BRL";
                          tx_exchangeRate := None;
                          tx_installments := 1%float;
                          tx_amount := 25%float;
                          tx_createdAt := "2025-01-01T00:00:00.000Z";
                          tx_payedAt := Some "2025-01-01T00:05:00.000Z";
                          tx_pixInformation := None |};
     wh_orderItems := [ {| oi_id := "i1";
                           oi_price := 10%float;
                           oi_product := {| wh_product_id := "prod_1";
                                            wh_product_name := "Caderno";
                                            wh_product_externalId := Some "p1" |} |} ];
     wh_trackProps := None |}.

End Demo.

(* ===================================================================== *)
(** * Vocabulary of the properties                                        *)
(* ===================================================================== *)

(** [issues_only P m w]: every request issued by the run of [m] in [w]
    satisfies [P]. *)
Definition issues_only {A} (P : HttpRequest -> Prop) (m : Js A) (w : World) : Prop :=
  Forall P (calls_of m w).

(** [returns m w]: the run of [m] in [w] does not throw. *)
Definition returns {A} (m : Js A) (w : World) : Prop :=
  exists a, result_of m w = Returns a.

(** The five statuses of the Tracking Service. *)
Definition canonical_statuses : list string :=
  ["waiting_payment"; "paid"; "refused"; "refunded"; "chargedback"].

(** A field is missing when it is absent or empty. *)
Definition missing (field : option string) : Prop := field = None \/ field = Some "".

Module PixCreateSpec.
Import PixCreate.

(** What [POST] has established about a request once it goes on to create
    the charge: the four customer fields are truthy, the cart is not empty,
    and the cleaned document has eleven digits. *)
Definition accepted (body : CreatePixRequest)
           (name email cpf phone : string) (its : list Item) : Prop :=
  truthy (customer body ≫= customer_name) = Some name /\
  truthy (customer body ≫= customer_email) = Some email /\
  truthy (customer body ≫= customer_cpf) = Some cpf /\
  truthy (customer body ≫= customer_phone) = Some phone /\
  items body = Some its /\ its <> [] /\
  String.length (cpfClean cpf) = 11.

(** The 400 answers. *)
Definition rejected (w : World) (body : CreatePixRequest) : Prop :=
  exists msg, msg <> "" /\
    POST (Returns body) w = (Returns {| status := 400; json_body := ErrorJson msg |}, []).

(** What the charge request and the pending report of an accepted request
    carry. *)
Definition charge_of (body : CreatePixRequest) (cpf : string) (its : list Item)
           (data : SlimPayPixRequest) : Prop :=
  pix_amount data = finalAmount its (shipping body) /\
  client_document (pix_client data) = cpfClean cpf /\
  addr_zipCode <$> client_address (pix_client data)
    = Some (cepFormatted (address_cep (address body))) /\
  pix_metadata data =
    Some (spread_if "utm_campaign" (tracking_param (trackingParams body) "utm_campaign")
         (spread_if "utm_medium" (tracking_param (trackingParams body) "utm_medium")
         (spread_if "utm_source" (tracking_param (trackingParams body) "utm_source")
            {["source" := "CometaPapelaria"]}))).

Definition pending_report_of (body : CreatePixRequest) (its : list Item)
           (params : SendOrderParams) : Prop :=
  so_status params = "waiting_payment" /\
  so_commission params =
    {| so_totalPriceInCents := Math_round (finalAmount its (shipping body) * 100)%float;
       so_gatewayFeeInCents := 0%float;
       so_userCommissionInCents := Math_round (finalAmount its (shipping body) * 100)%float |}.

(** The request [body] with its [total] field replaced. *)
Definition with_total (body : CreatePixRequest) (spoofed : float) : CreatePixRequest :=
  {| customer := customer body;
     address := address body;
     items := items body;
     total := spoofed;
     shipping := shipping body;
     trackingParams := trackingParams body |}.

(** The metadata bag of a charge request, with the set of attribution
    parameters it echoes as a parameter [keys]: the bag holds the source tag,
    and for each key of [keys] present (non-empty) in [trackingParams], that
    entry; and nothing else. *)
Definition metadata_echoes (keys : list string) (body : CreatePixRequest)
           (data : SlimPayPixRequest) : Prop :=
  exists metadata : gmap string string,
    pix_metadata data = Some metadata /\
    forall k v,
      metadata !! k = Some v <->
      (k = "source" /\ v = "CometaPapelaria") \/
      (In k keys /\ v <> "" /\ tracking_param (trackingParams body) k = Some v).

Definition attribution_parameters : list string :=
  ["src"; "sck"; "utm_source"; "utm_medium"; "utm_campaign"; "utm_content"; "utm_term"].

End PixCreateSpec.

(** ** The runs of the handlers, spelled out *)

Module PixCreateRun.
Import PixCreate.

(** The identifier [generateOrderId] returns in [w]. *)
Definition orderId (w : World) : string :=
  toUpperCase ("ORD-" ++ Date_now_base36 w ++ "-" ++ slice 2 8 (Math_random_base36 w)).

(** The charge request of an accepted checkout. *)
Definition charge_request (w : World) (body : CreatePixRequest)
           (name email cpf phone : string) (its : list Item) : SlimPayPixRequest :=
  {| pix_identifier := orderId w;
     pix_amount := finalAmount its (shipping body);
     pix_shippingFee := Some (shippingFee (shipping body));
     pix_extraFee := None;
     pix_discount := Some 0%float;
     pix_client := {|
       client_name := name;
       client_email := email;
       client_phone := phoneClean phone;
       client_document := cpfClean cpf;
       client_cpf := Some (cpfClean cpf);
       client_cnpj := None;
       client_address := Some {|
         addr_country := "BR";
         addr_zipCode := cepFormatted (address_cep (address body));
         addr_state := address_state (address body);
         addr_city := address_city (address body);
         addr_neighborhood := address_neighborhood (address body);
         addr_street := address_street (address body);
         addr_number := address_number (address body);
         addr_complement := Some (or_string (address_complement (address body)) "") |} |};
     pix_products :=
       Some (map (fun item => {| product_id := item_id item;
                                 product_name := item_name item;
                                 product_price := item_price item;
                                 product_quantity := item_quantity item |})
                 its);
     pix_splits := None;
     pix_dueDate := None;
     pix_metadata :=
       Some (spread_if "utm_campaign" (tracking_param (trackingParams body) "utm_campaign")
            (spread_if "utm_medium" (tracking_param (trackingParams body) "utm_medium")
            (spread_if "utm_source" (tracking_param (trackingParams body) "utm_source")
               {["source" := "CometaPapelaria"]})));
     pix_callbackUrl :=
       Some (or_string (env_NEXT_PUBLIC_APP_URL w) "" ++ "/api/webhook/slimpay") |}.

(** The pending report of an accepted checkout. *)
Definition pending_report (w : World) (body : CreatePixRequest)
           (name email cpf phone : string) (its : list Item) : SendOrderParams :=
  {| so_orderId := orderId w;
     so_status := "waiting_payment";
     so_paymentMethod := "pix";
     so_customer := {|
       so_cust_name := name;
       so_cust_email := email;
       so_cust_phone := Some (phoneClean phone);
       so_cust_document := Some (cpfClean cpf);
       so_cust_country := None |};
     so_products :=
       map (fun item => {|
              so_prod_id := item_id item;
              so_prod_name := item_name item;
              so_prod_quantity := item_quantity item;
              so_prod_priceInCents := Math_round (item_price item * 100)%float |})
           its;
     so_commission := {|
       so_totalPriceInCents := Math_round (finalAmount its (shipping body) * 100)%float;
       so_gatewayFeeInCents := 0%float;
       so_userCommissionInCents := Math_round (finalAmount its (shipping body) * 100)%float |};
     so_trackingParams :=
       Some (match trackingParams body with Some tp => tp | None => ∅ end);
     so_approvedDate := None |}.

(** The answers of the handler. *)
Definition answer_error (code : Z) (msg : string) : NextResponse :=
  {| status := code; json_body := ErrorJson msg |}.

(** The answer to a charge the provider reports as created: the 200 built
    from the [pix] and [order] objects of the reply, or the 500 when the
    reply lacks one of them. *)
Definition answer_created (data : SlimPayPixRequest) (charge : SlimPayPixResponse)
  : NextResponse :=
  match resp_pix charge, resp_order charge with
  | Some pix, Some order =>
      {| status := 200;
         json_body :=
           PixCreatedJson (resp_transactionId charge) (pix_identifier data)
             (pix_qrCode pix) (pix_expiresAt pix)
             (order_id order) (order_amount order) |}
  | _, _ => answer_error 500 "Erro interno ao processar pagamento"
  end.

End PixCreateRun.

Module WebhookRun.

(** The report the webhook relays for [payload], with the status and the
    approval date of the branch taken. *)
Definition report (payload : SlimPayWebhookPayload) (status : string)
           (approvedDate : option string) : SendOrderParams :=
  let transaction := wh_transaction payload in
  let client := wh_client payload in
  {| so_orderId := tx_identifier transaction;
     so_status := status;
     so_paymentMethod := toLowerCase (tx_paymentMethod transaction);
     so_customer := {|
       so_cust_name := wh_client_name client;
       so_cust_email := wh_client_email client;
       so_cust_phone := Some (wh_client_phone client);
       so_cust_document := Some (SlimpayWebhook.document_of client);
       so_cust_country := None |};
     so_products :=
       map (fun item => {|
              so_prod_id := or_string (wh_product_externalId (oi_product item))
                                      (wh_product_id (oi_product item));
              so_prod_name := wh_product_name (oi_product item);
              so_prod_quantity := 1%float;
              so_prod_priceInCents := Math_round (oi_price item * 100)%float |})
           (wh_orderItems payload);
     so_commission := {|
       so_totalPriceInCents := Math_round (tx_amount transaction * 100)%float;
       so_gatewayFeeInCents := 0%float;
       so_userCommissionInCents := Math_round (tx_amount transaction * 100)%float |};
     so_trackingParams :=
       Some (match wh_trackProps payload with Some tp => tp | None => ∅ end);
     so_approvedDate := approvedDate |}.

(** The reports relayed for an event: none for [TRANSACTION_CREATED] and for
    an unknown event. *)
Definition relayed (payload : SlimPayWebhookPayload) : option SendOrderParams :=
  let event := wh_event payload in
  if String.eqb event "TRANSACTION_PAID" then
    Some (report payload "approved" (tx_payedAt (wh_transaction payload)))
  else if String.eqb event "TRANSACTION_CANCELED" then
    Some (report payload "refused" None)
  else if String.eqb event "TRANSACTION_REFUNDED" then
    Some (report payload "refunded" None)
  else None.

(** The acknowledgement. *)
Definition ack (payload : SlimPayWebhookPayload) : NextResponse :=
  {| status := 200;
     json_body := WebhookAckJson (wh_event payload)
                                 (tx_identifier (wh_transaction payload))
                                 (mapSlimPayStatus (tx_status (wh_transaction payload))) |}.

(** The token check lets the payload through. *)
Definition token_passes (w : World) (payload : SlimPayWebhookPayload) : Prop :=
  truthy (env_SLIMPAY_WEBHOOK_TOKEN w) = None \/
  env_SLIMPAY_WEBHOOK_TOKEN w = Some (wh_token payload).

End WebhookRun.

(** The order report [sendOrderToUtmfy] builds from its parameters and the
    two formatted dates. *)
Definition order_request (params : SendOrderParams)
           (createdAt approvedDate : option string) : UtmfyOrderRequest :=
  {| uo_orderId := so_orderId params;
     uo_platform := "CometaPapelaria";
     uo_paymentMethod := so_paymentMethod params;
     uo_status := utmfyStatus (so_status params);
     uo_createdAt := or_string createdAt "";
     uo_approvedDate := approvedDate;
     uo_refundedAt := None;
     uo_customer := {|
       ucust_name := so_cust_name (so_customer params);
       ucust_email := so_cust_email (so_customer params);
       ucust_phone := so_cust_phone (so_customer params);
       ucust_document := so_cust_document (so_customer params);
       ucust_country := Some (or_string (so_cust_country (so_customer params)) "BR");
       ucust_ip := None |};
     uo_products :=
       map (fun p => {| uprod_id := so_prod_id p;
                        uprod_name := so_prod_name p;
                        uprod_planId := None;
                        uprod_planName := None;
                        uprod_quantity := so_prod_quantity p;
                        uprod_priceInCents := so_prod_priceInCents p |})
           (so_products params);
     uo_trackingParameters := {|
       tp_src := or_null (tracking_param (so_trackingParams params) "src");
       tp_sck := or_null (tracking_param (so_trackingParams params) "sck");
       tp_utm_source := or_null (tracking_param (so_trackingParams params) "utm_source");
       tp_utm_campaign := or_null (tracking_param (so_trackingParams params) "utm_campaign");
       tp_utm_medium := or_null (tracking_param (so_trackingParams params) "utm_medium");
       tp_utm_content := or_null (tracking_param (so_trackingParams params) "utm_content");
       tp_utm_term := or_null (tracking_param (so_trackingParams params) "utm_term") |};
     uo_commission := {|
       totalPriceInCents := so_totalPriceInCents (so_commission params);
       gatewayFeeInCents := so_gatewayFeeInCents (so_commission params);
       userCommissionInCents := so_userCommissionInCents (so_commission params);
       commission_currency := Some "BRL" |};
     uo_isTest := None |}.

(** The HTTP request carrying an order report. *)
Definition order_post (order : UtmfyOrderRequest) : HttpRequest :=
  {| req_url := UTMFY_API_URL;
     req_method := "POST";
     req_headers := [("x-api-token", UTMFY_API_TOKEN);
                     ("Content-Type", "application/json")];
     req_body := OrderBody order |}.

(** The date format of the Tracking Service, applied to an ISO string. *)
Definition utmfy_format (iso : string) : string :=
  slice 0 19 (replace_first_char "T" " " iso).

(** The two dates of a report: [createdAt] from the clock and [approvedDate]
    from the parameter; the error when a date has no ISO form ([toISOString]
    throws). *)
Definition report_dates (params : SendOrderParams) (w : World)
  : Outcome (option string * option string) :=
  match toISOString (world_new_Date w None) with
  | Throws e => Throws e
  | Returns now =>
      match truthy (so_approvedDate params) with
      | None => Returns (Some (utmfy_format now), None)
      | Some d =>
          match toISOString (world_new_Date w (Some d)) with
          | Throws e => Throws e
          | Returns iso => Returns (Some (utmfy_format now), Some (utmfy_format iso))
          end
      end
  end.

(** [sendOrderToUtmfy] reports a thrown value as a failure without a body,
    and an answer by its [ok] flag and its body. *)
Definition send_failure (e : JsError) : SendResult :=
  {| sr_success := false; sr_error := Some (err_String e); sr_response := None |}.

Definition send_answered (response : Response) (text : string) : SendResult :=
  {| sr_success := response_ok response;
     sr_error := if response_ok response then None else Some text;
     sr_response := Some text |}.

(** The charge request as [createPixPayment] posts it. *)
Definition charge_post (publicKey secretKey : string) (data : SlimPayPixRequest)
  : HttpRequest :=
  {| req_url := "https://app.slimmpayy.com.br/api/v1/gateway/pix/receive";
     req_method := "POST";
     req_headers := [("Content-Type", "application/json");
                     ("x-public-key", publicKey);
                     ("x-secret-key", secretKey)];
     req_body := PixBody data |}.

(** The provider answers the charge request [data] with a success status
    and the truthy body [charge]. *)
Definition provider_created (w : World) (data : SlimPayPixRequest)
           (charge : SlimPayPixResponse) : Prop :=
  exists publicKey secretKey response result,
    truthy (env_SLIMPAY_PUBLIC_KEY w) = Some publicKey /\
    truthy (env_SLIMPAY_SECRET_KEY w) = Some secretKey /\
    world_fetch w (charge_post publicKey secretKey data) = Returns response /\
    response_ok response = true /\
    response_json response = Returns result /\
    as_SlimPayPixResponse result = Some charge.

(** A reply that lacks one of the two objects the 200 answer is built
    from. *)
Definition incomplete (charge : SlimPayPixResponse) : Prop :=
  resp_pix charge = None \/ resp_order charge = None.

(** The message of the error [getHeaders] throws. *)
Definition credentials_message : string :=
  "SlimPay credentials not configured. Please set SLIMPAY_PUBLIC_KEY and SLIMPAY_SECRET_KEY environment variables.".

(** The message [createPixPayment] and [getTransaction] report for a thrown
    value. *)
Definition thrown_message (e : JsError) : string :=
  if err_is_Error e then err_message e else "Erro de conexao com SlimPay".

(** The result of [createPixPayment] once the provider has answered and the
    body has been parsed: the body as data on a success status; on another
    status the body's message, or the default when it has none, with its
    error code; and when the body is [null], the message of the error that
    reading it throws. *)
Definition charge_answered (response : Response) (result : JsonValue) : PixResult :=
  if response_ok response
  then {| pr_success := true;
          pr_data := as_SlimPayPixResponse result;
          pr_error := None;
          pr_errorCode := None |}
  else match as_SlimPayError result with
       | Returns error =>
           {| pr_success := false;
              pr_data := None;
              pr_error := Some (or_string (error_message error) "Erro ao criar cobranca PIX");
              pr_errorCode := error_errorCode error |}
       | Throws e =>
           {| pr_success := false;
              pr_data := None;
              pr_error := Some (thrown_message e);
              pr_errorCode := None |}
       end.

Module PixStatusRun.
Import PixStatus.

(** The GET request of [getTransaction]. *)
Definition transaction_get (publicKey secretKey : string) (params : GetTransactionParams)
  : GetRequest :=
  {| get_url := "https://app.slimmpayy.com.br/api/v1/gateway/transactions";
     get_searchParams :=
       (match truthy (params_id params) with Some v => [("id", v)] | None => [] end ++
        match truthy (params_clientIdentifier params) with
        | Some v => [("clientIdentifier", v)]
        | None => []
        end)%list;
     get_method := "GET";
     get_headers := [("Content-Type", "application/json");
                     ("x-public-key", publicKey);
                     ("x-secret-key", secretKey)] |}.

(** The results of [getTransaction]. *)
Definition lookup_failure (msg : string) : TransactionResult :=
  {| tr_success := false; tr_data := None; tr_error := Some msg |}.

Definition lookup_answered (response : GetResponse) (result : TransactionJson)
  : TransactionResult :=
  if get_response_ok response
  then {| tr_success := true; tr_data := reply_as_SlimPayTransaction result;
          tr_error := None |}
  else match reply_as_SlimPayError result with
       | Returns error =>
           lookup_failure (or_string (error_message error) "Erro ao buscar transacao")
       | Throws e => lookup_failure (thrown_message e)
       end.

(** The provider answers the lookup [params] with a success status and the
    truthy body [transaction]. *)
Definition provider_found (qw : QueryWorld) (params : GetTransactionParams)
           (transaction : SlimPayTransaction) : Prop :=
  exists publicKey secretKey response result,
    truthy (env_SLIMPAY_PUBLIC_KEY (base_world qw)) = Some publicKey /\
    truthy (env_SLIMPAY_SECRET_KEY (base_world qw)) = Some secretKey /\
    world_fetch_get qw (transaction_get publicKey secretKey params) = Returns response /\
    get_response_ok response = true /\
    get_response_json response = Returns result /\
    reply_as_SlimPayTransaction result = Some transaction.

(** The parameters the handler passes to [getTransaction]. *)
Definition lookup_params (query : StatusQuery) : GetTransactionParams :=
  {| params_id := truthy (query_transactionId query);
     params_clientIdentifier := truthy (query_orderId query) |}.

(** The answers of the status route. *)
Definition status_error (code : Z) (msg : string) : StatusResponse :=
  {| status_code := code; status_body := StatusError msg |}.

(** The answer for a transaction the provider has found: the 200 with the
    transaction's properties, or the 500 when the transaction has no [status]
    to lower-case. *)
Definition status_found (transaction : SlimPayTransaction) : StatusResponse :=
  match transaction_status transaction with
  | Some status =>
      {| status_code := 200;
         status_body := StatusFound {|
           json_transactionId := transaction_id transaction;
           json_orderId := transaction_identifier transaction;
           json_status :=
             if String.eqb status "COMPLETED" then "paid" else toLowerCase status;
           json_paymentMethod := transaction_paymentMethod transaction;
           json_amount := transaction_amount transaction;
           json_currency := transaction_currency transaction;
           json_createdAt := transaction_createdAt transaction;
           json_paidAt := transaction_payedAt transaction;
           json_pixInfo :=
             match transaction_pixInformation transaction with
             | Some info => Some (pixinfo_endToEndId info)
             | None => None
             end |} |}
  | None => status_error 500 "Erro ao verificar status do pagamento"
  end.

(** A transaction for the examples. *)
Definition demo_transaction (status : option string) : SlimPayTransaction :=
  {| transaction_id := Some "tx_1";
     transaction_identifier := Some "ORD-LQ2X7K3F-4FZYO8";
     transaction_status := status;
     transaction_paymentMethod := Some "PIX";
     transaction_amount := Some 25%float;
     transaction_currency := Some "BRL";
     transaction_createdAt := Some "2025-01-01T00:00:00.000Z";
     transaction_payedAt := None;
     transaction_pixInformation := None |}.

End PixStatusRun.

(** Worlds and inputs for the examples of the further properties. *)
Module Scenario.
Import PixCreate.

Definition valid_date (iso : string) : Date := {| toISOString := Returns iso |}.

Definition invalid_date : Date :=
  {| toISOString := Throws {| err_is_Error := true;
                              err_message := "Invalid time value";
                              err_String := "RangeError: Invalid time value" |} |}.

(** The clock reads 2025-01-01 00:00:00; date strings are parsed, or not. *)
Definition parsing_dates (arg : option string) : Date :=
  match arg with
  | None => valid_date "2025-01-01T00:00:00.000Z"
  | Some _ => valid_date "2025-01-01T00:05:00.000Z"
  end.

Definition rejecting_dates (arg : option string) : Date :=
  match arg with
  | None => valid_date "2025-01-01T00:00:00.000Z"
  | Some _ => invalid_date
  end.

Definition world (publicKey : option string) (provider tracking : Outcome Response)
           (dates : option string -> Date) : World :=
  {| env_SLIMPAY_PUBLIC_KEY := publicKey;
     env_SLIMPAY_SECRET_KEY := Some "sk";
     env_SLIMPAY_WEBHOOK_TOKEN := None;
     env_NEXT_PUBLIC_APP_URL := None;
     Date_now_base36 := "lq2x7k3f";
     Math_random_base36 := "0.4fzyo82mvyr";
     world_new_Date := dates;
     world_fetch := fun r =>
       match req_body r with
       | PixBody _ => provider
       | OrderBody _ => tracking
       end |}.

Definition provider_ok : Outcome Response :=
  Returns {| response_ok := true;
             response_status := 200%float;
             response_json := Returns {| as_SlimPayError := Returns Demo.no_error;
                                         as_SlimPayPixResponse := Some Demo.charge |};
             response_text := Returns "" |}.

Definition invalid_document : JsonValue :=
  {| as_SlimPayError := Returns {| error_statusCode := Some 422%float;
                                   error_errorCode := Some "INVALID_DOCUMENT";
                                   error_message := Some "Documento invalido";
                                   error_details := None |};
     as_SlimPayPixResponse := None |}.

(** The body [null], and what reading a property of it throws. *)
Definition null_property : JsError :=
  TypeError "Cannot read properties of null (reading 'details')".

Definition json_null : JsonValue :=
  {| as_SlimPayError := Throws null_property; as_SlimPayPixResponse := None |}.

(** The body [{}]: an object without any of the properties read. *)
Definition no_charge : SlimPayPixResponse :=
  {| resp_transactionId := None; resp_status := None; resp_fee := None;
     resp_order := None; resp_pix := None;
     resp_details := None; resp_errorDescription := None |}.

Definition json_empty_object : JsonValue :=
  {| as_SlimPayError := Returns Demo.no_error; as_SlimPayPixResponse := Some no_charge |}.

Definition provider_answers (ok : bool) (body : JsonValue) : Outcome Response :=
  Returns {| response_ok := ok;
             response_status := (if ok then 200 else 500)%float;
             response_json := Returns body;
             response_text := Returns "" |}.

Definition provider_422 : Response :=
  {| response_ok := false;
     response_status := 422%float;
     response_json := Returns invalid_document;
     response_text := Returns "" |}.

Definition fetch_failed : JsError :=
  {| err_is_Error := true; err_message := "fetch failed";
     err_String := "TypeError: fetch failed" |}.

Definition body : CreatePixRequest :=
  Demo.request "123.456.789-01" "12345678" 25%float
               (Some {["src" := "fb"; "utm_source" := "ig"]}).

Definition cart : list Item :=
  [ {| item_id := "p1"; item_name := "Caderno";
       item_price := 10%float; item_quantity := 2%float |} ].

(** The lookup worlds: the provider's answer to the GET is a parameter. *)
Definition query_world (publicKey : option string)
           (answer : Outcome PixStatus.GetResponse) : PixStatus.QueryWorld :=
  {| PixStatus.base_world := world publicKey provider_ok Demo.tracking_ok parsing_dates;
     PixStatus.world_fetch_get := fun _ => answer |}.

Definition found (status : string) : PixStatus.GetResponse :=
  {| PixStatus.get_response_ok := true;
     PixStatus.get_response_json :=
       Returns {| PixStatus.reply_as_SlimPayError := Returns Demo.no_error;
                  PixStatus.reply_as_SlimPayTransaction :=
                    Some (PixStatusRun.demo_transaction (Some status)) |} |}.

(** A transaction found, without a [status]. *)
Definition found_without_status : PixStatus.GetResponse :=
  {| PixStatus.get_response_ok := true;
     PixStatus.get_response_json :=
       Returns {| PixStatus.reply_as_SlimPayError := Returns Demo.no_error;
                  PixStatus.reply_as_SlimPayTransaction :=
                    Some (PixStatusRun.demo_transaction None) |} |}.

Definition not_found : PixStatus.TransactionJson :=
  {| PixStatus.reply_as_SlimPayError :=
       Returns {| error_statusCode := Some 404%float; error_errorCode := Some "NOT_FOUND";
                  error_message := Some "Transaction not found"; error_details := None |};
     PixStatus.reply_as_SlimPayTransaction := None |}.

(** The lookup answered with the body [null]. *)
Definition reply_null : PixStatus.TransactionJson :=
  {| PixStatus.reply_as_SlimPayError :=
       Throws (TypeError "Cannot read properties of null (reading 'message')");
     PixStatus.reply_as_SlimPayTransaction := None |}.

Definition by_order : PixStatus.StatusQuery :=
  {| PixStatus.query_transactionId := None;
     PixStatus.query_orderId := Some "ORD-LQ2X7K3F-4FZYO8" |}.

End Scenario.

(** The result of a status lookup run. *)
Definition resultQ {A} (m : PixStatus.JsQ A) (w : PixStatus.QueryWorld) : Outcome A :=
  fst (m w).
Definition issuedQ {A} (m : PixStatus.JsQ A) (w : PixStatus.QueryWorld)
  : list PixStatus.Issued := snd (m w).

(* ===================================================================== *)
(** * [Math.round] on sample values                                       *)
(* ===================================================================== *)

#[local] Set Warnings "-inexact-float".

Example Math_round_2500 : Math_round (25 * 100)%float = 2500%float.
Proof. reflexivity. Qed.
Example Math_round_half_up : Math_round 2.5%float = 3%float.
Proof. reflexivity. Qed.
Example Math_round_neg_half : Math_round (-2.5)%float = (-2)%float.
Proof. reflexivity. Qed.
Example Math_round_below_half : Math_round 0x1.fffffffffffffp-2%float = 0%float.
Proof. reflexivity. Qed.
Example Math_round_cents : Math_round (19.99 * 100)%float = 1999%float.
Proof. reflexivity. Qed.
Example Math_round_neg_small : Math_round (-0.7)%float = (-1)%float.
Proof. reflexivity. Qed.
Example Math_round_big : Math_round 0x1p+60%float = 0x1p+60%float.
Proof. reflexivity. Qed.
Example Math_round_tiny : Math_round 0x1p-1074%float = 0%float.
Proof. reflexivity. Qed.

(* ===================================================================== *)
(** * Reasoning about runs                                                *)
(* ===================================================================== *)

Section Runs.
Context {A B : Type}.
Implicit Types (m : Js A) (k : A -> Js B) (h : JsError -> Js A) (w : World).

Lemma run_bind m k w :
  bind m k w = match m w with
               | (Returns a, t) => let (r, t') := k a w in (r, (t ++ t')%list)
               | (Throws e, t) => (Throws e, t)
               end.
Proof. reflexivity. Qed.

Lemma run_try_catch m h w :
  try_catch m h w = match m w with
                    | (Returns a, t) => (Returns a, t)
                    | (Throws e, t) => let (r, t') := h e w in (r, (t ++ t')%list)
                    end.
Proof. reflexivity. Qed.

(** A step that returns without issuing a request. *)
Lemma run_bind_pure m k w a : m w = (Returns a, []) -> bind m k w = k a w.
Proof. intros E. rewrite run_bind, E. now destruct (k a w). Qed.

Lemma result_bind_returns m k w a :
  result_of m w = Returns a -> result_of (bind m k) w = result_of (k a) w.
Proof.
  unfold result_of, bind. destruct (m w) as [[x|e] t]; simpl; intros E; [|discriminate].
  injection E as ->. now destruct (k a w).
Qed.

Lemma result_bind_throws m k w e :
  result_of m w = Throws e -> result_of (bind m k) w = Throws e.
Proof.
  unfold result_of, bind. destruct (m w) as [[x|e'] t]; simpl; intros E; [discriminate|].
  now injection E as ->.
Qed.

Lemma calls_bind_returns m k w a :
  result_of m w = Returns a ->
  calls_of (bind m k) w = (calls_of m w ++ calls_of (k a) w)%list.
Proof.
  unfold result_of, calls_of, bind. destruct (m w) as [[x|e] t]; simpl; intros E; [|discriminate].
  injection E as ->. now destruct (k a w).
Qed.

Lemma calls_bind_throws m k w e :
  result_of m w = Throws e -> calls_of (bind m k) w = calls_of m w.
Proof.
  unfold result_of, calls_of, bind. destruct (m w) as [[x|e'] t]; simpl; intros E;
    [discriminate|reflexivity].
Qed.

Lemma result_try_returns m h w a :
  result_of m w = Returns a -> result_of (try_catch m h) w = Returns a.
Proof.
  unfold result_of, try_catch. destruct (m w) as [[x|e] t]; simpl; intros E;
    [assumption|discriminate].
Qed.

Lemma result_try_throws m h w e :
  result_of m w = Throws e -> result_of (try_catch m h) w = result_of (h e) w.
Proof.
  unfold result_of, try_catch. destruct (m w) as [[x|e'] t]; simpl; intros E; [discriminate|].
  injection E as ->. now destruct (h e w).
Qed.

Lemma calls_try_returns m h w a :
  result_of m w = Returns a -> calls_of (try_catch m h) w = calls_of m w.
Proof.
  unfold result_of, calls_of, try_catch. destruct (m w) as [[x|e] t]; simpl; intros E;
    [reflexivity|discriminate].
Qed.

Lemma calls_try_throws m h w e :
  result_of m w = Throws e ->
  calls_of (try_catch m h) w = (calls_of m w ++ calls_of (h e) w)%list.
Proof.
  unfold result_of, calls_of, try_catch. destruct (m w) as [[x|e'] t]; simpl; intros E;
    [discriminate|].
  injection E as ->. now destruct (h e w).
Qed.
End Runs.

Section Rules.
Context {A B : Type} (P : HttpRequest -> Prop) (w : World).

Lemma issues_ret (a : A) : issues_only P (ret a) w.
Proof. constructor. Qed.

Lemma issues_throw (e : JsError) : issues_only P (@throw A e) w.
Proof. constructor. Qed.

Lemma issues_await (o : Outcome A) : issues_only P (await o) w.
Proof. constructor. Qed.

Lemma issues_process_env var : issues_only P (process_env var) w.
Proof. constructor. Qed.

Lemma issues_new_Date arg : issues_only P (new_Date arg) w.
Proof. constructor. Qed.

Lemma issues_generateOrderId : issues_only P generateOrderId w.
Proof. constructor. Qed.

Lemma issues_fetch r : P r -> issues_only P (fetch r) w.
Proof. intros H. repeat constructor. exact H. Qed.

Lemma issues_bind (m : Js A) (k : A -> Js B) :
  issues_only P m w ->
  (forall a, result_of m w = Returns a -> issues_only P (k a) w) ->
  issues_only P (bind m k) w.
Proof.
  unfold issues_only. intros Hm Hk.
  destruct (result_of m w) as [a|e] eqn:E.
  - rewrite (calls_bind_returns _ _ _ _ E). apply Forall_app. split; [exact Hm|now apply Hk].
  - now rewrite (calls_bind_throws _ _ _ _ E).
Qed.

Lemma issues_try_catch (m : Js A) (h : JsError -> Js A) :
  issues_only P m w ->
  (forall e, result_of m w = Throws e -> issues_only P (h e) w) ->
  issues_only P (try_catch m h) w.
Proof.
  unfold issues_only. intros Hm Hh.
  destruct (result_of m w) as [a|e] eqn:E.
  - now rewrite (calls_try_returns _ _ _ _ E).
  - rewrite (calls_try_throws _ _ _ _ E). apply Forall_app. split; [exact Hm|now apply Hh].
Qed.

Lemma returns_ret (a : A) : returns (ret a) w.
Proof. now exists a. Qed.

Lemma returns_try_catch (m : Js A) (h : JsError -> Js A) :
  (forall e, returns (h e) w) -> returns (try_catch m h) w.
Proof.
  intros Hh. unfold returns. destruct (result_of m w) as [a|e] eqn:E.
  - exists a. now apply result_try_returns.
  - rewrite (result_try_throws _ _ _ _ E). apply Hh.
Qed.
End Rules.

Lemma issues_only_impl {A} (P Q : HttpRequest -> Prop) (m : Js A) (w : World) :
  (forall r, P r -> Q r) -> issues_only P m w -> issues_only Q m w.
Proof. unfold issues_only. rewrite !List.Forall_forall. intros HPQ H r Hr. auto. Qed.

Lemma issues_only_nil {A} (P : HttpRequest -> Prop) (m : Js A) (w : World) :
  calls_of m w = [] -> issues_only P m w.
Proof. unfold issues_only. intros ->. constructor. Qed.

Create HintDb js.

#[local] Hint Resolve issues_ret issues_throw issues_await issues_process_env
  issues_new_Date issues_generateOrderId returns_ret : js.

(** Follows binds, handlers and branches down to the [fetch] calls, which
    are left as goals. *)
Ltac issues_step :=
  match goal with
  | |- issues_only _ (bind _ _) _ => apply issues_bind; [|intros ? ?]
  | |- issues_only _ (try_catch _ _) _ => apply issues_try_catch; [|intros ? ?]
  | |- issues_only _ (fetch _) _ => apply issues_fetch
  | |- issues_only _ (match ?x with _ => _ end) _ => destruct x eqn:?
  | |- issues_only _ _ _ => solve [auto with js]
  end.

(* ===================================================================== *)
(** * Facts about values                                                  *)
(* ===================================================================== *)

Lemma truthy_Some o s : truthy o = Some s <-> o = Some s /\ s <> "".
Proof.
  unfold truthy. destruct o as [x|]; [|split; [discriminate|intros [? _]; discriminate]].
  destruct (String.eqb_spec x "") as [->|Hne]; split.
  - discriminate.
  - intros [[= <-] H]. now elim H.
  - intros [= ->]. now split.
  - now intros [[= ->] _].
Qed.

Lemma truthy_None o : truthy o = None <-> o = None \/ o = Some "".
Proof.
  unfold truthy. destruct o as [x|]; [|split; auto].
  destruct (String.eqb_spec x "") as [->|Hne].
  - split; auto.
  - split; [discriminate|]. intros [|[= ->]]; [discriminate|now elim Hne].
Qed.

Lemma replace_non_digits_filter s :
  list_ascii_of_string (replace_non_digits s) = List.filter is_digit (list_ascii_of_string s).
Proof.
  induction s as [|c s IH]; [reflexivity|].
  simpl. destruct (is_digit c); simpl; now rewrite IH.
Qed.

(* ===================================================================== *)
(** * The two clients                                                     *)
(* ===================================================================== *)

(** ** [createPixPayment] *)

Lemma getHeaders_no_calls w : calls_of getHeaders w = [].
Proof.
  unfold calls_of, getHeaders, bind, process_env. simpl.
  destruct (truthy (env_SLIMPAY_PUBLIC_KEY w)), (truthy (env_SLIMPAY_SECRET_KEY w)); reflexivity.
Qed.

(** The only request [createPixPayment data] can issue carries [data]. *)
Lemma createPixPayment_issues data w :
  issues_only (fun r => req_body r = PixBody data) (createPixPayment data) w.
Proof.
  unfold createPixPayment.
  apply issues_try_catch; [|intros; auto with js].
  apply issues_bind; [apply issues_only_nil, getHeaders_no_calls|intros headers _].
  repeat issues_step. reflexivity.
Qed.

(** [createPixPayment] catches everything: it never throws. *)
Lemma createPixPayment_returns data w : returns (createPixPayment data) w.
Proof. apply returns_try_catch. intros e. apply returns_ret. Qed.

(** With both credentials set, exactly one request goes out, and the result
    is read off the provider's reply. *)
Lemma createPixPayment_configured data w publicKey secretKey :
  truthy (env_SLIMPAY_PUBLIC_KEY w) = Some publicKey ->
  truthy (env_SLIMPAY_SECRET_KEY w) = Some secretKey ->
  let r := {| req_url := "https://app.slimmpayy.com.br/api/v1/gateway/pix/receive";
              req_method := "POST";
              req_headers := [("Content-Type", "application/json");
                              ("x-public-key", publicKey);
                              ("x-secret-key", secretKey)];
              req_body := PixBody data |} in
  calls_of (createPixPayment data) w = [r] /\
  forall response result,
    world_fetch w r = Returns response ->
    response_json response = Returns result ->
    result_of (createPixPayment data) w = Returns (charge_answered response result).
Proof.
  intros Hpk Hsk r.
  unfold calls_of, result_of, createPixPayment, try_catch, bind, getHeaders, process_env,
    fetch, await, ret, charge_answered, thrown_message.
  cbn -[or_string]. rewrite Hpk, Hsk. cbn -[or_string].
  change {| req_url := _; req_method := _; req_headers := _; req_body := _ |} with r.
  split.
  - destruct (world_fetch w r) as [response|e]; [|reflexivity].
    destruct (response_json response) as [result|]; [|reflexivity].
    destruct (response_ok response); [reflexivity|].
    cbn -[or_string]. destruct (as_SlimPayError result); reflexivity.
  - intros response result -> ->. destruct (response_ok response); [reflexivity|].
    cbn -[or_string]. destruct (as_SlimPayError result); reflexivity.
Qed.

(** Once the provider has answered and the body has been parsed, the result
    follows the [ok] flag of the answer. *)
Lemma createPixPayment_on_response data w r response result :
  In r (calls_of (createPixPayment data) w) ->
  world_fetch w r = Returns response ->
  response_json response = Returns result ->
  result_of (createPixPayment data) w = Returns (charge_answered response result).
Proof.
  destruct (truthy (env_SLIMPAY_PUBLIC_KEY w)) as [publicKey|] eqn:Hpk.
  - destruct (truthy (env_SLIMPAY_SECRET_KEY w)) as [secretKey|] eqn:Hsk.
    + destruct (createPixPayment_configured data w publicKey secretKey Hpk Hsk) as [Hcalls Hres].
      rewrite Hcalls. intros [<-|[]]. apply Hres.
    + unfold calls_of, createPixPayment, try_catch, bind, getHeaders, process_env.
      cbn -[truthy]. rewrite Hpk, Hsk. simpl. intros [].
  - unfold calls_of, createPixPayment, try_catch, bind, getHeaders, process_env.
    cbn -[truthy]. rewrite Hpk. simpl. intros [].
Qed.

(** ** [sendOrderToUtmfy] *)

Lemma formatUtmfyDate_no_calls date w : calls_of (formatUtmfyDate date) w = [].
Proof.
  unfold calls_of, formatUtmfyDate, bind, await, new_Date, ret.
  destruct date as [d|s|]; [| |reflexivity].
  - destruct (toISOString d); reflexivity.
  - destruct (String.eqb s ""); [reflexivity|].
    destruct (toISOString (world_new_Date w (Some s))); reflexivity.
Qed.

(** The only request [sendOrderToUtmfy params] can issue is an order report
    whose status is [utmfyStatus] of the parameter and whose commission is
    the parameter's, in BRL. *)
Lemma sendOrderToUtmfy_issues params w :
  issues_only
    (fun r => exists order,
         req_body r = OrderBody order /\
         uo_orderId order = so_orderId params /\
         uo_status order = utmfyStatus (so_status params) /\
         uo_commission order =
           {| totalPriceInCents := so_totalPriceInCents (so_commission params);
              gatewayFeeInCents := so_gatewayFeeInCents (so_commission params);
              userCommissionInCents := so_userCommissionInCents (so_commission params);
              commission_currency := Some "BRL" |})
    (sendOrderToUtmfy params) w.
Proof.
  unfold sendOrderToUtmfy.
  apply issues_try_catch; [|intros; auto with js].
  apply issues_bind; [auto with js|intros now _].
  apply issues_bind; [apply issues_only_nil, formatUtmfyDate_no_calls|intros createdAt _].
  apply issues_bind.
  { destruct (truthy (so_approvedDate params));
      [apply issues_only_nil, formatUtmfyDate_no_calls|auto with js]. }
  intros approvedDate _.
  repeat issues_step.
  eexists. repeat split.
Qed.

(** [sendOrderToUtmfy] catches everything: it never throws. *)
Lemma sendOrderToUtmfy_returns params w : returns (sendOrderToUtmfy params) w.
Proof. apply returns_try_catch. intros e. apply returns_ret. Qed.

(** Hence the guarded call in the handlers always completes. *)
Lemma guarded_send_returns params w :
  result_of (try_catch (_ <- sendOrderToUtmfy params ;; ret tt) (fun utmfyError => ret tt)) w
  = Returns tt.
Proof.
  destruct (sendOrderToUtmfy_returns params w) as [r Hr].
  erewrite result_try_returns; [reflexivity|].
  now rewrite (result_bind_returns _ _ _ _ Hr).
Qed.

Lemma guarded_send_issues P params w :
  issues_only P (sendOrderToUtmfy params) w ->
  issues_only P (try_catch (_ <- sendOrderToUtmfy params ;; ret tt) (fun utmfyError => ret tt)) w.
Proof. intros H. repeat issues_step. Qed.

Lemma approvedDate_no_calls (approvedDate : option string) w :
  calls_of (match truthy approvedDate with
            | Some d => formatUtmfyDate (ArgString d)
            | None => ret None
            end) w = [].
Proof.
  destruct (truthy approvedDate); [apply formatUtmfyDate_no_calls|reflexivity].
Qed.

Lemma guarded_send_run params w :
  try_catch (_ <- sendOrderToUtmfy params ;; ret tt) (fun utmfyError => ret tt) w
  = (Returns tt, calls_of (sendOrderToUtmfy params) w).
Proof.
  destruct (sendOrderToUtmfy_returns params w) as [r Hr].
  unfold result_of, calls_of in *. unfold try_catch, bind, ret.
  destruct (sendOrderToUtmfy params w) as [o t]. simpl in Hr. subst o. simpl.
  now rewrite app_nil_r.
Qed.

(** The run of [sendOrderToUtmfy]: nothing is sent when a date has no ISO
    form; otherwise the order report is sent, and the result follows the
    answer. *)
Lemma sendOrderToUtmfy_run params w :
  sendOrderToUtmfy params w =
    match report_dates params w with
    | Throws e => (Returns (send_failure e), [])
    | Returns (createdAt, approvedDate) =>
        let post := order_post (order_request params createdAt approvedDate) in
        (Returns match world_fetch w post with
                 | Throws e => send_failure e
                 | Returns response =>
                     match response_text response with
                     | Throws e => send_failure e
                     | Returns text => send_answered response text
                     end
                 end,
         [post])
    end.
Proof.
  unfold report_dates, sendOrderToUtmfy.
  rewrite run_try_catch.
  rewrite (run_bind_pure (new_Date None) _ w _ eq_refl).
  rewrite run_bind. unfold formatUtmfyDate at 1.
  rewrite run_bind. unfold await at 1.
  destruct (toISOString (world_new_Date w None)) as [now|e]; [|reflexivity].
  unfold ret at 1. cbv iota beta. simpl app.
  rewrite run_bind.
  destruct (truthy (so_approvedDate params)) as [d|] eqn:Ed.
  - apply truthy_Some in Ed. destruct Ed as [_ Hne].
    apply String.eqb_neq in Hne.
    unfold formatUtmfyDate. rewrite Hne.
    rewrite (run_bind_pure (new_Date (Some d)) _ w _ eq_refl).
    rewrite run_bind. unfold await at 1.
    destruct (toISOString (world_new_Date w (Some d))) as [iso|e]; [|reflexivity].
    unfold ret at 1. cbv iota beta zeta. simpl app.
    rewrite run_bind. unfold fetch.
    fold (utmfy_format now). fold (utmfy_format iso).
    change {| req_url := _; req_method := _; req_headers := _; req_body := _ |}
      with (order_post (order_request params (Some (utmfy_format now)) (Some (utmfy_format iso)))).
    destruct (world_fetch w _) as [response|e]; [|reflexivity].
    rewrite run_bind. unfold await, ret, send_answered.
    destruct (response_text response); [|reflexivity].
    destruct (response_ok response); reflexivity.
  - unfold ret at 1. cbv iota beta zeta. simpl app.
    rewrite run_bind. unfold fetch.
    fold (utmfy_format now).
    change {| req_url := _; req_method := _; req_headers := _; req_body := _ |}
      with (order_post (order_request params (Some (utmfy_format now)) None)).
    destruct (world_fetch w _) as [response|e]; [|reflexivity].
    rewrite run_bind. unfold await, ret, send_answered.
    destruct (response_text response); [|reflexivity].
    destruct (response_ok response); reflexivity.
Qed.

Lemma sendOrderToUtmfy_calls params w :
  calls_of (sendOrderToUtmfy params) w =
    match report_dates params w with
    | Returns (createdAt, approvedDate) =>
        [order_post (order_request params createdAt approvedDate)]
    | Throws _ => []
    end.
Proof.
  unfold calls_of. rewrite sendOrderToUtmfy_run.
  destruct (report_dates params w) as [[createdAt approvedDate]|e]; reflexivity.
Qed.

(* ===================================================================== *)
(** * The charge-creation handler                                         *)
(* ===================================================================== *)

Section PixCreateFacts.
Import PixCreate PixCreateSpec.

Lemma POST_incomplete w body :
  truthy (customer body ≫= customer_name) = None \/
  truthy (customer body ≫= customer_email) = None \/
  truthy (customer body ≫= customer_cpf) = None \/
  truthy (customer body ≫= customer_phone) = None ->
  POST (Returns body) w =
    (Returns {| status := 400; json_body := ErrorJson "Dados do cliente incompletos" |}, []).
Proof.
  intros H. unfold POST, try_catch, bind, await, ret. cbv zeta.
  destruct (truthy (customer body ≫= customer_name)),
           (truthy (customer body ≫= customer_email)),
           (truthy (customer body ≫= customer_cpf)),
           (truthy (customer body ≫= customer_phone));
    try reflexivity.
  exfalso. destruct H as [H|[H|[H|H]]]; discriminate.
Qed.

Lemma POST_empty_cart w body name email cpf phone :
  truthy (customer body ≫= customer_name) = Some name ->
  truthy (customer body ≫= customer_email) = Some email ->
  truthy (customer body ≫= customer_cpf) = Some cpf ->
  truthy (customer body ≫= customer_phone) = Some phone ->
  items body = None \/ items body = Some [] ->
  POST (Returns body) w =
    (Returns {| status := 400; json_body := ErrorJson "Carrinho vazio" |}, []).
Proof.
  intros Hn He Hc Hp Hi. unfold POST, try_catch, bind, await, ret. cbv zeta.
  rewrite Hn, He, Hc, Hp. destruct Hi as [-> | ->]; reflexivity.
Qed.

Lemma POST_bad_cpf w body name email cpf phone :
  truthy (customer body ≫= customer_name) = Some name ->
  truthy (customer body ≫= customer_email) = Some email ->
  truthy (customer body ≫= customer_cpf) = Some cpf ->
  truthy (customer body ≫= customer_phone) = Some phone ->
  String.length (cpfClean cpf) <> 11 ->
  rejected w body.
Proof.
  intros Hn He Hc Hp Hlen.
  destruct (items body) as [[|item rest]|] eqn:Hi.
  - exists "Carrinho vazio". split; [discriminate|].
    apply (POST_empty_cart w body name email cpf phone); auto.
  - exists "CPF invalido. Deve conter 11 digitos.". split; [discriminate|].
    unfold POST, try_catch, bind, await, ret, generateOrderId. cbv zeta.
    rewrite Hn, He, Hc, Hp, Hi.
    apply Nat.eqb_neq in Hlen. rewrite Hlen. reflexivity.
  - exists "Carrinho vazio". split; [discriminate|].
    apply (POST_empty_cart w body name email cpf phone); auto.
Qed.

(** Every request is either answered 400 before any outbound call, or
    accepted. *)
Lemma POST_rejected_or_accepted w body :
  rejected w body \/ exists name email cpf phone its, accepted body name email cpf phone its.
Proof.
  destruct (truthy (customer body ≫= customer_name)) as [name|] eqn:Hn;
    [|left; eexists; split; [|apply POST_incomplete; auto]; discriminate].
  destruct (truthy (customer body ≫= customer_email)) as [email|] eqn:He;
    [|left; eexists; split; [|apply POST_incomplete; auto]; discriminate].
  destruct (truthy (customer body ≫= customer_cpf)) as [cpf|] eqn:Hc;
    [|left; eexists; split; [|apply POST_incomplete; auto]; discriminate].
  destruct (truthy (customer body ≫= customer_phone)) as [phone|] eqn:Hp;
    [|left; eexists; split; [|apply POST_incomplete; auto]; discriminate].
  destruct (Nat.eq_dec (String.length (cpfClean cpf)) 11) as [Hlen|Hlen];
    [|left; eapply POST_bad_cpf; eauto].
  destruct (items body) as [[|item rest]|] eqn:Hi.
  - left. eexists; split; [|eapply POST_empty_cart; eauto]; discriminate.
  - right. exists name, email, cpf, phone, (item :: rest). repeat split; auto; discriminate.
  - left. eexists; split; [|eapply POST_empty_cart; eauto]; discriminate.
Qed.

(** The run of [POST] on an accepted request: one call of
    [createPixPayment]; when it succeeds with data, one guarded call of
    [sendOrderToUtmfy] and the 200 answer; otherwise the provider's error as
    a 400. *)
Lemma POST_accepted w body name email cpf phone its :
  accepted body name email cpf phone its ->
  exists data params,
    charge_of body cpf its data /\
    pending_report_of body its params /\
    POST (Returns body) w =
      (match result_of (createPixPayment data) w with
       | Returns pixResult =>
           match pr_success pixResult, pr_data pixResult with
           | true, Some charge => Returns (PixCreateRun.answer_created data charge)
           | _, _ =>
               Returns {| status := 400;
                          json_body := ErrorJson (or_string (pr_error pixResult)
                                                            "Erro ao gerar PIX") |}
           end
       | Throws _ =>
           Returns {| status := 500;
                      json_body := ErrorJson "Erro interno ao processar pagamento" |}
       end,
       calls_of (createPixPayment data) w ++
       match result_of (createPixPayment data) w with
       | Returns pixResult =>
           match pr_success pixResult, pr_data pixResult with
           | true, Some _ => calls_of (sendOrderToUtmfy params) w
           | _, _ => []
           end
       | Throws _ => []
       end)%list.
Proof.
  intros (Hn & He & Hc & Hp & Hi & Hne & Hlen).
  destruct its as [|item rest]; [congruence|].
  remember (POST (Returns body) w) as X eqn:HX.
  unfold POST in HX. rewrite run_try_catch in HX.
  rewrite (run_bind_pure (await (Returns body)) _ w body eq_refl) in HX.
  cbv zeta in HX. rewrite Hn, He, Hc, Hp, Hi in HX.
  rewrite (run_bind_pure generateOrderId _ w _ eq_refl) in HX.
  rewrite Hlen in HX. change (negb (11 =? 11)%nat) with false in HX. cbv iota in HX.
  rewrite (run_bind_pure (process_env _) _ w _ eq_refl) in HX.
  rewrite run_bind in HX.
  lazymatch type of HX with context [createPixPayment ?d w] => exists d end.
  lazymatch type of HX with context [sendOrderToUtmfy ?p] => exists p end.
  split; [repeat split|]. split; [repeat split|].
  subst X. unfold result_of, calls_of.
  match goal with
  | |- context [createPixPayment ?d w] =>
      destruct (createPixPayment d w) as [[pixResult|e] t]
  end; simpl.
  2: { now rewrite app_nil_r. }
  destruct (pr_success pixResult), (pr_data pixResult) as [charge|]; simpl;
    rewrite ?run_bind, ?guarded_send_run; unfold ret, throw, PixCreateRun.answer_created;
    try destruct (resp_pix charge) as [pix|]; try destruct (resp_order charge) as [order|];
    simpl; rewrite ?app_nil_r; reflexivity.
Qed.

Lemma in_slimpay_requests t data :
  In data (slimpay_requests t) <-> exists r, In r t /\ req_body r = PixBody data.
Proof.
  unfold slimpay_requests. rewrite in_flat_map. split.
  - intros (r & Hr & Hd). exists r. split; [exact Hr|].
    destruct (req_body r); simpl in Hd; [|contradiction].
    destruct Hd as [->|[]]. reflexivity.
  - intros (r & Hr & Hb). exists r. split; [exact Hr|]. rewrite Hb. now left.
Qed.

Lemma in_utmfy_orders t order :
  In order (utmfy_orders t) <-> exists r, In r t /\ req_body r = OrderBody order.
Proof.
  unfold utmfy_orders. rewrite in_flat_map. split.
  - intros (r & Hr & Hd). exists r. split; [exact Hr|].
    destruct (req_body r); simpl in Hd; [contradiction|].
    destruct Hd as [->|[]]. reflexivity.
  - intros (r & Hr & Hb). exists r. split; [exact Hr|]. rewrite Hb. now left.
Qed.

(** Every request [POST] issues belongs to an accepted request and is its
    charge request or its pending report. *)
Lemma POST_calls w body r :
  In r (calls_of (POST (Returns body)) w) ->
  exists name email cpf phone its data,
    accepted body name email cpf phone its /\
    charge_of body cpf its data /\
    (req_body r = PixBody data \/
     exists order,
       req_body r = OrderBody order /\
       uo_status order = "waiting_payment" /\
       uo_commission order =
         {| totalPriceInCents := Math_round (finalAmount its (shipping body) * 100)%float;
            gatewayFeeInCents := 0%float;
            userCommissionInCents := Math_round (finalAmount its (shipping body) * 100)%float;
            commission_currency := Some "BRL" |}).
Proof.
  intros Hr.
  destruct (POST_rejected_or_accepted w body) as [(msg & _ & E)|(name & email & cpf & phone & its & Hacc)].
  { unfold calls_of in Hr. rewrite E in Hr. destruct Hr. }
  destruct (POST_accepted w body name email cpf phone its Hacc)
    as (data & params & Hdata & (Hst & Hcom) & E).
  exists name, email, cpf, phone, its, data. split; [exact Hacc|]. split; [exact Hdata|].
  unfold calls_of in Hr. rewrite E in Hr. simpl in Hr.
  apply in_app_or in Hr. destruct Hr as [Hr|Hr].
  - left. pose proof (createPixPayment_issues data w) as H.
    unfold issues_only in H. rewrite List.Forall_forall in H. now apply H.
  - right.
    assert (Hs : In r (calls_of (sendOrderToUtmfy params) w)).
    { destruct (result_of (createPixPayment data) w) as [pixResult|]; [|destruct Hr].
      destruct (pr_success pixResult), (pr_data pixResult); solve [exact Hr | destruct Hr]. }
    pose proof (sendOrderToUtmfy_issues params w) as H.
    unfold issues_only in H. rewrite List.Forall_forall in H.
    destruct (H r Hs) as (order & Hb & _ & Hstatus & Hcommission).
    exists order. split; [exact Hb|]. rewrite Hstatus, Hcommission, Hst, Hcom. now split.
Qed.

Lemma cepFormatted_eight cep :
  String.length (cepNumbers cep) = 8 ->
  cepFormatted cep
  = String.substring 0 5 (cepNumbers cep) ++ "-" ++ String.substring 5 3 (cepNumbers cep).
Proof. intros H. unfold cepFormatted, slice, slice_from. now rewrite H. Qed.

Lemma cepFormatted_other cep :
  String.length (cepNumbers cep) <> 8 -> cepFormatted cep = cepNumbers cep.
Proof. intros H. unfold cepFormatted. apply Nat.eqb_neq in H. now rewrite H. Qed.

Lemma lookup_spread_if key value m k :
  spread_if key value m !! k =
    if decide (key = k) then
      match truthy value with Some v => Some v | None => m !! k end
    else m !! k.
Proof.
  unfold spread_if. destruct (truthy value) as [v|].
  - rewrite lookup_insert. reflexivity.
  - now destruct (decide (key = k)).
Qed.

Lemma metadata_lookup tp k v :
  spread_if "utm_campaign" (tracking_param tp "utm_campaign")
    (spread_if "utm_medium" (tracking_param tp "utm_medium")
      (spread_if "utm_source" (tracking_param tp "utm_source")
         {["source" := "CometaPapelaria"]})) !! k = Some v
  <-> (k = "source" /\ v = "CometaPapelaria") \/
      (In k ["utm_source"; "utm_medium"; "utm_campaign"] /\
       v <> "" /\ tracking_param tp k = Some v).
Proof.
  rewrite !lookup_spread_if, lookup_singleton.
  repeat case_decide; subst; simpl.
  all: try (destruct (truthy (tracking_param tp _)) as [x|] eqn:E).
  all: try (apply truthy_Some in E; destruct E as [E Hne]).
  all: try (apply truthy_None in E).
  all: split; [intros Hv|intros [[Ha Hb]|(Ha & Hb & Hc)]]; try discriminate; try congruence.
  all: simplify_eq; simpl in *; try solve [intuition (try congruence; try discriminate)].
Qed.

End PixCreateFacts.

(* ===================================================================== *)
(** * The webhook handler                                                 *)
(* ===================================================================== *)

Lemma webhook_invalid_token w payload expected :
  env_SLIMPAY_WEBHOOK_TOKEN w = Some expected -> expected <> "" ->
  wh_token payload <> expected ->
  SlimpayWebhook.POST (Returns payload) w =
    (Returns {| status := 401; json_body := ErrorJson "Invalid token" |}, []).
Proof.
  intros Henv Hne Htok. unfold SlimpayWebhook.POST.
  rewrite run_try_catch.
  rewrite (run_bind_pure (await (Returns payload)) _ w payload eq_refl).
  rewrite (run_bind_pure (process_env _) _ w _ eq_refl).
  assert (Ht : truthy (env_SLIMPAY_WEBHOOK_TOKEN w) = Some expected)
    by now apply truthy_Some.
  unfold is_truthy, verifyWebhookToken. rewrite Ht.
  apply String.eqb_neq in Htok. rewrite Htok. reflexivity.
Qed.

(** Every report the webhook relays has a zero gateway fee and the rounded
    transaction amount as both gross and net, and one of the three statuses
    of the relaying branches. *)
Lemma webhook_issues w payload :
  issues_only
    (fun r => exists order,
         req_body r = OrderBody order /\
         In (wh_event payload, uo_status order)
            [("TRANSACTION_PAID", "paid");
             ("TRANSACTION_CANCELED", "refused");
             ("TRANSACTION_REFUNDED", "refunded")] /\
         uo_commission order =
           {| totalPriceInCents :=
                Math_round (tx_amount (wh_transaction payload) * 100)%float;
              gatewayFeeInCents := 0%float;
              userCommissionInCents :=
                Math_round (tx_amount (wh_transaction payload) * 100)%float;
              commission_currency := Some "BRL" |})
    (SlimpayWebhook.POST (Returns payload)) w.
Proof.
  unfold SlimpayWebhook.POST.
  apply issues_try_catch; [|intros; auto with js].
  apply issues_bind; [auto with js|intros p Hp; injection Hp as <-].
  apply issues_bind; [auto with js|intros expectedToken _].
  destruct (is_truthy expectedToken && _); [auto with js|].
  cbv zeta. apply issues_bind; [|intros; auto with js].
  destruct (String.eqb_spec (wh_event payload) "TRANSACTION_PAID") as [Ev|_];
    [|destruct (String.eqb_spec (wh_event payload) "TRANSACTION_CANCELED") as [Ev|_];
      [|destruct (String.eqb_spec (wh_event payload) "TRANSACTION_REFUNDED") as [Ev|_];
        [|destruct (String.eqb (wh_event payload) "TRANSACTION_CREATED"); auto with js]]].
  all: apply guarded_send_issues.
  all: eapply issues_only_impl; [|apply sendOrderToUtmfy_issues].
  all: cbv beta; intros r (order & Hb & _ & Hst & Hc); exists order.
  all: split; [exact Hb|]; split; [|exact Hc].
  all: rewrite Hst, Ev; simpl; auto.
Qed.

(* ===================================================================== *)
(** * The status tables                                                   *)
(* ===================================================================== *)

Lemma mapSlimPayStatus_default status :
  ~ In status ["COMPLETED"; "PENDING"; "FAILED"; "REJECTED"; "CANCELED";
               "REFUNDED"; "CHARGED_BACK"] ->
  mapSlimPayStatus status = "waiting_payment".
Proof.
  intros H. unfold mapSlimPayStatus.
  repeat match goal with
         | |- context [String.eqb status ?x] =>
             destruct (String.eqb_spec status x) as [->|_]; [exfalso; apply H; simpl; tauto|]
         end.
  reflexivity.
Qed.

Lemma mapSlimPayStatus_canonical status : In (mapSlimPayStatus status) canonical_statuses.
Proof.
  unfold mapSlimPayStatus, canonical_statuses.
  repeat match goal with
         | |- context [String.eqb status ?x] => destruct (String.eqb status x); [simpl; tauto|]
         end.
  simpl; tauto.
Qed.

Lemma mapStatusToUtmfy_canonical status : In (mapStatusToUtmfy status) canonical_statuses.
Proof.
  unfold mapStatusToUtmfy, canonical_statuses.
  repeat match goal with
         | |- context [String.eqb status ?x] => destruct (String.eqb status x); [simpl; tauto|]
         end.
  simpl; tauto.
Qed.

Lemma mapStatusToUtmfy_default status :
  ~ In status ["waiting_payment"; "pending"; "approved"; "paid"; "refused";
               "cancelled"; "refunded"; "chargeback"] ->
  mapStatusToUtmfy status = "waiting_payment".
Proof.
  intros H. unfold mapStatusToUtmfy.
  repeat match goal with
         | |- context [String.eqb status ?x] =>
             destruct (String.eqb_spec status x) as [->|_]; [exfalso; apply H; simpl; tauto|]
         end.
  reflexivity.
Qed.

Lemma mapStatusToUtmfy_aliases :
  mapStatusToUtmfy "pending" = "waiting_payment" /\
  mapStatusToUtmfy "approved" = "paid" /\
  mapStatusToUtmfy "cancelled" = "refused" /\
  mapStatusToUtmfy "chargeback" = "chargedback".
Proof. repeat split. Qed.

(** Four of the five canonical statuses are mapped to themselves. *)
Lemma mapStatusToUtmfy_identities status :
  In status ["waiting_payment"; "paid"; "refused"; "refunded"] ->
  mapStatusToUtmfy status = status.
Proof. simpl. intros [<-|[<-|[<-|[<-|[]]]]]; reflexivity. Qed.

(** The status written into a report: ["paid"] for ["approved"], the
    parameter's own value otherwise. *)
Lemma sendOrderToUtmfy_status params w order :
  In order (utmfy_orders (calls_of (sendOrderToUtmfy params) w)) ->
  (so_status params = "approved" -> uo_status order = "paid") /\
  (so_status params <> "approved" -> uo_status order = so_status params).
Proof.
  intros H. apply in_utmfy_orders in H. destruct H as (r & Hr & Hb).
  pose proof (sendOrderToUtmfy_issues params w) as Hi.
  unfold issues_only in Hi. rewrite List.Forall_forall in Hi.
  destruct (Hi r Hr) as (order' & Hb' & _ & Hst & _).
  rewrite Hb in Hb'. injection Hb' as <-. rewrite Hst. unfold utmfyStatus.
  split; intros E.
  - now rewrite E.
  - apply String.eqb_neq in E. now rewrite E.
Qed.

(* ===================================================================== *)
(** * Properties of the specification                                     *)
(* ===================================================================== *)

Section Claims.
Import PixCreate PixCreateSpec.

Lemma POST_ignores_total w body spoofed :
  POST (Returns (with_total body spoofed)) w = POST (Returns body) w.
Proof. reflexivity. Qed.

Lemma shippingFee_none : shippingFee None = 0%float.
Proof. reflexivity. Qed.

(** With a shipping option the fee is its price; a falsy price ([0] or [-0])
    is read as [0], which is the same number. *)
Lemma shippingFee_some s :
  PrimFloat.is_nan (shipping_price s) = false ->
  (shippingFee (Some s) =? shipping_price s)%float = true.
Proof.
  intros Hnan. unfold shippingFee, or_number. rewrite Hnan, orb_false_r.
  destruct (PrimFloat.is_zero (shipping_price s)) eqn:Hz.
  - unfold PrimFloat.is_zero in Hz. rewrite FloatAxioms.eqb_spec in Hz |- *.
    change (Prim2SF 0) with (S754_zero false).
    change (Prim2SF zero) with (S754_zero false) in Hz.
    destruct (Prim2SF (shipping_price s)) as [sg|sg| |sg m e];
      try reflexivity; try discriminate; destruct sg; discriminate.
  - unfold PrimFloat.is_nan in Hnan. now apply negb_false_iff in Hnan.
Qed.

(** An accepted request with both credentials set does send its charge
    request, first. *)
Lemma POST_accepted_sends w body name email cpf phone its publicKey secretKey :
  accepted body name email cpf phone its ->
  truthy (env_SLIMPAY_PUBLIC_KEY w) = Some publicKey ->
  truthy (env_SLIMPAY_SECRET_KEY w) = Some secretKey ->
  exists data, charge_of body cpf its data /\
               hd_error (slimpay_requests (calls_of (POST (Returns body)) w)) = Some data.
Proof.
  intros Hacc Hpk Hsk.
  destruct (POST_accepted w body name email cpf phone its Hacc) as (data & params & Hd & _ & E).
  exists data. split; [exact Hd|].
  destruct (createPixPayment_configured data w publicKey secretKey Hpk Hsk) as [Hcalls _].
  unfold calls_of at 1. rewrite E. simpl. rewrite Hcalls. reflexivity.
Qed.

(** C1. Whenever the charge-creation handler sends a charge request, the
    cart is not empty and the amount sent is the sum of price times quantity
    over the items, in cart order from 0, plus the shipping fee; the shipping
    fee is 0 without a shipping option and the option's price with one; and
    the handler's run does not depend on the request's [total] field. *)
Theorem C1_charge_amount w body data :
  In data (slimpay_requests (calls_of (POST (Returns body)) w)) ->
  exists its,
    items body = Some its /\ its <> [] /\
    pix_amount data =
      (fold_left (fun acc item => acc + item_price item * item_quantity item) its 0
       + shippingFee (shipping body))%float /\
    (shipping body = None -> shippingFee (shipping body) = 0%float) /\
    (forall s, shipping body = Some s -> PrimFloat.is_nan (shipping_price s) = false ->
               (shippingFee (shipping body) =? shipping_price s)%float = true) /\
    (forall spoofed, POST (Returns (with_total body spoofed)) w = POST (Returns body) w).
Proof.
  intros H. apply in_slimpay_requests in H. destruct H as (r & Hr & Hb).
  destruct (POST_calls w body r Hr)
    as (name & email & cpf & phone & its & data' & Hacc & Hd & [Hb'|(o & Hb' & _)]);
    rewrite Hb in Hb'; [injection Hb' as <-|discriminate].
  destruct Hacc as (_ & _ & _ & _ & Hi & Hne & _). destruct Hd as (Hamount & _).
  exists its. repeat split; auto.
  - intros ->. apply shippingFee_none.
  - intros s ->. apply shippingFee_some.
Qed.

(** The cart [{price: 10.00, qty: 2}] with shipping fee 5.00 and a spoofed
    total: the amount sent is 25.00, and so it is for another total. *)
Lemma C1_charge_amount_witness :
  let w := Demo.world None Demo.tracking_ok in
  let body := Demo.request "123.456.789-01" "12345678" 1%float None in
  (exists data,
      In data (slimpay_requests (calls_of (POST (Returns body)) w)) /\
      pix_amount data = 25%float) /\
  POST (Returns (Demo.request "123.456.789-01" "12345678" 9999%float None)) w
  = POST (Returns body) w.
Proof.
  intros w body.
  destruct (slimpay_requests (calls_of (POST (Returns body)) w)) as [|data rest] eqn:E;
    [vm_compute in E; discriminate|].
  assert (H : In data (slimpay_requests (calls_of (POST (Returns body)) w)))
    by (rewrite E; left; reflexivity).
  destruct (C1_charge_amount w body data H) as (its & Hits & _ & Hamount & _ & _ & Htotal).
  split.
  - exists data. split; [rewrite <- E; exact H|].
    rewrite Hamount. injection Hits as <-. reflexivity.
  - exact (Htotal 9999%float).
Defined.

(** C2. Document normalization keeps exactly the digits of the customer's
    document, in order. When the result does not have 11 digits the handler
    answers 400 without issuing any request; when it has, every charge
    request the handler sends carries it as the document, and a charge
    request is sent as soon as the rest of the request is accepted and the
    provider's credentials are set. *)
Theorem C2_document_normalization w body cpf :
  customer body ≫= customer_cpf = Some cpf ->
  list_ascii_of_string (cpfClean cpf) = List.filter is_digit (list_ascii_of_string cpf) /\
  (String.length (cpfClean cpf) <> 11 ->
   exists msg,
     POST (Returns body) w = (Returns {| status := 400; json_body := ErrorJson msg |}, [])) /\
  (String.length (cpfClean cpf) = 11 ->
   (forall data, In data (slimpay_requests (calls_of (POST (Returns body)) w)) ->
                 client_document (pix_client data) = cpfClean cpf) /\
   (forall name email phone its,
       truthy (customer body ≫= customer_name) = Some name ->
       truthy (customer body ≫= customer_email) = Some email ->
       truthy (customer body ≫= customer_phone) = Some phone ->
       items body = Some its -> its <> [] ->
       is_truthy (env_SLIMPAY_PUBLIC_KEY w) = true ->
       is_truthy (env_SLIMPAY_SECRET_KEY w) = true ->
       exists data,
         hd_error (slimpay_requests (calls_of (POST (Returns body)) w)) = Some data /\
         client_document (pix_client data) = cpfClean cpf)).
Proof.
  intros Hcpf. split; [apply replace_non_digits_filter|]. split.
  - intros Hlen.
    destruct (POST_rejected_or_accepted w body)
      as [(msg & _ & E)|(name & email & cpf' & phone & its & Hacc)]; [now exists msg|].
    destruct Hacc as (_ & _ & Hc & _ & _ & _ & Hlen').
    apply truthy_Some in Hc. destruct Hc as [Hc _]. rewrite Hcpf in Hc. injection Hc as <-.
    contradiction.
  - intros Hlen. split.
    + intros data H. apply in_slimpay_requests in H. destruct H as (r & Hr & Hb).
      destruct (POST_calls w body r Hr)
        as (name & email & cpf' & phone & its & data' & Hacc & Hd & [Hb'|(o & Hb' & _)]);
        rewrite Hb in Hb'; [injection Hb' as <-|discriminate].
      destruct Hacc as (_ & _ & Hc & _).
      apply truthy_Some in Hc. destruct Hc as [Hc _]. rewrite Hcpf in Hc. injection Hc as <-.
      apply Hd.
    + intros name email phone its Hn He Hp Hi Hne Hpk Hsk.
      unfold is_truthy in Hpk, Hsk.
      destruct (truthy (env_SLIMPAY_PUBLIC_KEY w)) as [publicKey|] eqn:Epk; [|discriminate].
      destruct (truthy (env_SLIMPAY_SECRET_KEY w)) as [secretKey|] eqn:Esk; [|discriminate].
      assert (Hc : truthy (customer body ≫= customer_cpf) = Some cpf).
      { apply truthy_Some. split; [exact Hcpf|]. intros ->. discriminate. }
      destruct (POST_accepted_sends w body name email cpf phone its publicKey secretKey)
        as (data & Hd & Hhd); auto.
      { repeat split; auto. }
      exists data. split; [exact Hhd|apply Hd].
Qed.

(** ["123.456.789-01"] is cleaned to ["12345678901"] and sent; ["123.456"]
    is answered 400 with no request issued. *)
Lemma C2_document_normalization_witness :
  let w := Demo.world None Demo.tracking_ok in
  (exists data,
      hd_error (slimpay_requests
                  (calls_of (POST (Returns (Demo.request "123.456.789-01" "12345678" 25%float None))) w))
      = Some data /\
      client_document (pix_client data) = "12345678901") /\
  (exists msg,
      POST (Returns (Demo.request "123.456" "12345678" 25%float None)) w
      = (Returns {| status := 400; json_body := ErrorJson msg |}, [])).
Proof.
  intros w. split.
  - destruct (C2_document_normalization w
                (Demo.request "123.456.789-01" "12345678" 25%float None)
                "123.456.789-01" eq_refl) as (_ & _ & Hsent).
    destruct (Hsent eq_refl) as [_ Hex].
    exact (Hex "Ana Souza" "ana@example.com" "(11) 99999-9999" _
               eq_refl eq_refl eq_refl eq_refl ltac:(discriminate) eq_refl eq_refl).
  - destruct (C2_document_normalization w
                (Demo.request "123.456" "12345678" 25%float None)
                "123.456" eq_refl) as (_ & Hbad & _).
    apply Hbad. vm_compute. discriminate.
Defined.

(** C3. With an expected webhook token configured (the variable is set to a
    non-empty string) a payload whose token differs is answered 401 and no
    request goes out. [verifyWebhookToken] returns true when no expected
    token is configured (unset or empty), and otherwise returns true exactly
    when the received token equals the expected one. *)
Theorem C3_webhook_token w payload expected :
  env_SLIMPAY_WEBHOOK_TOKEN w = Some expected -> expected <> "" ->
  (wh_token payload <> expected ->
   SlimpayWebhook.POST (Returns payload) w =
     (Returns {| status := 401; json_body := ErrorJson "Invalid token" |}, [])) /\
  (forall received,
      verifyWebhookToken received None = true /\
      verifyWebhookToken received (Some "") = true) /\
  (forall received,
      verifyWebhookToken received (Some expected) = true <-> received = expected).
Proof.
  intros Henv Hne. split; [|split].
  - now apply webhook_invalid_token.
  - intros received. split; reflexivity.
  - intros received. unfold verifyWebhookToken.
    assert (Ht : truthy (Some expected) = Some expected) by now apply truthy_Some.
    rewrite Ht. apply String.eqb_eq.
Qed.

(** Expected token ["s3cret"], received ["guess"]. *)
Lemma C3_webhook_token_witness :
  SlimpayWebhook.POST (Returns (Demo.payload "TRANSACTION_PAID" "guess"))
                      (Demo.world (Some "s3cret") Demo.tracking_ok)
  = (Returns {| status := 401; json_body := ErrorJson "Invalid token" |}, []) /\
  (verifyWebhookToken "s3cret" (Some "s3cret") = true <-> "s3cret" = "s3cret").
Proof.
  destruct (C3_webhook_token (Demo.world (Some "s3cret") Demo.tracking_ok)
              (Demo.payload "TRANSACTION_PAID" "guess") "s3cret" eq_refl
              ltac:(discriminate)) as (H401 & _ & Hiff).
  split; [apply H401; discriminate|apply Hiff].
Defined.

(** C4. When the charge request the handler sent was answered by the
    provider with a success status and charge data (a reply with its [pix]
    and [order] objects), the handler answers 200 with the transaction id,
    the order id, the PIX code, its expiry and the order amount, whatever the
    tracking service does. [sendOrderToUtmfy] itself never throws. Whenever
    its two dates can be formatted, it posts exactly one request, the order
    report built from its parameters; and once the tracking service has
    answered that request with a readable body, the result is read off the
    answer: [success] is the [ok] flag of the answer, [response] is the body,
    and [error] is the body for a non-success status and absent for a
    success status. *)
Theorem C4_tracking_failure_swallowed w body r data response result charge pix order :
  In r (calls_of (POST (Returns body)) w) ->
  req_body r = PixBody data ->
  world_fetch w r = Returns response ->
  response_ok response = true ->
  response_json response = Returns result ->
  as_SlimPayPixResponse result = Some charge ->
  resp_pix charge = Some pix ->
  resp_order charge = Some order ->
  result_of (POST (Returns body)) w =
    Returns {| status := 200;
               json_body :=
                 PixCreatedJson (resp_transactionId charge) (pix_identifier data)
                   (pix_qrCode pix) (pix_expiresAt pix)
                   (order_id order) (order_amount order) |} /\
  (forall params w', returns (sendOrderToUtmfy params) w') /\
  (forall params w' createdAt approvedDate,
      report_dates params w' = Returns (createdAt, approvedDate) ->
      let report := order_post (order_request params createdAt approvedDate) in
      calls_of (sendOrderToUtmfy params) w' = [report] /\
      forall response' text,
        world_fetch w' report = Returns response' ->
        response_text response' = Returns text ->
        result_of (sendOrderToUtmfy params) w' =
          Returns {| sr_success := response_ok response';
                     sr_error := if response_ok response' then None else Some text;
                     sr_response := Some text |}).
Proof.
  intros Hr Hb Hf Hok Hj Hcharge Hpix Horder.
  split; [|split; [apply sendOrderToUtmfy_returns|]].
  2: { intros params w' createdAt approvedDate Hdates report.
       unfold calls_of, result_of. rewrite sendOrderToUtmfy_run, Hdates.
       split; [reflexivity|]. intros response' text Hf' Ht'. cbn [fst].
       fold report. now rewrite Hf', Ht'. }
  destruct (POST_rejected_or_accepted w body)
    as [(msg & _ & E)|(name & email & cpf & phone & its & Hacc)].
  { unfold calls_of in Hr. rewrite E in Hr. destruct Hr. }
  destruct (POST_accepted w body name email cpf phone its Hacc) as (data' & params & _ & _ & E).
  assert (Hin : In r (calls_of (createPixPayment data') w)).
  { unfold calls_of at 1 in Hr. rewrite E in Hr. simpl in Hr.
    apply in_app_or in Hr. destruct Hr as [Hr|Hr]; [exact Hr|exfalso].
    assert (Hs : In r (calls_of (sendOrderToUtmfy params) w)).
    { destruct (result_of (createPixPayment data') w) as [pixResult|]; [|destruct Hr].
      destruct (pr_success pixResult), (pr_data pixResult); solve [exact Hr | destruct Hr]. }
    pose proof (sendOrderToUtmfy_issues params w) as H.
    unfold issues_only in H. rewrite List.Forall_forall in H.
    destruct (H r Hs) as (o & Hb' & _). congruence. }
  assert (data' = data) as ->.
  { pose proof (createPixPayment_issues data' w) as H.
    unfold issues_only in H. rewrite List.Forall_forall in H.
    specialize (H r Hin). simpl in H. congruence. }
  unfold result_of at 1. rewrite E. simpl.
  rewrite (createPixPayment_on_response data w r response result Hin Hf Hj).
  unfold charge_answered. rewrite Hok. simpl. rewrite Hcharge.
  unfold PixCreateRun.answer_created. now rewrite Hpix, Horder.
Qed.

(** The same accepted checkout with the tracking service unreachable and
    with the tracking service answering 500: the answer is the same 200. In
    the second run the pending report is the one request [sendOrderToUtmfy]
    posts, and its result is a failure carrying the body of the 500. *)
Lemma C4_tracking_failure_swallowed_witness :
  let body := Demo.request "123.456.789-01" "12345678" 25%float None in
  let answer :=
    Returns {| status := 200;
               json_body :=
                 PixCreatedJson (Some "tx_1") "ORD-LQ2X7K3F-4FZYO8" (Some "00020126")
                                (Some "2025-01-01T00:30:00Z") (Some "ord_1")
                                (Some 25%float) |} in
  let w := Demo.world None Demo.tracking_500 in
  let params :=
    PixCreateRun.pending_report w body "Ana Souza" "ana@example.com" "123.456.789-01"
                                "(11) 99999-9999"
                                [ {| item_id := "p1"; item_name := "Caderno";
                                     item_price := 10%float; item_quantity := 2%float |} ] in
  result_of (POST (Returns body)) (Demo.world None Demo.tracking_down) = answer /\
  result_of (POST (Returns body)) w = answer /\
  calls_of (sendOrderToUtmfy params) w =
    [order_post (order_request params (Some "2025-01-01 00:00:00") None)] /\
  result_of (sendOrderToUtmfy params) w =
    Returns {| sr_success := false;
               sr_error := Some "Internal Server Error";
               sr_response := Some "Internal Server Error" |}.
Proof.
  intros body answer w params.
  split.
  - destruct (calls_of (POST (Returns body)) (Demo.world None Demo.tracking_down))
      as [|r rest] eqn:E; [vm_compute in E; discriminate|].
    assert (Hr : In r (calls_of (POST (Returns body)) (Demo.world None Demo.tracking_down)))
      by (rewrite E; left; reflexivity).
    vm_compute in E. injection E as <- _.
    exact (proj1 (C4_tracking_failure_swallowed (Demo.world None Demo.tracking_down) body
                    _ _ _ _ Demo.charge _ _ Hr eq_refl eq_refl eq_refl eq_refl eq_refl
                    eq_refl eq_refl)).
  - destruct (calls_of (POST (Returns body)) w) as [|r rest] eqn:E;
      [vm_compute in E; discriminate|].
    assert (Hr : In r (calls_of (POST (Returns body)) w))
      by (rewrite E; left; reflexivity).
    vm_compute in E. injection E as <- _.
    destruct (C4_tracking_failure_swallowed w body _ _ _ _ Demo.charge _ _ Hr
                eq_refl eq_refl eq_refl eq_refl eq_refl eq_refl eq_refl)
      as (H200 & _ & Hsend).
    split; [exact H200|].
    destruct (Hsend params w (Some "2025-01-01 00:00:00") None eq_refl) as [Hcalls Hres].
    split; [exact Hcalls|].
    exact (Hres _ "Internal Server Error" eq_refl eq_refl).
Defined.

(** C5. A request in which the customer's name, email, document or phone is
    missing (absent or empty), or whose item list is absent or empty, is
    answered 400 with a non-empty message, and no request goes out. *)
Theorem C5_incomplete_request w body :
  missing (customer body ≫= customer_name) \/
  missing (customer body ≫= customer_email) \/
  missing (customer body ≫= customer_cpf) \/
  missing (customer body ≫= customer_phone) \/
  items body = None \/ items body = Some [] ->
  exists msg, msg <> "" /\
    POST (Returns body) w = (Returns {| status := 400; json_body := ErrorJson msg |}, []).
Proof.
  intros H.
  destruct (POST_rejected_or_accepted w body)
    as [Hrej|(name & email & cpf & phone & its & Hn & He & Hc & Hp & Hi & Hne & _)];
    [exact Hrej|exfalso].
  unfold missing in H. rewrite <- !truthy_None in H.
  destruct H as [H|[H|[H|[H|[H|H]]]]]; congruence.
Qed.

(** A request without a customer, and one with an empty cart. *)
Lemma C5_incomplete_request_witness :
  let w := Demo.world None Demo.tracking_ok in
  let body := Demo.request "123.456.789-01" "12345678" 25%float None in
  let no_customer :=
    {| customer := None; address := address body; items := items body;
       total := total body; shipping := shipping body;
       trackingParams := trackingParams body |} in
  let empty_cart :=
    {| customer := customer body; address := address body; items := Some [];
       total := total body; shipping := shipping body;
       trackingParams := trackingParams body |} in
  (exists msg, msg <> "" /\
     POST (Returns no_customer) w
     = (Returns {| status := 400; json_body := ErrorJson msg |}, [])) /\
  (exists msg, msg <> "" /\
     POST (Returns empty_cart) w
     = (Returns {| status := 400; json_body := ErrorJson msg |}, [])).
Proof.
  intros w body no_customer empty_cart. split.
  - apply (C5_incomplete_request w no_customer). left. left. reflexivity.
  - apply (C5_incomplete_request w empty_cart). do 5 right. reflexivity.
Defined.

(** C6. [mapSlimPayStatus] is defined on every string: the seven provider
    statuses map as tabulated, and every other string maps to
    ["waiting_payment"]. *)
Theorem C6_mapSlimPayStatus status :
  mapSlimPayStatus "COMPLETED" = "paid" /\
  mapSlimPayStatus "PENDING" = "waiting_payment" /\
  mapSlimPayStatus "FAILED" = "refused" /\
  mapSlimPayStatus "REJECTED" = "refused" /\
  mapSlimPayStatus "CANCELED" = "refused" /\
  mapSlimPayStatus "REFUNDED" = "refunded" /\
  mapSlimPayStatus "CHARGED_BACK" = "chargedback" /\
  (~ In status ["COMPLETED"; "PENDING"; "FAILED"; "REJECTED"; "CANCELED";
                "REFUNDED"; "CHARGED_BACK"] ->
   mapSlimPayStatus status = "waiting_payment").
Proof. repeat split. apply mapSlimPayStatus_default. Qed.

Lemma C6_mapSlimPayStatus_witness : mapSlimPayStatus "EXPIRED" = "waiting_payment".
Proof.
  apply (C6_mapSlimPayStatus "EXPIRED"). simpl.
  intros [H|[H|[H|[H|[H|[H|[H|[]]]]]]]]; discriminate.
Defined.

(** C7. The canonical status ["chargedback"] is not among the cases of
    [mapStatusToUtmfy]: it falls to the default, so the mapping is not the
    identity on the canonical statuses. *)
Theorem C7_mapStatusToUtmfy_chargedback :
  mapStatusToUtmfy "chargedback" = "waiting_payment" /\
  mapStatusToUtmfy "chargedback" <> "chargedback".
Proof. split; [reflexivity|discriminate]. Qed.

(** C8. Postal-code normalization keeps exactly the digits of the input, in
    order. With 8 digits the result is the first five, a hyphen, and the last
    three; otherwise it is the digit string. This is the zip code of every
    charge request the handler sends. *)
Theorem C8_postal_code cep :
  let digits := cepNumbers cep in
  list_ascii_of_string digits = List.filter is_digit (list_ascii_of_string cep) /\
  (String.length digits = 8 ->
   cepFormatted cep = String.substring 0 5 digits ++ "-" ++ String.substring 5 3 digits) /\
  (String.length digits <> 8 -> cepFormatted cep = digits) /\
  (forall w body data,
      address_cep (address body) = cep ->
      In data (slimpay_requests (calls_of (POST (Returns body)) w)) ->
      addr_zipCode <$> client_address (pix_client data) = Some (cepFormatted cep)).
Proof.
  cbv zeta. split; [apply replace_non_digits_filter|].
  split; [apply cepFormatted_eight|]. split; [apply cepFormatted_other|].
  intros w body data <- H.
  apply in_slimpay_requests in H. destruct H as (r & Hr & Hb).
  destruct (POST_calls w body r Hr)
    as (name & email & cpf & phone & its & data' & _ & Hd & [Hb'|(o & Hb' & _)]);
    rewrite Hb in Hb'; [injection Hb' as <-|discriminate].
  apply Hd.
Qed.

(** ["12345678"] becomes ["12345-678"]; a seven-digit code is left as its
    digits. *)
Lemma C8_postal_code_witness :
  cepFormatted "12345678" = "12345-678" /\ cepFormatted "1234-567" = "1234567".
Proof.
  split.
  - exact (proj1 (proj2 (C8_postal_code "12345678")) eq_refl).
  - apply (proj1 (proj2 (proj2 (C8_postal_code "1234-567")))). simpl. discriminate.
Defined.

(** C9 with the full set of attribution parameters fails: with
    [{src: "fb", utm_source: "ig"}] the bag sent has no [src] entry. *)
Lemma C9_metadata_counterexample :
  ~ (forall w body data,
        In data (slimpay_requests (calls_of (POST (Returns body)) w)) ->
        metadata_echoes attribution_parameters body data).
Proof.
  intros H.
  pose (w := Demo.world None Demo.tracking_ok).
  pose (body := Demo.request "123.456.789-01" "12345678" 25%float
                             (Some {["src" := "fb"; "utm_source" := "ig"]})).
  destruct (slimpay_requests (calls_of (POST (Returns body)) w)) as [|data rest] eqn:E;
    [vm_compute in E; discriminate|].
  assert (Hin : In data (slimpay_requests (calls_of (POST (Returns body)) w)))
    by (rewrite E; left; reflexivity).
  destruct (H w body data Hin) as (metadata & Hm & Hk).
  vm_compute in E. injection E as <- _.
  injection Hm as <-.
  specialize (Hk "src" "fb").
  destruct Hk as [_ Hk].
  assert (Habsurd : Some "fb" = @None string); [|discriminate].
  rewrite <- Hk.
  - vm_compute. reflexivity.
  - right. split; [simpl; tauto|]. split; [discriminate|reflexivity].
Qed.

(** C9, as the handler has it: the bag echoes the source tag and the three
    parameters [utm_source], [utm_medium] and [utm_campaign]. *)
Theorem C9_metadata w body data :
  In data (slimpay_requests (calls_of (POST (Returns body)) w)) ->
  metadata_echoes ["utm_source"; "utm_medium"; "utm_campaign"] body data.
Proof.
  intros H. apply in_slimpay_requests in H. destruct H as (r & Hr & Hb).
  destruct (POST_calls w body r Hr)
    as (name & email & cpf & phone & its & data' & _ & Hd & [Hb'|(o & Hb' & _)]);
    rewrite Hb in Hb'; [injection Hb' as <-|discriminate].
  destruct Hd as (_ & _ & _ & Hm).
  eexists. split; [exact Hm|]. apply metadata_lookup.
Qed.

(** For [{src: "fb", utm_source: "ig"}] the bag sent holds the source tag and
    [utm_source], and no [src]. *)
Lemma C9_metadata_witness :
  let w := Demo.world None Demo.tracking_ok in
  let body := Demo.request "123.456.789-01" "12345678" 25%float
                           (Some {["src" := "fb"; "utm_source" := "ig"]}) in
  exists data metadata,
    In data (slimpay_requests (calls_of (POST (Returns body)) w)) /\
    pix_metadata data = Some metadata /\
    metadata !! "source" = Some "CometaPapelaria" /\
    metadata !! "utm_source" = Some "ig" /\
    metadata !! "src" = None.
Proof.
  intros w body.
  destruct (slimpay_requests (calls_of (POST (Returns body)) w)) as [|data rest] eqn:E;
    [vm_compute in E; discriminate|].
  assert (Hin : In data (slimpay_requests (calls_of (POST (Returns body)) w)))
    by (rewrite E; left; reflexivity).
  destruct (C9_metadata w body data Hin) as (metadata & Hm & Hk).
  exists data, metadata. split; [left; reflexivity|]. split; [exact Hm|]. repeat split.
  - apply Hk. left. now split.
  - apply Hk. right. split; [simpl; tauto|]. split; [discriminate|reflexivity].
  - destruct (metadata !! "src") as [v|] eqn:Esrc; [exfalso|reflexivity].
    apply Hk in Esrc. destruct Esrc as [[Hs _]|[Hs _]]; [discriminate|].
    simpl in Hs. destruct Hs as [Hs|[Hs|[Hs|[]]]]; discriminate.
Defined.

(** C10. In every order report sent to the Tracking Service, by the
    charge-creation handler and by the webhook handler (paid, canceled and
    refunded branches), the gateway fee is 0 and the net commission equals
    the gross amount, which is [Math.round] of 100 times the amount: the
    charge amount for the former, the transaction amount for the latter. *)
Theorem C10_commission w :
  (forall body order,
      In order (utmfy_orders (calls_of (POST (Returns body)) w)) ->
      exists its,
        items body = Some its /\
        gatewayFeeInCents (uo_commission order) = 0%float /\
        userCommissionInCents (uo_commission order) = totalPriceInCents (uo_commission order) /\
        totalPriceInCents (uo_commission order)
        = Math_round (finalAmount its (shipping body) * 100)%float) /\
  (forall payload order,
      In order (utmfy_orders (calls_of (SlimpayWebhook.POST (Returns payload)) w)) ->
      In (wh_event payload)
         ["TRANSACTION_PAID"; "TRANSACTION_CANCELED"; "TRANSACTION_REFUNDED"] /\
      gatewayFeeInCents (uo_commission order) = 0%float /\
      userCommissionInCents (uo_commission order) = totalPriceInCents (uo_commission order) /\
      totalPriceInCents (uo_commission order)
      = Math_round (tx_amount (wh_transaction payload) * 100)%float).
Proof.
  split.
  - intros body order H. apply in_utmfy_orders in H. destruct H as (r & Hr & Hb).
    destruct (POST_calls w body r Hr)
      as (name & email & cpf & phone & its & data & Hacc & _ & [Hb'|(o & Hb' & _ & Hc)]);
      rewrite Hb in Hb'; [discriminate|injection Hb' as <-].
    exists its. rewrite Hc. simpl. repeat split. apply Hacc.
  - intros payload order H. apply in_utmfy_orders in H. destruct H as (r & Hr & Hb).
    pose proof (webhook_issues w payload) as Hi.
    unfold issues_only in Hi. rewrite List.Forall_forall in Hi.
    destruct (Hi r Hr) as (o & Hb' & Hev & Hc).
    rewrite Hb in Hb'. injection Hb' as <-. rewrite Hc. simpl. repeat split.
    simpl in Hev. destruct Hev as [Hev|[Hev|[Hev|[]]]]; injection Hev as <- _; tauto.
Qed.

(** The pending report of the checkout of 25.00 and the paid notification
    for it both carry 2500 cents gross, 0 fee and 2500 net. *)
Lemma C10_commission_witness :
  let w := Demo.world None Demo.tracking_ok in
  let expected :=
    {| totalPriceInCents := 2500%float; gatewayFeeInCents := 0%float;
       userCommissionInCents := 2500%float; commission_currency := Some "BRL" |} in
  (exists order,
      In order (utmfy_orders
                  (calls_of (POST (Returns (Demo.request "123.456.789-01" "12345678"
                                                         25%float None))) w)) /\
      uo_commission order = expected) /\
  (exists order,
      In order (utmfy_orders
                  (calls_of (SlimpayWebhook.POST
                               (Returns (Demo.payload "TRANSACTION_PAID" ""))) w)) /\
      uo_commission order = expected).
Proof.
  intros w expected.
  pose (body := Demo.request "123.456.789-01" "12345678" 25%float None).
  pose (payload := Demo.payload "TRANSACTION_PAID" "").
  split.
  - destruct (utmfy_orders (calls_of (POST (Returns body)) w)) as [|order rest] eqn:E;
      [vm_compute in E; discriminate|].
    assert (Hin : In order (utmfy_orders (calls_of (POST (Returns body)) w)))
      by (rewrite E; left; reflexivity).
    destruct (proj1 (C10_commission w) body order Hin) as (its & Hits & Hfee & Hnet & Hgross).
    exists order. split; [exact Hin|].
    injection Hits as <-.
    vm_compute in E. injection E as <- _. reflexivity.
  - destruct (utmfy_orders (calls_of (SlimpayWebhook.POST (Returns payload)) w))
      as [|order rest] eqn:E; [vm_compute in E; discriminate|].
    assert (Hin : In order (utmfy_orders (calls_of (SlimpayWebhook.POST (Returns payload)) w)))
      by (rewrite E; left; reflexivity).
    destruct (proj2 (C10_commission w) payload order Hin) as (_ & Hfee & Hnet & Hgross).
    exists order. split; [exact Hin|].
    vm_compute in E. injection E as <- _. reflexivity.
Defined.

End Claims.

Section CreateFacts.
Import PixCreate PixCreateSpec PixCreateRun.

(* ===================================================================== *)
(** * Further facts about the two clients                                 *)
(* ===================================================================== *)

Lemma createPixPayment_unconfigured data w :
  truthy (env_SLIMPAY_PUBLIC_KEY w) = None \/ truthy (env_SLIMPAY_SECRET_KEY w) = None ->
  createPixPayment data w =
    (Returns {| pr_success := false; pr_data := None;
                pr_error := Some credentials_message; pr_errorCode := None |}, []).
Proof.
  intros H. unfold createPixPayment, try_catch, bind, getHeaders, process_env.
  cbn -[truthy].
  destruct (truthy (env_SLIMPAY_PUBLIC_KEY w)), (truthy (env_SLIMPAY_SECRET_KEY w));
    try reflexivity.
  destruct H; discriminate.
Qed.

Lemma createPixPayment_rejected data w publicKey secretKey e :
  truthy (env_SLIMPAY_PUBLIC_KEY w) = Some publicKey ->
  truthy (env_SLIMPAY_SECRET_KEY w) = Some secretKey ->
  world_fetch w (charge_post publicKey secretKey data) = Throws e ->
  createPixPayment data w =
    (Returns {| pr_success := false; pr_data := None;
                pr_error := Some (thrown_message e); pr_errorCode := None |},
     [charge_post publicKey secretKey data]).
Proof.
  intros Hpk Hsk Hf.
  unfold createPixPayment, try_catch, bind, getHeaders, process_env, fetch, await, ret.
  cbn -[or_string]. rewrite Hpk, Hsk. cbn -[or_string].
  change {| req_url := _; req_method := _; req_headers := _; req_body := _ |}
    with (charge_post publicKey secretKey data).
  rewrite Hf. reflexivity.
Qed.

Lemma createPixPayment_bad_json data w publicKey secretKey response e :
  truthy (env_SLIMPAY_PUBLIC_KEY w) = Some publicKey ->
  truthy (env_SLIMPAY_SECRET_KEY w) = Some secretKey ->
  world_fetch w (charge_post publicKey secretKey data) = Returns response ->
  response_json response = Throws e ->
  createPixPayment data w =
    (Returns {| pr_success := false; pr_data := None;
                pr_error := Some (thrown_message e); pr_errorCode := None |},
     [charge_post publicKey secretKey data]).
Proof.
  intros Hpk Hsk Hf Hj.
  unfold createPixPayment, try_catch, bind, getHeaders, process_env, fetch, await, ret.
  cbn -[or_string]. rewrite Hpk, Hsk. cbn -[or_string].
  change {| req_url := _; req_method := _; req_headers := _; req_body := _ |}
    with (charge_post publicKey secretKey data).
  rewrite Hf, Hj. reflexivity.
Qed.

Lemma or_string_nonempty o d : d <> "" -> or_string o d <> "".
Proof.
  intros Hd. unfold or_string. destruct (truthy o) as [s|] eqn:E; [|exact Hd].
  apply truthy_Some in E. tauto.
Qed.

(* ===================================================================== *)
(** * Further facts about the charge-creation handler                     *)
(* ===================================================================== *)

(** The run of [POST] on an accepted request, with the charge request and
    the pending report spelled out. *)
Lemma POST_accepted_run w body name email cpf phone its :
  accepted body name email cpf phone its ->
  POST (Returns body) w =
    match createPixPayment (charge_request w body name email cpf phone its) w with
    | (Returns pixResult, t) =>
        match pr_success pixResult, pr_data pixResult with
        | true, Some charge =>
            (Returns (answer_created (charge_request w body name email cpf phone its) charge),
             (t ++ calls_of (sendOrderToUtmfy (pending_report w body name email cpf phone its)) w)%list)
        | _, _ =>
            (Returns (answer_error 400 (or_string (pr_error pixResult) "Erro ao gerar PIX")), t)
        end
    | (Throws _, t) =>
        (Returns (answer_error 500 "Erro interno ao processar pagamento"), t)
    end.
Proof.
  intros (Hn & He & Hc & Hp & Hi & Hne & Hlen).
  destruct its as [|item rest]; [congruence|].
  unfold POST. rewrite run_try_catch.
  rewrite (run_bind_pure (await (Returns body)) _ w body eq_refl).
  cbv zeta. rewrite Hn, He, Hc, Hp, Hi.
  rewrite (run_bind_pure generateOrderId _ w _ eq_refl).
  rewrite Hlen. change (negb (11 =? 11)%nat) with false. cbv iota.
  rewrite (run_bind_pure (process_env _) _ w _ eq_refl).
  rewrite run_bind.
  unfold charge_request, pending_report, orderId.
  match goal with
  | |- context [createPixPayment ?d w] =>
      destruct (createPixPayment d w) as [[pixResult|e] t]
  end; simpl.
  2: { now rewrite app_nil_r. }
  destruct (pr_success pixResult), (pr_data pixResult) as [charge|]; simpl;
    rewrite ?run_bind, ?guarded_send_run; unfold ret, throw, PixCreateRun.answer_created;
    try destruct (resp_pix charge) as [pix|]; try destruct (resp_order charge) as [order|];
    simpl; rewrite ?app_nil_r; reflexivity.
Qed.

Lemma createPixPayment_cases data w :
  exists pixResult t,
    createPixPayment data w = (Returns pixResult, t) /\
    ((t = [] /\ pr_success pixResult = false) \/
     exists publicKey secretKey, t = [charge_post publicKey secretKey data]).
Proof.
  destruct (createPixPayment_returns data w) as [pixResult Hr].
  destruct (truthy (env_SLIMPAY_PUBLIC_KEY w)) as [publicKey|] eqn:Hpk;
    [destruct (truthy (env_SLIMPAY_SECRET_KEY w)) as [secretKey|] eqn:Hsk|].
  - destruct (createPixPayment_configured data w publicKey secretKey Hpk Hsk) as [Hcalls _].
    unfold result_of, calls_of in *.
    destruct (createPixPayment data w) as [o t]. simpl in *. subst.
    eexists _, _. split; [reflexivity|]. right. eauto.
  - rewrite (createPixPayment_unconfigured data w (or_intror Hsk)).
    eexists _, _. split; [reflexivity|]. left. now split.
  - rewrite (createPixPayment_unconfigured data w (or_introl Hpk)).
    eexists _, _. split; [reflexivity|]. left. now split.
Qed.

(** [createPixPayment] reports a charge as created exactly when the provider
    answered the charge request with a success status and a truthy body. *)
Lemma createPixPayment_created data w pixResult charge :
  result_of (createPixPayment data) w = Returns pixResult ->
  pr_success pixResult = true /\ pr_data pixResult = Some charge <->
  provider_created w data charge.
Proof.
  intros Hr. unfold provider_created, result_of in *.
  destruct (truthy (env_SLIMPAY_PUBLIC_KEY w)) as [publicKey|] eqn:Hpk;
    [destruct (truthy (env_SLIMPAY_SECRET_KEY w)) as [secretKey|] eqn:Hsk|].
  2: { rewrite (createPixPayment_unconfigured data w (or_intror Hsk)) in Hr.
       injection Hr as <-.
       split; [intros [[=] _]|intros (pk & sk & ? & ? & _ & ? & _); discriminate]. }
  2: { rewrite (createPixPayment_unconfigured data w (or_introl Hpk)) in Hr.
       injection Hr as <-.
       split; [intros [[=] _]|intros (pk & sk & ? & ? & ? & _); discriminate]. }
  destruct (world_fetch w (charge_post publicKey secretKey data)) as [response|e] eqn:Hf.
  2: { rewrite (createPixPayment_rejected data w publicKey secretKey e Hpk Hsk Hf) in Hr.
       injection Hr as <-. split; [intros [[=] _]|].
       intros (pk & sk & response & result & [= <-] & [= <-] & Hf' & _). congruence. }
  destruct (response_json response) as [result|e] eqn:Hj.
  2: { rewrite (createPixPayment_bad_json data w publicKey secretKey response e
                  Hpk Hsk Hf Hj) in Hr.
       injection Hr as <-. split; [intros [[=] _]|].
       intros (pk & sk & response' & result & [= <-] & [= <-] & Hf' & _ & Hj' & _).
       rewrite Hf in Hf'. injection Hf' as <-. congruence. }
  destruct (createPixPayment_configured data w publicKey secretKey Hpk Hsk) as [_ Hres].
  unfold result_of in Hres. rewrite (Hres response result Hf Hj) in Hr.
  injection Hr as <-. unfold charge_answered.
  destruct (response_ok response) eqn:Hok.
  - cbn [pr_success pr_data]. split.
    + intros [_ Hd]. exists publicKey, secretKey, response, result. repeat split; assumption.
    + intros (pk & sk & response' & result' & [= <-] & [= <-] & Hf' & _ & Hj' & Hd).
      rewrite Hf in Hf'. injection Hf' as <-. rewrite Hj in Hj'. injection Hj' as <-.
      now split.
  - split; [destruct (as_SlimPayError result); intros [[=] _]|].
    intros (pk & sk & response' & result' & [= <-] & [= <-] & Hf' & Hok' & _).
    rewrite Hf in Hf'. injection Hf' as <-. congruence.
Qed.

Lemma provider_created_unique w data charge charge' :
  provider_created w data charge -> provider_created w data charge' -> charge = charge'.
Proof.
  destruct (createPixPayment_returns data w) as [pixResult Hr].
  intros H H'.
  apply (createPixPayment_created data w pixResult _ Hr) in H, H'.
  destruct H as [_ H], H' as [_ H']. congruence.
Qed.

Lemma accepted_unique body name email cpf phone its name' email' cpf' phone' its' :
  accepted body name email cpf phone its ->
  accepted body name' email' cpf' phone' its' ->
  name = name' /\ email = email' /\ cpf = cpf' /\ phone = phone' /\ its = its'.
Proof.
  intros (Hn & He & Hc & Hp & Hi & _) (Hn' & He' & Hc' & Hp' & Hi' & _).
  repeat split; congruence.
Qed.

(** The answer to an accepted request whose charge the provider created. *)
Lemma POST_created w body name email cpf phone its charge :
  accepted body name email cpf phone its ->
  provider_created w (charge_request w body name email cpf phone its) charge ->
  result_of (POST (Returns body)) w =
    Returns (answer_created (charge_request w body name email cpf phone its) charge).
Proof.
  intros Hacc Hc.
  destruct (createPixPayment_returns (charge_request w body name email cpf phone its) w)
    as [pixResult Hr].
  apply (createPixPayment_created _ w pixResult _ Hr) in Hc. destruct Hc as [Hs Hd].
  unfold result_of in *. rewrite (POST_accepted_run w body name email cpf phone its Hacc).
  destruct (createPixPayment _ w) as [o t]. simpl in Hr. subst o. now rewrite Hs, Hd.
Qed.

Lemma answer_created_status data charge :
  (status (answer_created data charge) = 200%Z /\ ~ incomplete charge) \/
  (answer_created data charge = answer_error 500 "Erro interno ao processar pagamento" /\
   incomplete charge).
Proof.
  unfold answer_created, incomplete.
  destruct (resp_pix charge), (resp_order charge); simpl; auto.
  left. split; [reflexivity|]. intros [|]; discriminate.
Qed.

(** The answer to a parsed request: a 400 with a non-empty message, when the
    provider created no charge for it; or the answer to the charge the
    provider created. *)
Lemma POST_parsed w body :
  (exists msg,
      msg <> "" /\
      result_of (POST (Returns body)) w = Returns (answer_error 400 msg) /\
      forall name email cpf phone its charge,
        accepted body name email cpf phone its ->
        ~ provider_created w (charge_request w body name email cpf phone its) charge) \/
  (exists name email cpf phone its charge,
      accepted body name email cpf phone its /\
      provider_created w (charge_request w body name email cpf phone its) charge /\
      result_of (POST (Returns body)) w =
        Returns (answer_created (charge_request w body name email cpf phone its) charge)).
Proof.
  destruct (POST_rejected_or_accepted w body)
    as [(msg & Hmsg & E)|(name & email & cpf & phone & its & Hacc)].
  { left. exists msg. split; [exact Hmsg|]. unfold result_of at 1. rewrite E.
    split; [reflexivity|].
    intros name email cpf phone its charge Hacc Hc.
    pose proof (POST_created w body name email cpf phone its charge Hacc Hc) as H.
    unfold result_of in H. rewrite E in H. simpl in H. injection H as H.
    destruct (answer_created_status (charge_request w body name email cpf phone its) charge)
      as [[Hs _]|[Hs _]]; rewrite <- H in Hs; discriminate. }
  destruct (createPixPayment_returns (charge_request w body name email cpf phone its) w)
    as [pixResult Hr].
  pose proof (fun charge =>
                createPixPayment_created (charge_request w body name email cpf phone its)
                  w pixResult charge Hr) as Hcreated.
  assert (Hrun : result_of (POST (Returns body)) w =
                 Returns match pr_success pixResult, pr_data pixResult with
                         | true, Some charge =>
                             answer_created (charge_request w body name email cpf phone its)
                                            charge
                         | _, _ => answer_error 400 (or_string (pr_error pixResult)
                                                               "Erro ao gerar PIX")
                         end).
  { unfold result_of in *. rewrite (POST_accepted_run w body name email cpf phone its Hacc).
    destruct (createPixPayment _ w) as [o t]. simpl in Hr. subst o.
    destruct (pr_success pixResult), (pr_data pixResult); reflexivity. }
  assert (Hnone : pr_success pixResult = false \/ pr_data pixResult = None ->
                  forall name' email' cpf' phone' its' charge,
                    accepted body name' email' cpf' phone' its' ->
                    ~ provider_created w (charge_request w body name' email' cpf' phone' its')
                        charge).
  { intros Hno name' email' cpf' phone' its' charge Hacc' Hc.
    destruct (accepted_unique _ _ _ _ _ _ _ _ _ _ _ Hacc Hacc')
      as (<- & <- & <- & <- & <-).
    apply Hcreated in Hc. destruct Hc as [Hs Hd]. destruct Hno; congruence. }
  destruct (pr_success pixResult) eqn:Hs; [destruct (pr_data pixResult) as [charge|] eqn:Hd|].
  - right. exists name, email, cpf, phone, its, charge.
    split; [exact Hacc|]. split; [now apply Hcreated|exact Hrun].
  - left. eexists. split; [|split; [exact Hrun|apply Hnone; now right]].
    apply or_string_nonempty. discriminate.
  - left. eexists. split.
    2: { split; [rewrite Hrun; now destruct (pr_data pixResult)|apply Hnone; now left]. }
    apply or_string_nonempty. discriminate.
Qed.

(** The requests of a run of [POST]: nothing for a rejected request; for an
    accepted one, at most the charge request, followed by at most the pending
    report, which is only sent after the charge request and when the
    provider created the charge. *)
Lemma POST_trace w body :
  rejected w body \/
  exists name email cpf phone its,
    accepted body name email cpf phone its /\
    exists t1 t2,
      calls_of (POST (Returns body)) w = (t1 ++ t2)%list /\
      (t1 = [] \/
       exists publicKey secretKey,
         t1 = [charge_post publicKey secretKey
                 (charge_request w body name email cpf phone its)]) /\
      (t2 = [] \/
       t1 <> [] /\
       (exists charge,
           provider_created w (charge_request w body name email cpf phone its) charge /\
           result_of (POST (Returns body)) w =
             Returns (answer_created (charge_request w body name email cpf phone its) charge)) /\
       exists createdAt approvedDate,
         t2 = [order_post (order_request (pending_report w body name email cpf phone its)
                                         createdAt approvedDate)]).
Proof.
  destruct (POST_rejected_or_accepted w body)
    as [Hrej|(name & email & cpf & phone & its & Hacc)]; [now left|right].
  exists name, email, cpf, phone, its. split; [exact Hacc|].
  unfold calls_of, result_of. rewrite (POST_accepted_run w body name email cpf phone its Hacc).
  destruct (createPixPayment_cases (charge_request w body name email cpf phone its) w)
    as (pixResult & t & E & Ht).
  pose proof (fun charge =>
                createPixPayment_created (charge_request w body name email cpf phone its)
                  w pixResult charge) as Hcreated.
  unfold result_of in Hcreated. rewrite E in Hcreated. rewrite E.
  destruct (pr_success pixResult) eqn:Hs; [destruct (pr_data pixResult) as [charge|]|].
  - exists t, (calls_of (sendOrderToUtmfy (pending_report w body name email cpf phone its)) w).
    split; [reflexivity|].
    destruct Ht as [[_ Hf]|Ht]; [congruence|]. split; [now right|].
    rewrite sendOrderToUtmfy_calls.
    destruct (report_dates _ w) as [[createdAt approvedDate]|]; [right|now left].
    split; [destruct Ht as (pk & sk & ->); discriminate|].
    split; [|now exists createdAt, approvedDate].
    exists charge. split; [|reflexivity]. now apply Hcreated.
  - exists t, []. rewrite app_nil_r. split; [reflexivity|]. split; [|now left].
    destruct Ht as [[-> _]|Ht]; [now left|now right].
  - exists t, []. rewrite app_nil_r. split; [reflexivity|]. split; [|now left].
    destruct Ht as [[-> _]|Ht]; [now left|now right].
Qed.

(** X1. The charge-creation handler never throws. It answers 200, 400 or
    500, and every answer other than 200 carries a non-empty error message.
    A request body that cannot be parsed is answered 500 and no request is
    issued. A parsed request is answered 200 exactly when it is accepted and
    the provider answers its charge request with a success status and a body
    that has both the [pix] and the [order] object; when the provider answers
    with a success status and a truthy body that lacks one of them, the
    request is answered 500. *)
Theorem X1_create_answers request_json w :
  exists resp,
    result_of (POST request_json) w = Returns resp /\
    (status resp = 200 \/ status resp = 400 \/ status resp = 500)%Z /\
    (status resp <> 200%Z -> exists msg, json_body resp = ErrorJson msg /\ msg <> "") /\
    (forall e, request_json = Throws e ->
               status resp = 500%Z /\ calls_of (POST request_json) w = []) /\
    (forall body, request_json = Returns body ->
       (status resp = 200%Z <->
        exists name email cpf phone its charge,
          accepted body name email cpf phone its /\
          provider_created w (charge_request w body name email cpf phone its) charge /\
          ~ incomplete charge) /\
       (forall name email cpf phone its charge,
           accepted body name email cpf phone its ->
           provider_created w (charge_request w body name email cpf phone its) charge ->
           incomplete charge ->
           status resp = 500%Z)).
Proof.
  destruct request_json as [body|e].
  2: { eexists. split; [reflexivity|]. simpl. split; [auto|].
       split; [intros _; eexists; split; [reflexivity|discriminate]|].
       split; [intros e' _; split; reflexivity|intros body [=]]. }
  destruct (POST_parsed w body)
    as [(msg & Hmsg & E & Hno)|(name & email & cpf & phone & its & charge & Hacc & Hc & E)].
  - exists (answer_error 400 msg). split; [exact E|]. simpl.
    split; [auto|]. split; [intros _; now exists msg|].
    split; [intros e [=]|]. intros body' [= <-]. split; [split; [discriminate|]|].
    + intros (name & email & cpf & phone & its & charge & Hacc & Hc & _).
      now elim (Hno _ _ _ _ _ _ Hacc Hc).
    + intros name email cpf phone its charge Hacc Hc _.
      now elim (Hno _ _ _ _ _ _ Hacc Hc).
  - eexists. split; [exact E|].
    assert (Hsame : forall name' email' cpf' phone' its' charge',
               accepted body name' email' cpf' phone' its' ->
               provider_created w (charge_request w body name' email' cpf' phone' its') charge' ->
               charge' = charge).
    { intros name' email' cpf' phone' its' charge' Hacc' Hc'.
      destruct (accepted_unique _ _ _ _ _ _ _ _ _ _ _ Hacc Hacc')
        as (<- & <- & <- & <- & <-).
      exact (provider_created_unique _ _ _ _ Hc' Hc). }
    destruct (answer_created_status (charge_request w body name email cpf phone its) charge)
      as [[Hs Hcomplete]|[-> Hinc]].
    + split; [auto|]. split; [congruence|]. split; [intros e [=]|].
      intros body' [= <-]. split; [split; [|intros _; exact Hs]|].
      * intros _. now exists name, email, cpf, phone, its, charge.
      * intros name' email' cpf' phone' its' charge' Hacc' Hc' Hinc.
        rewrite (Hsame _ _ _ _ _ _ Hacc' Hc') in Hinc. contradiction.
    + simpl. split; [auto|]. split; [intros _; eexists; split; [reflexivity|discriminate]|].
      split; [intros e [=]|]. intros body' [= <-]. split; [split; [discriminate|]|reflexivity].
      intros (name' & email' & cpf' & phone' & its' & charge' & Hacc' & Hc' & Hcomplete).
      rewrite (Hsame _ _ _ _ _ _ Hacc' Hc') in Hcomplete. contradiction.
Qed.

(** X2. With a provider credential missing, an accepted checkout is answered
    400 with the configuration message and no request is issued. *)
Theorem X2_create_unconfigured w body name email cpf phone its :
  accepted body name email cpf phone its ->
  truthy (env_SLIMPAY_PUBLIC_KEY w) = None \/ truthy (env_SLIMPAY_SECRET_KEY w) = None ->
  POST (Returns body) w = (Returns (answer_error 400 credentials_message), []).
Proof.
  intros Hacc Hkeys. rewrite (POST_accepted_run w body name email cpf phone its Hacc).
  rewrite (createPixPayment_unconfigured _ w Hkeys). reflexivity.
Qed.

(** X3. When the provider answers the charge request with a non-success
    status and a body that parses, the handler answers 400 and the charge
    request is the only request issued: nothing is reported to the tracking
    service. The message is the [message] property of the body, or a fixed
    message when the body has none or an empty one; for the body [null],
    whose properties cannot be read, it is the message of the error thrown
    by reading it (a fixed message for a thrown value that is not an [Error]
    or has an empty message). *)
Theorem X3_create_provider_error w body name email cpf phone its publicKey secretKey
        response result :
  accepted body name email cpf phone its ->
  truthy (env_SLIMPAY_PUBLIC_KEY w) = Some publicKey ->
  truthy (env_SLIMPAY_SECRET_KEY w) = Some secretKey ->
  let post := charge_post publicKey secretKey (charge_request w body name email cpf phone its) in
  world_fetch w post = Returns response ->
  response_ok response = false ->
  response_json response = Returns result ->
  POST (Returns body) w =
    (Returns (answer_error 400
                match as_SlimPayError result with
                | Returns error =>
                    match error_message error with
                    | Some message =>
                        if String.eqb message "" then "Erro ao criar cobranca PIX"
                        else message
                    | None => "Erro ao criar cobranca PIX"
                    end
                | Throws e =>
                    if negb (err_is_Error e) then "Erro de conexao com SlimPay"
                    else if String.eqb (err_message e) "" then "Erro ao gerar PIX"
                    else err_message e
                end),
     [post]).
Proof.
  intros Hacc Hpk Hsk post Hf Hok Hj.
  rewrite (POST_accepted_run w body name email cpf phone its Hacc).
  destruct (createPixPayment_configured (charge_request w body name email cpf phone its)
              w publicKey secretKey Hpk Hsk) as [Hcalls Hres].
  specialize (Hres response result Hf Hj). unfold charge_answered in Hres.
  rewrite Hok in Hres.
  unfold result_of, calls_of in Hcalls, Hres.
  destruct (createPixPayment _ w) as [o t]. simpl in Hcalls, Hres. subst o t.
  destruct (as_SlimPayError result) as [error|e];
    cbn [pr_success pr_data pr_error]; unfold thrown_message, or_string, truthy.
  - destruct (error_message error) as [message|]; [|reflexivity].
    destruct (String.eqb message "") eqn:E; simpl; rewrite ?E; reflexivity.
  - destruct (err_is_Error e); simpl; [|reflexivity].
    destruct (String.eqb (err_message e) "") eqn:E; simpl; rewrite ?E; reflexivity.
Qed.

(** X4. When the charge request cannot be delivered ([fetch] rejects), the
    handler answers 400 with the error's message (a fixed message for a
    thrown value that is not an [Error] or has an empty message); the charge
    request is the only request issued. *)
Theorem X4_create_network_failure w body name email cpf phone its publicKey secretKey e :
  accepted body name email cpf phone its ->
  truthy (env_SLIMPAY_PUBLIC_KEY w) = Some publicKey ->
  truthy (env_SLIMPAY_SECRET_KEY w) = Some secretKey ->
  let post := charge_post publicKey secretKey (charge_request w body name email cpf phone its) in
  world_fetch w post = Throws e ->
  POST (Returns body) w =
    (Returns (answer_error 400
                (if negb (err_is_Error e) then "Erro de conexao com SlimPay"
                 else if String.eqb (err_message e) "" then "Erro ao gerar PIX"
                 else err_message e)),
     [post]).
Proof.
  intros Hacc Hpk Hsk post Hf.
  rewrite (POST_accepted_run w body name email cpf phone its Hacc).
  rewrite (createPixPayment_rejected _ w publicKey secretKey e Hpk Hsk Hf).
  cbn [pr_success pr_data pr_error]. unfold thrown_message, or_string, truthy.
  destruct (err_is_Error e); simpl; [|reflexivity].
  destruct (String.eqb (err_message e) "") eqn:E; simpl; rewrite ?E; reflexivity.
Qed.

(** X5. A run of the charge-creation handler issues at most two requests:
    at most one charge request, then at most one order report. An order
    report is only sent after the charge request, and only when the provider
    answered that request with a success status and a truthy body; the
    handler then answers 200, or 500 when that body lacks the [pix] or the
    [order] object. *)
Theorem X5_create_trace w body :
  let t := calls_of (POST (Returns body)) w in
  t = [] \/
  (exists c data, t = [c] /\ req_body c = PixBody data) \/
  (exists c o data order charge resp,
      t = [c; o] /\ req_body c = PixBody data /\ req_body o = OrderBody order /\
      provider_created w data charge /\
      result_of (POST (Returns body)) w = Returns resp /\
      (status resp = 200%Z /\ ~ incomplete charge \/
       status resp = 500%Z /\ incomplete charge)).
Proof.
  cbv zeta.
  destruct (POST_trace w body)
    as [(msg & _ & E)|(name & email & cpf & phone & its & _ & t1 & t2 & -> & H1 & H2)].
  { left. unfold calls_of. now rewrite E. }
  destruct H2 as [->|(Hne & (charge & Hc & Hres) & createdAt & approvedDate & ->)].
  - rewrite app_nil_r. destruct H1 as [->|(pk & sk & ->)]; [now left|].
    right. left. eexists _, _. split; reflexivity.
  - destruct H1 as [->|(pk & sk & ->)]; [congruence|].
    right. right. eexists _, _, _, _, charge, _.
    split; [reflexivity|]. split; [reflexivity|]. split; [reflexivity|].
    split; [exact Hc|]. split; [exact Hres|].
    destruct (answer_created_status (charge_request w body name email cpf phone its) charge)
      as [[Hs Hcomplete]|[-> Hinc]]; [left|right]; now split.
Qed.

(** X6. The pending report describes the order that was charged: the report
    sent carries the identifier of the charge request sent, the same customer
    name, e-mail, cleaned phone and cleaned document, and one product per
    cart item, with the item's id, name and quantity and [Math.round] of 100
    times its price. *)
Theorem X6_report_matches_charge w body data order :
  In data (slimpay_requests (calls_of (POST (Returns body)) w)) ->
  In order (utmfy_orders (calls_of (POST (Returns body)) w)) ->
  uo_orderId order = pix_identifier data /\
  ucust_name (uo_customer order) = client_name (pix_client data) /\
  ucust_email (uo_customer order) = client_email (pix_client data) /\
  ucust_phone (uo_customer order) = Some (client_phone (pix_client data)) /\
  ucust_document (uo_customer order) = Some (client_document (pix_client data)) /\
  exists its,
    items body = Some its /\
    pix_products data =
      Some (map (fun i => {| product_id := item_id i; product_name := item_name i;
                             product_price := item_price i;
                             product_quantity := item_quantity i |}) its) /\
    uo_products order =
      map (fun i => {| uprod_id := item_id i; uprod_name := item_name i;
                       uprod_planId := None; uprod_planName := None;
                       uprod_quantity := item_quantity i;
                       uprod_priceInCents := Math_round (item_price i * 100)%float |}) its.
Proof.
  intros Hd Ho.
  destruct (POST_trace w body)
    as [(msg & _ & E)|(name & email & cpf & phone & its & Hacc & t1 & t2 & Et & H1 & H2)].
  { unfold calls_of in Hd. rewrite E in Hd. destruct Hd. }
  rewrite Et in Hd, Ho.
  destruct H2 as [->|(Hne & _ & createdAt & approvedDate & ->)];
    destruct H1 as [->|(pk & sk & ->)]; try congruence; simpl in Hd, Ho; try tauto.
  destruct Hd as [<-|[]]. destruct Ho as [<-|[]].
  simpl. repeat split.
  exists its. split; [apply Hacc|]. split; [reflexivity|].
  rewrite map_map. reflexivity.
Qed.

(** X7. The pending report passes all seven attribution parameters of the
    checkout on to the tracking service: each is the request's value when
    that is a non-empty string, and [null] otherwise. *)
Theorem X7_report_tracking_parameters w body order :
  In order (utmfy_orders (calls_of (POST (Returns body)) w)) ->
  let given key := truthy (tracking_param (trackingParams body) key) in
  uo_trackingParameters order =
    {| tp_src := given "src";
       tp_sck := given "sck";
       tp_utm_source := given "utm_source";
       tp_utm_campaign := given "utm_campaign";
       tp_utm_medium := given "utm_medium";
       tp_utm_content := given "utm_content";
       tp_utm_term := given "utm_term" |}.
Proof.
  intros Ho.
  destruct (POST_trace w body)
    as [(msg & _ & E)|(name & email & cpf & phone & its & Hacc & t1 & t2 & Et & H1 & H2)].
  { unfold calls_of in Ho. rewrite E in Ho. destruct Ho. }
  rewrite Et in Ho.
  destruct H2 as [->|(Hne & _ & createdAt & approvedDate & ->)];
    destruct H1 as [->|(pk & sk & ->)]; try congruence; simpl in Ho; try tauto.
  destruct Ho as [<-|[]]. cbv zeta. simpl. unfold or_null.
  destruct (trackingParams body); simpl; rewrite ?lookup_empty; reflexivity.
Qed.

(* ===================================================================== *)
(** * Further facts about strings                                         *)
(* ===================================================================== *)

Lemma replace_non_digits_all_digits s c :
  In c (list_ascii_of_string (replace_non_digits s)) -> is_digit c = true.
Proof. rewrite replace_non_digits_filter, filter_In. tauto. Qed.

Lemma replace_non_digits_fixpoint s :
  (forall c, In c (list_ascii_of_string s) -> is_digit c = true) ->
  replace_non_digits s = s.
Proof.
  induction s as [|c s IH]; [reflexivity|]. simpl. intros H.
  rewrite (H c (or_introl eq_refl)). f_equal. apply IH. intros x Hx. apply H. now right.
Qed.

Lemma replace_non_digits_idempotent s :
  replace_non_digits (replace_non_digits s) = replace_non_digits s.
Proof. apply replace_non_digits_fixpoint, replace_non_digits_all_digits. Qed.

Lemma in_substring n m s c :
  In c (list_ascii_of_string (String.substring n m s)) -> In c (list_ascii_of_string s).
Proof.
  revert n m. induction s as [|x s IH]; intros n m.
  - destruct n, m; simpl; tauto.
  - destruct n as [|n].
    + destruct m as [|m]; simpl; [tauto|]. intros [->|H]; [now left|right; eauto].
    + simpl. intros H. right. eauto.
Qed.

Lemma in_append a b c :
  In c (list_ascii_of_string (a ++ b)) <->
  In c (list_ascii_of_string a) \/ In c (list_ascii_of_string b).
Proof.
  induction a as [|x a IH]; simpl; [tauto|]. rewrite IH. tauto.
Qed.

Lemma substring_length_le n m s : String.length (String.substring n m s) <= m.
Proof.
  revert n m. induction s as [|x s IH]; intros n m.
  - destruct n, m; simpl; lia.
  - destruct n as [|n].
    + destruct m as [|m]; simpl; [lia|]. specialize (IH 0 m). lia.
    + simpl. apply IH.
Qed.

Lemma substring_length n m s :
  n + m <= String.length s -> String.length (String.substring n m s) = m.
Proof.
  revert n m. induction s as [|x s IH]; intros n m.
  - destruct n, m; simpl; lia.
  - destruct n as [|n].
    + destruct m as [|m]; simpl; [lia|]. intros H. rewrite (IH 0 m); lia.
    + simpl. intros H. apply IH. lia.
Qed.

Lemma string_map_length f s : String.length (string_map f s) = String.length s.
Proof. induction s as [|x s IH]; simpl; [reflexivity|now rewrite IH]. Qed.

Lemma string_map_append f a b : string_map f (a ++ b) = string_map f a ++ string_map f b.
Proof. induction a as [|x a IH]; simpl; [reflexivity|now rewrite IH]. Qed.

Lemma in_string_map f s c :
  In c (list_ascii_of_string (string_map f s)) ->
  exists x, In x (list_ascii_of_string s) /\ c = f x.
Proof.
  induction s as [|x s IH]; simpl; [tauto|].
  intros [<-|H]; [exists x; auto|]. destruct (IH H) as (y & Hy & ->). eauto.
Qed.

Lemma append_length a b : String.length (a ++ b) = String.length a + String.length b.
Proof. induction a as [|x a IH]; simpl; [reflexivity|now rewrite IH]. Qed.

Lemma ascii_upper_idempotent c : ascii_upper (ascii_upper c) = ascii_upper c.
Proof.
  destruct c as [[] [] [] [] [] [] [] []]; reflexivity.
Qed.

Lemma ascii_upper_not_lower c :
  let n := nat_of_ascii (ascii_upper c) in (97 <=? n)%nat && (n <=? 122)%nat = false.
Proof.
  destruct c as [[] [] [] [] [] [] [] []]; reflexivity.
Qed.

Lemma replace_first_char_append old new a rest :
  (forall c, In c (list_ascii_of_string a) -> c <> old) ->
  replace_first_char old new (a ++ String old rest) = a ++ String new rest.
Proof.
  induction a as [|x a IH]; simpl; intros H.
  - now rewrite Ascii.eqb_refl.
  - assert (Hx : Ascii.eqb x old = false) by (apply Ascii.eqb_neq, H; now left).
    rewrite Hx. change (String x a ++ String new rest) with (String x (a ++ String new rest)).
    f_equal. apply IH. intros c Hc. apply H. now right.
Qed.

Lemma substring_0_append a b n :
  String.substring 0 (String.length a + n) (a ++ b) = a ++ String.substring 0 n b.
Proof. induction a as [|x a IH]; simpl; [reflexivity|]. now rewrite IH. Qed.

Lemma substring_0_all a b : String.substring 0 (String.length a) (a ++ b) = a.
Proof.
  induction a as [|x a IH]; simpl; [now destruct b|]. now rewrite IH.
Qed.

(** X8. Every charge request sent carries a document of exactly 11
    characters, all digits, repeated as the [cpf]; a phone made of digits
    only; and a zip code that is either made of digits only, or made of five
    digits, one hyphen and three digits. Cleaning a cleaned value changes
    nothing. *)
Theorem X8_charge_fields_are_clean w body data :
  In data (slimpay_requests (calls_of (POST (Returns body)) w)) ->
  let all_digits s := forall c, In c (list_ascii_of_string s) -> is_digit c = true in
  String.length (client_document (pix_client data)) = 11 /\
  all_digits (client_document (pix_client data)) /\
  client_cpf (pix_client data) = Some (client_document (pix_client data)) /\
  all_digits (client_phone (pix_client data)) /\
  (exists a, client_address (pix_client data) = Some a /\
             (all_digits (addr_zipCode a) \/
              exists first last,
                addr_zipCode a = first ++ "-" ++ last /\
                String.length first = 5 /\ String.length last = 3 /\
                all_digits first /\ all_digits last)) /\
  cpfClean (client_document (pix_client data)) = client_document (pix_client data) /\
  phoneClean (client_phone (pix_client data)) = client_phone (pix_client data).
Proof.
  intros Hd.
  destruct (POST_trace w body)
    as [(msg & _ & E)|(name & email & cpf & phone & its & Hacc & t1 & t2 & Et & H1 & H2)].
  { unfold calls_of in Hd. rewrite E in Hd. destruct Hd. }
  rewrite Et in Hd.
  assert (data = charge_request w body name email cpf phone its) as ->.
  { destruct H2 as [->|(_ & _ & createdAt & approvedDate & ->)];
      destruct H1 as [->|(pk & sk & ->)]; simpl in Hd; try tauto;
      destruct Hd as [<-|[]]; reflexivity. }
  cbv zeta. simpl. repeat split.
  - apply Hacc.
  - intros c. apply replace_non_digits_all_digits.
  - intros c. apply replace_non_digits_all_digits.
  - eexists. split; [reflexivity|]. simpl. unfold cepFormatted.
    destruct (String.length (cepNumbers (address_cep (address body))) =? 8)%nat eqn:E.
    + right. apply Nat.eqb_eq in E. unfold slice, slice_from. rewrite E.
      eexists _, _. split; [reflexivity|].
      split; [apply substring_length; lia|]. split; [apply substring_length; lia|].
      split; intros c H; apply in_substring in H; revert H;
        apply replace_non_digits_all_digits.
    + left. intros c. apply replace_non_digits_all_digits.
  - apply replace_non_digits_idempotent.
  - apply replace_non_digits_idempotent.
Qed.

(** X9. [generateOrderId] returns without issuing a request. The identifier
    is ["ORD-"], the upper-cased timestamp, a hyphen, and the upper-cased
    characters 2 to 7 of the random numeral: it contains no lower-case ASCII
    letter, and is at most 11 characters longer than the timestamp numeral. *)
Theorem X9_generateOrderId w :
  exists id,
    generateOrderId w = (Returns id, []) /\
    id = "ORD-" ++ toUpperCase (Date_now_base36 w) ++ "-"
         ++ toUpperCase (String.substring 2 6 (Math_random_base36 w)) /\
    (forall c, In c (list_ascii_of_string id) ->
               let n := nat_of_ascii c in (97 <=? n)%nat && (n <=? 122)%nat = false) /\
    String.length (Date_now_base36 w) + 5 <= String.length id
      <= String.length (Date_now_base36 w) + 11.
Proof.
  eexists. split; [reflexivity|].
  assert (E : toUpperCase ("ORD-" ++ Date_now_base36 w ++ "-" ++ slice 2 8 (Math_random_base36 w))
              = "ORD-" ++ toUpperCase (Date_now_base36 w) ++ "-"
                ++ toUpperCase (String.substring 2 6 (Math_random_base36 w))).
  { unfold toUpperCase. rewrite !string_map_append. reflexivity. }
  split; [exact E|]. split.
  - intros c Hc. unfold toUpperCase in Hc. apply in_string_map in Hc.
    destruct Hc as (x & _ & ->). apply ascii_upper_not_lower.
  - rewrite E. unfold toUpperCase.
    rewrite !append_length, !string_map_length. simpl.
    pose proof (substring_length_le 2 6 (Math_random_base36 w)). lia.
Qed.

(* ===================================================================== *)
(** * Further properties of the clients                                   *)
(* ===================================================================== *)

(** X10. For a date whose ISO form is a 10-character date, ["T"], an
    8-character time and a rest (fraction and zone), [formatUtmfyDate] gives
    the date, a space and the time: 19 characters, and issues no request. *)
Theorem X10_formatUtmfyDate_iso d w date time rest :
  toISOString d = Returns (date ++ "T" ++ time ++ rest) ->
  String.length date = 10 ->
  (forall c, In c (list_ascii_of_string date) -> c <> "T"%char) ->
  String.length time = 8 ->
  formatUtmfyDate (ArgDate d) w = (Returns (Some (date ++ " " ++ time)), []) /\
  String.length (date ++ " " ++ time) = 19.
Proof.
  intros Hiso Hdate HnoT Htime. split.
  - unfold formatUtmfyDate, bind, await, ret. rewrite Hiso. simpl fst. cbv iota beta.
    do 3 f_equal. unfold slice.
    change ("T" ++ time ++ rest) with (String "T" (time ++ rest)).
    rewrite (replace_first_char_append "T" " " date (time ++ rest) HnoT).
    change (19 - 0) with (10 + 9). rewrite <- Hdate at 1.
    rewrite substring_0_append. f_equal.
    change (String " " (time ++ rest)) with (" " ++ (time ++ rest)).
    change 9 with (String.length " " + 8). rewrite substring_0_append. f_equal.
    rewrite <- Htime. apply substring_0_all.
  - rewrite !append_length, Hdate, Htime. reflexivity.
Qed.

Lemma X10_formatUtmfyDate_iso_witness :
  formatUtmfyDate (ArgDate {| toISOString := Returns "2025-01-01T00:05:00.000Z" |})
                  (Demo.world None Demo.tracking_ok)
  = (Returns (Some "2025-01-01 00:05:00"), []).
Proof.
  refine (proj1 (X10_formatUtmfyDate_iso
                   {| toISOString := Returns "2025-01-01T00:05:00.000Z" |} _
                   "2025-01-01" "00:05:00" ".000Z" eq_refl eq_refl _ eq_refl)).
  simpl. intros c H.
  repeat (destruct H as [<-|H]; [discriminate|]). destruct H.
Defined.

(** X11. The edges of [formatUtmfyDate]: [null] and the empty string give
    [null]; a non-empty string is read with [new Date]; a date without an ISO
    form makes it throw; a result never has more than 19 characters; and no
    request is ever issued. *)
Theorem X11_formatUtmfyDate_edges w :
  formatUtmfyDate ArgNull w = (Returns None, []) /\
  formatUtmfyDate (ArgString "") w = (Returns None, []) /\
  (forall s, s <> "" ->
             formatUtmfyDate (ArgString s) w
             = formatUtmfyDate (ArgDate (world_new_Date w (Some s))) w) /\
  (forall d e, toISOString d = Throws e ->
               formatUtmfyDate (ArgDate d) w = (Throws e, [])) /\
  (forall date s, result_of (formatUtmfyDate date) w = Returns (Some s) ->
                  String.length s <= 19).
Proof.
  split; [reflexivity|]. split; [reflexivity|]. split; [|split].
  - intros s Hs. apply String.eqb_neq in Hs.
    unfold formatUtmfyDate. rewrite Hs.
    now rewrite (run_bind_pure (new_Date (Some s)) _ w _ eq_refl).
  - intros d e He. unfold formatUtmfyDate, bind, await. now rewrite He.
  - intros date s. unfold result_of, formatUtmfyDate, bind, await, new_Date, ret.
    assert (Hlen : forall iso, String.length (slice 0 19 iso) <= 19)
      by (intros iso; apply substring_length_le).
    destruct date as [d|x|]; simpl.
    + destruct (toISOString d); simpl; [|discriminate].
      intros [= <-]. apply Hlen.
    + destruct (String.eqb x ""); simpl; [discriminate|].
      destruct (toISOString (world_new_Date w (Some x))); simpl; [|discriminate].
      intros [= <-]. apply Hlen.
    + discriminate.
Qed.

(** X12. [createPixPayment] never throws. It reports success only when
    exactly one request was sent and answered with a success status and a
    parsable body, which is then the data; a failure carries no data and
    always has an error message. *)
Theorem X12_createPixPayment_result data w :
  exists pixResult,
    result_of (createPixPayment data) w = Returns pixResult /\
    (pr_success pixResult = true ->
     exists publicKey secretKey response result,
       calls_of (createPixPayment data) w = [charge_post publicKey secretKey data] /\
       world_fetch w (charge_post publicKey secretKey data) = Returns response /\
       response_ok response = true /\
       response_json response = Returns result /\
       pr_data pixResult = as_SlimPayPixResponse result /\
       pr_error pixResult = None) /\
    (pr_success pixResult = false ->
     pr_data pixResult = None /\ exists msg, pr_error pixResult = Some msg).
Proof.
  unfold result_of, calls_of.
  destruct (truthy (env_SLIMPAY_PUBLIC_KEY w)) as [publicKey|] eqn:Hpk;
    [destruct (truthy (env_SLIMPAY_SECRET_KEY w)) as [secretKey|] eqn:Hsk|].
  2: { rewrite (createPixPayment_unconfigured data w (or_intror Hsk)).
       eexists. split; [reflexivity|]. simpl. split; [discriminate|eauto]. }
  2: { rewrite (createPixPayment_unconfigured data w (or_introl Hpk)).
       eexists. split; [reflexivity|]. simpl. split; [discriminate|eauto]. }
  destruct (world_fetch w (charge_post publicKey secretKey data)) as [response|e] eqn:Hf.
  2: { rewrite (createPixPayment_rejected data w publicKey secretKey e Hpk Hsk Hf).
       eexists. split; [reflexivity|]. simpl. split; [discriminate|eauto]. }
  destruct (response_json response) as [result|e] eqn:Hj.
  2: { rewrite (createPixPayment_bad_json data w publicKey secretKey response e Hpk Hsk Hf Hj).
       eexists. split; [reflexivity|]. simpl. split; [discriminate|eauto]. }
  destruct (createPixPayment_configured data w publicKey secretKey Hpk Hsk) as [Hcalls Hres].
  specialize (Hres response result Hf Hj).
  unfold result_of, calls_of in Hcalls, Hres.
  destruct (createPixPayment data w) as [o t]. simpl in Hcalls, Hres. subst o t.
  eexists. split; [reflexivity|]. unfold charge_answered.
  destruct (response_ok response) eqn:Hok; simpl.
  - split; [|discriminate]. intros _.
    exists publicKey, secretKey, response, result. repeat split; auto.
  - destruct (as_SlimPayError result); simpl; (split; [discriminate|]); eauto.
Qed.

Lemma sendOrderToUtmfy_invalid_date params w now d e :
  toISOString (world_new_Date w None) = Returns now ->
  so_approvedDate params = Some d -> d <> "" ->
  toISOString (world_new_Date w (Some d)) = Throws e ->
  sendOrderToUtmfy params w = (Returns (send_failure e), []).
Proof.
  intros Hnow Hd Hne He.
  assert (Ht : truthy (so_approvedDate params) = Some d) by now apply truthy_Some.
  rewrite sendOrderToUtmfy_run. unfold report_dates. now rewrite Hnow, Ht, He.
Qed.

(** X13. When the approval date given to [sendOrderToUtmfy] has no ISO form
    ([new Date(s).toISOString()] throws), nothing is sent: the result is a
    failure carrying the error as a string and no response body. *)
Theorem X13_sendOrderToUtmfy_invalid_date params w now d e :
  toISOString (world_new_Date w None) = Returns now ->
  so_approvedDate params = Some d -> d <> "" ->
  toISOString (world_new_Date w (Some d)) = Throws e ->
  sendOrderToUtmfy params w = (Returns (send_failure e), []).
Proof. apply sendOrderToUtmfy_invalid_date. Qed.

(** X14. When the order report cannot be delivered ([fetch] rejects) or its
    answer cannot be read, [sendOrderToUtmfy] returns a failure carrying the
    error as a string and no response body; the report is the only request
    issued. *)
Theorem X14_sendOrderToUtmfy_network_failure params w createdAt approvedDate e :
  report_dates params w = Returns (createdAt, approvedDate) ->
  let post := order_post (order_request params createdAt approvedDate) in
  world_fetch w post = Throws e \/
  (exists response, world_fetch w post = Returns response /\
                    response_text response = Throws e) ->
  sendOrderToUtmfy params w = (Returns (send_failure e), [post]).
Proof.
  intros Hdates post Hf. rewrite sendOrderToUtmfy_run, Hdates. cbv zeta. fold post.
  destruct Hf as [Hf|(response & Hf & Ht)]; rewrite Hf; [reflexivity|]. now rewrite Ht.
Qed.

(** X15. [sendOrderToUtmfy] issues at most one request. It reports success
    only when the order report was sent and answered with a success status
    and a readable body, which the result carries; every failure has an
    error string. *)
Theorem X15_sendOrderToUtmfy_result params w :
  exists r t,
    sendOrderToUtmfy params w = (Returns r, t) /\
    length t <= 1 /\
    (sr_success r = true ->
     exists createdAt approvedDate response text,
       t = [order_post (order_request params createdAt approvedDate)] /\
       world_fetch w (order_post (order_request params createdAt approvedDate))
         = Returns response /\
       response_ok response = true /\
       response_text response = Returns text /\
       sr_response r = Some text /\ sr_error r = None) /\
    (sr_success r = false -> exists msg, sr_error r = Some msg).
Proof.
  rewrite sendOrderToUtmfy_run.
  destruct (report_dates params w) as [[createdAt approvedDate]|e].
  2: { eexists _, _. split; [reflexivity|]. simpl. split; [lia|].
       split; [discriminate|eauto]. }
  cbv zeta. eexists _, _. split; [reflexivity|]. split; [simpl; lia|].
  destruct (world_fetch w _) as [response|e] eqn:Hf; [|simpl; split; [discriminate|eauto]].
  destruct (response_text response) as [text|e] eqn:Ht; [|simpl; split; [discriminate|eauto]].
  unfold send_answered. simpl. destruct (response_ok response) eqn:Hok.
  - split; [|discriminate]. intros _.
    exists createdAt, approvedDate, response, text. repeat split; auto.
  - split; [discriminate|eauto].
Qed.

End CreateFacts.

(* ===================================================================== *)
(** * Further properties of the webhook handler                           *)
(* ===================================================================== *)

Section WebhookFacts.
Import WebhookRun.

Lemma token_passes_check w payload :
  token_passes w payload ->
  is_truthy (env_SLIMPAY_WEBHOOK_TOKEN w)
  && negb (verifyWebhookToken (wh_token payload) (env_SLIMPAY_WEBHOOK_TOKEN w)) = false.
Proof.
  unfold token_passes, is_truthy, verifyWebhookToken. intros [H|H].
  - now rewrite H.
  - rewrite H. destruct (truthy (Some (wh_token payload))) as [t|] eqn:E; [|reflexivity].
    apply truthy_Some in E. destruct E as [[= <-] _]. now rewrite String.eqb_refl.
Qed.

Lemma token_fails_check w payload :
  ~ token_passes w payload ->
  is_truthy (env_SLIMPAY_WEBHOOK_TOKEN w)
  && negb (verifyWebhookToken (wh_token payload) (env_SLIMPAY_WEBHOOK_TOKEN w)) = true.
Proof.
  unfold token_passes, is_truthy, verifyWebhookToken. intros H.
  destruct (truthy (env_SLIMPAY_WEBHOOK_TOKEN w)) as [t|] eqn:E; [|elim H; now left].
  apply truthy_Some in E. destruct E as [E _]. cbv iota beta.
  destruct (String.eqb_spec (wh_token payload) t) as [Heq|Hne]; [|reflexivity].
  elim H. right. congruence.
Qed.

(** The run of the webhook handler on a payload that passes the token
    check: the acknowledgement, and the requests of the report relayed for
    the event, if any. *)
Lemma webhook_run w payload :
  token_passes w payload ->
  SlimpayWebhook.POST (Returns payload) w =
    (Returns (ack payload),
     match relayed payload with
     | Some params => calls_of (sendOrderToUtmfy params) w
     | None => []
     end).
Proof.
  intros Htok. unfold SlimpayWebhook.POST.
  rewrite run_try_catch.
  rewrite (run_bind_pure (await (Returns payload)) _ w payload eq_refl).
  rewrite (run_bind_pure (process_env _) _ w _ eq_refl).
  rewrite (token_passes_check w payload Htok). cbv zeta.
  rewrite run_bind. unfold relayed.
  destruct (String.eqb (wh_event payload) "TRANSACTION_PAID");
    [|destruct (String.eqb (wh_event payload) "TRANSACTION_CANCELED");
      [|destruct (String.eqb (wh_event payload) "TRANSACTION_REFUNDED")]].
  1-3: rewrite guarded_send_run; unfold ret; simpl; rewrite app_nil_r; reflexivity.
  destruct (String.eqb (wh_event payload) "TRANSACTION_CREATED"); reflexivity.
Qed.

Lemma webhook_unauthorized w payload :
  ~ token_passes w payload ->
  SlimpayWebhook.POST (Returns payload) w =
    (Returns {| status := 401; json_body := ErrorJson "Invalid token" |}, []).
Proof.
  intros Htok. unfold SlimpayWebhook.POST.
  rewrite run_try_catch.
  rewrite (run_bind_pure (await (Returns payload)) _ w payload eq_refl).
  rewrite (run_bind_pure (process_env _) _ w _ eq_refl).
  rewrite (token_fails_check w payload Htok). reflexivity.
Qed.

Lemma token_passes_dec w payload : token_passes w payload \/ ~ token_passes w payload.
Proof.
  unfold token_passes.
  destruct (truthy (env_SLIMPAY_WEBHOOK_TOKEN w)) as [t|] eqn:E; [|now left; left].
  apply truthy_Some in E. destruct E as [E _]. rewrite E.
  destruct (String.eqb_spec t (wh_token payload)) as [->|Hne]; [left; now right|].
  right. intros [H|[= H]]; [discriminate|contradiction].
Qed.

(** X16. The webhook handler never throws and answers 200 or 401. A body
    that cannot be parsed is answered 200 with an error and nothing is
    relayed; 401 is answered exactly when a non-empty expected token is set
    and the payload's token differs, and then nothing is relayed either. *)
Theorem X16_webhook_answers request_json w :
  exists resp,
    result_of (SlimpayWebhook.POST request_json) w = Returns resp /\
    (status resp = 200 \/ status resp = 401)%Z /\
    (forall e, request_json = Throws e ->
               resp = {| status := 200; json_body := ErrorJson "Error processing webhook" |} /\
               calls_of (SlimpayWebhook.POST request_json) w = []) /\
    (status resp = 401%Z <->
     exists payload expected,
       request_json = Returns payload /\
       env_SLIMPAY_WEBHOOK_TOKEN w = Some expected /\ expected <> "" /\
       wh_token payload <> expected) /\
    (status resp = 401%Z -> calls_of (SlimpayWebhook.POST request_json) w = []).
Proof.
  destruct request_json as [payload|e].
  2: { eexists. split; [reflexivity|]. simpl. split; [now left|]. split; [now intros|].
       split; [|discriminate]. split; [discriminate|]. intros (p & x & H & _). discriminate. }
  unfold result_of, calls_of.
  destruct (token_passes_dec w payload) as [Htok|Htok].
  - rewrite (webhook_run w payload Htok). eexists. split; [reflexivity|]. simpl.
    split; [now left|]. split; [intros e; discriminate|]. split; [|discriminate].
    split; [discriminate|]. intros (p & expected & [= <-] & Henv & Hne & Hdiff).
    exfalso. destruct Htok as [H|H].
    + apply truthy_None in H. rewrite Henv in H. destruct H as [H|[= H]]; congruence.
    + congruence.
  - rewrite (webhook_unauthorized w payload Htok). eexists. split; [reflexivity|]. simpl.
    split; [now right|]. split; [intros e; discriminate|]. split; [|reflexivity].
    split; [intros _|reflexivity].
    unfold token_passes in Htok.
    destruct (truthy (env_SLIMPAY_WEBHOOK_TOKEN w)) as [t|] eqn:E; [|elim Htok; now left].
    apply truthy_Some in E. destruct E as [E Hne].
    exists payload, t. repeat split; auto. intros H. apply Htok. right. congruence.
Qed.

(** X17. A notification that passes the token check is acknowledged with
    200, its event, the order identifier and the mapped transaction status,
    whatever the tracking service does; and at most one request is issued. *)
Theorem X17_webhook_ack w payload :
  token_passes w payload ->
  result_of (SlimpayWebhook.POST (Returns payload)) w =
    Returns {| status := 200;
               json_body :=
                 WebhookAckJson (wh_event payload)
                                (tx_identifier (wh_transaction payload))
                                (mapSlimPayStatus (tx_status (wh_transaction payload))) |} /\
  length (calls_of (SlimpayWebhook.POST (Returns payload)) w) <= 1.
Proof.
  intros Htok. unfold result_of, calls_of. rewrite (webhook_run w payload Htok).
  split; [reflexivity|]. simpl.
  destruct (relayed payload) as [params|]; [|simpl; lia].
  rewrite sendOrderToUtmfy_calls.
  destruct (report_dates params w) as [[createdAt approvedDate]|]; simpl; lia.
Qed.

(** X18. Only the paid, canceled and refunded events are relayed: for
    [TRANSACTION_CREATED] and for any other event no request is issued. *)
Theorem X18_webhook_no_relay w payload :
  ~ In (wh_event payload)
       ["TRANSACTION_PAID"; "TRANSACTION_CANCELED"; "TRANSACTION_REFUNDED"] ->
  calls_of (SlimpayWebhook.POST (Returns payload)) w = [].
Proof.
  intros Hev. unfold calls_of.
  destruct (token_passes_dec w payload) as [Htok|Htok];
    [|now rewrite (webhook_unauthorized w payload Htok)].
  rewrite (webhook_run w payload Htok). simpl. unfold relayed.
  repeat match goal with
         | |- context [String.eqb (wh_event payload) ?x] =>
             destruct (String.eqb_spec (wh_event payload) x) as [E|_];
               [exfalso; apply Hev; rewrite E; simpl; tauto|]
         end.
  reflexivity.
Qed.

(** X19. Every report the webhook relays is for the notified order: it
    carries the transaction's identifier; its status follows the event
    (paid, refused or refunded), not the transaction status; an approval
    date is only given for the paid event; it has one product per order
    item, each with quantity 1; and the customer document is the CPF, else
    the CNPJ, else empty. *)
Theorem X19_webhook_report w payload order :
  In order (utmfy_orders (calls_of (SlimpayWebhook.POST (Returns payload)) w)) ->
  uo_orderId order = tx_identifier (wh_transaction payload) /\
  In (wh_event payload, uo_status order)
     [("TRANSACTION_PAID", "paid"); ("TRANSACTION_CANCELED", "refused");
      ("TRANSACTION_REFUNDED", "refunded")] /\
  (wh_event payload <> "TRANSACTION_PAID" -> uo_approvedDate order = None) /\
  length (uo_products order) = length (wh_orderItems payload) /\
  (forall p, In p (uo_products order) -> uprod_quantity p = 1%float) /\
  ucust_document (uo_customer order) =
    Some (match truthy (wh_client_cpf (wh_client payload)) with
          | Some cpf => cpf
          | None => match truthy (wh_client_cnpj (wh_client payload)) with
                    | Some cnpj => cnpj
                    | None => ""
                    end
          end).
Proof.
  intros Ho. unfold calls_of in Ho.
  destruct (token_passes_dec w payload) as [Htok|Htok];
    [|rewrite (webhook_unauthorized w payload Htok) in Ho; destruct Ho].
  rewrite (webhook_run w payload Htok) in Ho. simpl in Ho. unfold relayed in Ho.
  assert (Hreport : forall status approvedDate,
             In order (utmfy_orders (calls_of (sendOrderToUtmfy
                                                 (report payload status approvedDate)) w)) ->
             uo_orderId order = tx_identifier (wh_transaction payload) /\
             uo_status order = utmfyStatus status /\
             (approvedDate = None -> uo_approvedDate order = None) /\
             length (uo_products order) = length (wh_orderItems payload) /\
             (forall p, In p (uo_products order) -> uprod_quantity p = 1%float) /\
             ucust_document (uo_customer order) =
               Some (SlimpayWebhook.document_of (wh_client payload))).
  { intros status approvedDate H. rewrite sendOrderToUtmfy_calls in H.
    unfold report_dates in H.
    destruct (toISOString (world_new_Date w None)) as [now|]; [|destruct H].
    assert (Hfacts : forall a (Ha : approvedDate = None -> a = None),
               In order (utmfy_orders [order_post (order_request
                            (report payload status approvedDate) (Some (utmfy_format now)) a)]) ->
               uo_orderId order = tx_identifier (wh_transaction payload) /\
               uo_status order = utmfyStatus status /\
               (approvedDate = None -> uo_approvedDate order = None) /\
               length (uo_products order) = length (wh_orderItems payload) /\
               (forall p, In p (uo_products order) -> uprod_quantity p = 1%float) /\
               ucust_document (uo_customer order) =
                 Some (SlimpayWebhook.document_of (wh_client payload))).
    { intros a Ha [<-|[]]. simpl. repeat split; auto.
      - now rewrite !length_map.
      - intros p Hp. rewrite map_map in Hp. apply in_map_iff in Hp.
        destruct Hp as (item & <- & _). reflexivity. }
    cbn [so_approvedDate report] in H.
    destruct (truthy approvedDate) as [d|] eqn:Ed.
    - destruct (toISOString (world_new_Date w (Some d))); [|destruct H].
      revert H. apply Hfacts. intros ->. discriminate.
    - revert H. apply Hfacts. auto. }
  assert (Hdoc : SlimpayWebhook.document_of (wh_client payload) =
                 match truthy (wh_client_cpf (wh_client payload)) with
                 | Some cpf => cpf
                 | None => match truthy (wh_client_cnpj (wh_client payload)) with
                           | Some cnpj => cnpj
                           | None => ""
                           end
                 end) by reflexivity.
  rewrite <- Hdoc.
  destruct (String.eqb_spec (wh_event payload) "TRANSACTION_PAID") as [Ev|Hpaid].
  { destruct (Hreport _ _ Ho) as (H1 & H2 & H3 & H4 & H5 & H6).
    split; [exact H1|]. split; [rewrite Ev, H2; simpl; tauto|].
    split; [congruence|]. auto. }
  destruct (String.eqb_spec (wh_event payload) "TRANSACTION_CANCELED") as [Ev|_].
  { destruct (Hreport _ _ Ho) as (H1 & H2 & H3 & H4 & H5 & H6).
    split; [exact H1|]. split; [rewrite Ev, H2; simpl; tauto|].
    split; [auto|]. auto. }
  destruct (String.eqb_spec (wh_event payload) "TRANSACTION_REFUNDED") as [Ev|_];
    [|destruct Ho].
  destruct (Hreport _ _ Ho) as (H1 & H2 & H3 & H4 & H5 & H6).
  split; [exact H1|]. split; [rewrite Ev, H2; simpl; tauto|].
  split; [auto|]. auto.
Qed.

(** X20. A paid notification whose payment date has no ISO form is
    acknowledged with 200 but nothing is reported to the tracking service. *)
Theorem X20_webhook_paid_bad_date w payload now d e :
  token_passes w payload ->
  wh_event payload = "TRANSACTION_PAID" ->
  toISOString (world_new_Date w None) = Returns now ->
  tx_payedAt (wh_transaction payload) = Some d -> d <> "" ->
  toISOString (world_new_Date w (Some d)) = Throws e ->
  SlimpayWebhook.POST (Returns payload) w = (Returns (ack payload), []).
Proof.
  intros Htok Hev Hnow Hd Hne He.
  rewrite (webhook_run w payload Htok). unfold relayed. rewrite Hev. simpl.
  unfold calls_of. rewrite (sendOrderToUtmfy_invalid_date _ w now d e); auto.
Qed.

(** X21. A paid notification with a payment date is reported once, with
    status ["paid"] and the payment date in the tracking format as approval
    date; without a payment date the report has no approval date. *)
Theorem X21_webhook_paid_report w payload now :
  token_passes w payload ->
  wh_event payload = "TRANSACTION_PAID" ->
  toISOString (world_new_Date w None) = Returns now ->
  (forall d iso,
      tx_payedAt (wh_transaction payload) = Some d -> d <> "" ->
      toISOString (world_new_Date w (Some d)) = Returns iso ->
      exists order,
        utmfy_orders (calls_of (SlimpayWebhook.POST (Returns payload)) w) = [order] /\
        uo_status order = "paid" /\
        uo_approvedDate order = Some (utmfy_format iso) /\
        uo_createdAt order = utmfy_format now) /\
  (truthy (tx_payedAt (wh_transaction payload)) = None ->
   exists order,
     utmfy_orders (calls_of (SlimpayWebhook.POST (Returns payload)) w) = [order] /\
     uo_status order = "paid" /\
     uo_approvedDate order = None).
Proof.
  intros Htok Hev Hnow. unfold calls_of.
  rewrite (webhook_run w payload Htok). unfold relayed. rewrite Hev. simpl.
  rewrite sendOrderToUtmfy_calls. unfold report_dates. rewrite Hnow.
  cbn [so_approvedDate report]. split.
  - intros d iso Hd Hne Hiso.
    assert (Ht : truthy (tx_payedAt (wh_transaction payload)) = Some d) by now apply truthy_Some.
    rewrite Ht, Hiso. eexists. split; [reflexivity|]. simpl. repeat split.
    unfold or_string, truthy.
    destruct (String.eqb_spec (utmfy_format now) "") as [->|_]; reflexivity.
  - intros Ht. rewrite Ht. eexists. split; [reflexivity|]. now split.
Qed.

End WebhookFacts.

(* ===================================================================== *)
(** * The status query                                                    *)
(* ===================================================================== *)

Section StatusFacts.
Import PixStatus PixStatusRun.

(** The run of [getTransaction]: without credentials nothing is sent;
    otherwise one GET is sent and the result follows the answer. *)
Lemma getTransaction_run params qw :
  getTransaction params qw =
    match truthy (env_SLIMPAY_PUBLIC_KEY (base_world qw)),
          truthy (env_SLIMPAY_SECRET_KEY (base_world qw)) with
    | Some publicKey, Some secretKey =>
        let r := transaction_get publicKey secretKey params in
        (Returns match world_fetch_get qw r with
                 | Throws e => lookup_failure (thrown_message e)
                 | Returns response =>
                     match get_response_json response with
                     | Throws e => lookup_failure (thrown_message e)
                     | Returns result => lookup_answered response result
                     end
                 end,
         [IssuedGet r])
    | _, _ => (Returns (lookup_failure credentials_message), [])
    end.
Proof.
  unfold getTransaction, try_catchQ, bindQ, liftQ, getHeaders, bind, process_env,
    fetch_get, awaitQ, retQ, set_if.
  cbn -[truthy or_string String.append].
  destruct (truthy (env_SLIMPAY_PUBLIC_KEY (base_world qw))) as [publicKey|];
    [|reflexivity].
  destruct (truthy (env_SLIMPAY_SECRET_KEY (base_world qw))) as [secretKey|];
    [|reflexivity].
  cbn -[truthy or_string].
  assert (Eq : (match truthy (params_clientIdentifier params) with
                | Some v =>
                    (match truthy (params_id params) with
                     | Some v0 => [("id", v0)]
                     | None => []
                     end ++ [("clientIdentifier", v)])%list
                | None =>
                    match truthy (params_id params) with
                    | Some v => [("id", v)]
                    | None => []
                    end
                end) = get_searchParams (transaction_get publicKey secretKey params)).
  { simpl. destruct (truthy (params_clientIdentifier params)); [reflexivity|].
    now rewrite app_nil_r. }
  rewrite Eq.
  change {| get_url := _; get_searchParams := _; get_method := _; get_headers := _ |}
    with (transaction_get publicKey secretKey params).
  destruct (world_fetch_get qw _) as [response|e]; [|reflexivity].
  destruct (get_response_json response) as [result|e]; [|reflexivity].
  unfold lookup_answered. destruct (get_response_ok response); [reflexivity|].
  cbn -[or_string]. destruct (reply_as_SlimPayError result); reflexivity.
Qed.

(** [getTransaction] reports a transaction exactly when the provider answered
    the lookup with a success status and a truthy body. *)
Lemma getTransaction_found params qw result t transaction :
  getTransaction params qw = (Returns result, t) ->
  tr_success result = true /\ tr_data result = Some transaction <->
  provider_found qw params transaction.
Proof.
  rewrite getTransaction_run. unfold provider_found.
  destruct (truthy (env_SLIMPAY_PUBLIC_KEY (base_world qw))) as [publicKey|];
    [destruct (truthy (env_SLIMPAY_SECRET_KEY (base_world qw))) as [secretKey|]|].
  2,3: intros [= <- _]; (split; [intros [[=] _]|]);
       intros (pk & sk & ? & ? & ? & ? & _); discriminate.
  cbv zeta.
  destruct (world_fetch_get qw (transaction_get publicKey secretKey params))
    as [response|e] eqn:Hf.
  2: { intros [= <- _]. split; [intros [[=] _]|].
       intros (pk & sk & response & result & [= <-] & [= <-] & Hf' & _). congruence. }
  destruct (get_response_json response) as [json|e] eqn:Hj.
  2: { intros [= <- _]. split; [intros [[=] _]|].
       intros (pk & sk & response' & result & [= <-] & [= <-] & Hf' & _ & Hj' & _).
       rewrite Hf in Hf'. injection Hf' as <-. congruence. }
  unfold lookup_answered. destruct (get_response_ok response) eqn:Hok.
  - intros [= <- _]. cbn [tr_success tr_data]. split.
    + intros [_ Hd]. exists publicKey, secretKey, response, json. repeat split; assumption.
    + intros (pk & sk & response' & json' & [= <-] & [= <-] & Hf' & _ & Hj' & Hd).
      rewrite Hf in Hf'. injection Hf' as <-. rewrite Hj in Hj'. injection Hj' as <-.
      now split.
  - intros E. split.
    + destruct (reply_as_SlimPayError json); injection E as <- _; intros [[=] _].
    + intros (pk & sk & response' & json' & [= <-] & [= <-] & Hf' & Hok' & _).
      rewrite Hf in Hf'. injection Hf' as <-. congruence.
Qed.

Lemma getTransaction_cases params qw :
  exists (result : TransactionResult) (t : list Issued),
    getTransaction params qw = (Returns result, t) /\
    (t = [] \/
     exists publicKey secretKey, t = [IssuedGet (transaction_get publicKey secretKey params)]).
Proof.
  rewrite getTransaction_run.
  destruct (truthy (env_SLIMPAY_PUBLIC_KEY (base_world qw))) as [publicKey|];
    [destruct (truthy (env_SLIMPAY_SECRET_KEY (base_world qw))) as [secretKey|]|].
  - eexists _, _. split; [reflexivity|]. right. eauto.
  - eexists _, _. split; [reflexivity|]. now left.
  - eexists _, _. split; [reflexivity|]. now left.
Qed.

Lemma mapSlimPayStatus_paid status :
  String.eqb (mapSlimPayStatus status) "paid" = String.eqb status "COMPLETED".
Proof.
  unfold mapSlimPayStatus.
  repeat match goal with
         | |- context [if String.eqb status ?x then _ else _] =>
             destruct (String.eqb status x) eqn:?; try reflexivity
         end.
Qed.

(** The run of [GET] when a parameter is given. *)
Lemma GET_run query qw :
  is_truthy (query_transactionId query) = true \/ is_truthy (query_orderId query) = true ->
  GET (Returns query) qw =
    let (o, t) := getTransaction (lookup_params query) qw in
    (match o with
     | Returns result =>
         Returns match tr_success result, tr_data result with
                 | true, Some transaction => status_found transaction
                 | _, _ => status_error 404 (or_string (tr_error result)
                                                       "Transação não encontrada")
                 end
     | Throws _ => Returns (status_error 500 "Erro ao verificar status do pagamento")
     end, t).
Proof.
  intros Hq. unfold GET, try_catchQ, bindQ, awaitQ, retQ. cbn -[getTransaction or_string].
  assert (Hc : negb (is_truthy (query_transactionId query))
               && negb (is_truthy (query_orderId query)) = false).
  { destruct Hq as [-> | ->]; [reflexivity|apply andb_false_r]. }
  rewrite Hc. fold (lookup_params query).
  destruct (getTransaction (lookup_params query) qw) as [[result|e] t]; [|now rewrite app_nil_r].
  destruct (tr_success result); [destruct (tr_data result) as [transaction|]|];
    simpl; rewrite ?app_nil_r; try reflexivity.
  unfold status_found, throwQ.
  destruct (transaction_status transaction) as [status|]; simpl;
    [|now rewrite !app_nil_r].
  rewrite mapSlimPayStatus_paid.
  destruct (String.eqb status "COMPLETED"); simpl; now rewrite !app_nil_r.
Qed.

Lemma truthy_idempotent o : truthy (truthy o) = truthy o.
Proof.
  destruct (truthy o) as [s|] eqn:E; [|reflexivity].
  apply truthy_Some. apply truthy_Some in E. tauto.
Qed.

Lemma is_truthy_false o : is_truthy o = false <-> truthy o = None.
Proof. unfold is_truthy. destruct (truthy o); split; congruence. Qed.

Lemma GET_missing_parameters query qw :
  truthy (query_transactionId query) = None ->
  truthy (query_orderId query) = None ->
  GET (Returns query) qw =
    (Returns {| status_code := 400;
                status_body := StatusError "transactionId ou orderId é obrigatório" |}, []).
Proof.
  intros Ht Ho. apply is_truthy_false in Ht, Ho.
  unfold GET, try_catchQ, bindQ, awaitQ, retQ. cbn -[getTransaction].
  now rewrite Ht, Ho.
Qed.

(** X22. A status query with neither a transaction id nor an order id
    (absent or empty) is answered 400 and no request is issued. *)
Theorem X22_status_missing_parameters query qw :
  truthy (query_transactionId query) = None ->
  truthy (query_orderId query) = None ->
  GET (Returns query) qw =
    (Returns {| status_code := 400;
                status_body := StatusError "transactionId ou orderId é obrigatório" |}, []).
Proof. apply GET_missing_parameters. Qed.

(** X23. The status route never throws. It answers 200, 400, 404 or 500;
    it issues at most one request, which is a GET on the provider's
    transactions endpoint; and every answer other than 200 carries a
    non-empty message. A request URL that cannot be read is answered 500 and
    no request is issued. A query that was read is answered 500 exactly when
    it has a parameter and the provider answers the lookup with a success
    status and a transaction without a [status]. *)
Theorem X23_status_answers request_url qw :
  exists resp,
    resultQ (GET request_url) qw = Returns resp /\
    (status_code resp = 200 \/ status_code resp = 400 \/
     status_code resp = 404 \/ status_code resp = 500)%Z /\
    (issuedQ (GET request_url) qw = [] \/
     exists r, issuedQ (GET request_url) qw = [IssuedGet r] /\
               get_method r = "GET" /\
               get_url r = "https://app.slimmpayy.com.br/api/v1/gateway/transactions") /\
    (status_code resp <> 200%Z ->
     exists msg, status_body resp = StatusError msg /\ msg <> "") /\
    (forall e, request_url = Throws e ->
               status_code resp = 500%Z /\ issuedQ (GET request_url) qw = []) /\
    (forall query, request_url = Returns query ->
       (status_code resp = 500%Z <->
        (is_truthy (query_transactionId query) = true \/
         is_truthy (query_orderId query) = true) /\
        exists transaction,
          provider_found qw (lookup_params query) transaction /\
          transaction_status transaction = None)).
Proof.
  unfold resultQ, issuedQ.
  destruct request_url as [query|e].
  2: { eexists. split; [reflexivity|]. simpl. split; [tauto|]. split; [now left|].
       split; [intros _; eexists; split; [reflexivity|discriminate]|].
       split; [intros e' _; split; reflexivity|intros query [=]]. }
  destruct (truthy (query_transactionId query)) as [tid|] eqn:Ht;
    [|destruct (truthy (query_orderId query)) as [oid|] eqn:Ho].
  3: { rewrite (GET_missing_parameters query qw Ht Ho).
       eexists. split; [reflexivity|]. simpl. split; [tauto|]. split; [now left|].
       split; [intros _; eexists; split; [reflexivity|discriminate]|].
       split; [intros e [=]|]. intros query' [= <-]. split; [discriminate|].
       unfold is_truthy. rewrite Ht, Ho. intros [[|] _]; discriminate. }
  all: assert (Hq : is_truthy (query_transactionId query) = true \/
                    is_truthy (query_orderId query) = true)
    by (unfold is_truthy; rewrite ?Ht, ?Ho; tauto).
  all: rewrite (GET_run query qw Hq).
  all: destruct (getTransaction_cases (lookup_params query) qw) as (result & t & E & Hissued).
  all: pose proof (fun transaction =>
                     getTransaction_found (lookup_params query) qw result t transaction E)
    as Hfound.
  all: rewrite E.
  all: assert (Ht' : t = [] \/
                     exists r, t = [IssuedGet r] /\ get_method r = "GET" /\
                               get_url r = "https://app.slimmpayy.com.br/api/v1/gateway/transactions")
    by (destruct Hissued as [->|(pk & sk & ->)];
        [now left|right; eexists; repeat split]).
  all: destruct (tr_success result) eqn:Hs;
    [destruct (tr_data result) as [transaction|] eqn:Hd|].
  all: try (unfold status_found;
            destruct (transaction_status transaction) as [status|] eqn:Hst).
  all: eexists; (split; [reflexivity|]); cbn [status_code status_body status_error fst snd].
  all: (split; [tauto|]); (split; [exact Ht'|]).
  all: split;
    [first [ intros H; now elim H
           | intros _; eexists; (split; [reflexivity|]);
             first [discriminate | apply or_string_nonempty; discriminate] ]|].
  all: (split; [intros e [=]|]); intros query' [= <-].
  all: split;
    [first [ discriminate
           | intros _; split; [exact Hq|]; exists transaction;
             split; [apply Hfound; now split|exact Hst] ]|].
  all: intros (_ & transaction' & Hf' & Hst'); apply Hfound in Hf';
    destruct Hf' as [Hs' Hd']; congruence.
Qed.

(** The run of [GET] with a parameter given and both credentials set. *)
Lemma GET_configured query qw publicKey secretKey :
  is_truthy (query_transactionId query) = true \/ is_truthy (query_orderId query) = true ->
  truthy (env_SLIMPAY_PUBLIC_KEY (base_world qw)) = Some publicKey ->
  truthy (env_SLIMPAY_SECRET_KEY (base_world qw)) = Some secretKey ->
  let r := transaction_get publicKey secretKey (lookup_params query) in
  GET (Returns query) qw =
    (Returns
       match match world_fetch_get qw r with
             | Throws e => lookup_failure (thrown_message e)
             | Returns response =>
                 match get_response_json response with
                 | Throws e => lookup_failure (thrown_message e)
                 | Returns result => lookup_answered response result
                 end
             end with
       | {| tr_success := true; tr_data := Some transaction |} => status_found transaction
       | result => status_error 404 (or_string (tr_error result) "Transação não encontrada")
       end,
     [IssuedGet r]).
Proof.
  intros Hq Hpk Hsk r. rewrite (GET_run query qw Hq), getTransaction_run, Hpk, Hsk.
  cbv zeta. fold r.
  match goal with
  | |- context [Returns (match ?x with _ => _ end)] => destruct x as [[] [] ?]
  end; reflexivity.
Qed.

(** X24. When the provider answers the lookup with a success status and a
    transaction (one that has a status), the route answers 200 with the
    transaction's identifiers, amount, currency and dates, each as the
    provider gave it; the status is ["paid"] for a [COMPLETED] transaction
    and the provider's status in lower case for any other; and [pixInfo] is
    [null] exactly when the transaction has no PIX information. *)
Theorem X24_status_found query qw publicKey secretKey response result transaction status :
  is_truthy (query_transactionId query) = true \/ is_truthy (query_orderId query) = true ->
  truthy (env_SLIMPAY_PUBLIC_KEY (base_world qw)) = Some publicKey ->
  truthy (env_SLIMPAY_SECRET_KEY (base_world qw)) = Some secretKey ->
  world_fetch_get qw (transaction_get publicKey secretKey (lookup_params query))
    = Returns response ->
  get_response_ok response = true ->
  get_response_json response = Returns result ->
  reply_as_SlimPayTransaction result = Some transaction ->
  transaction_status transaction = Some status ->
  exists json,
    resultQ (GET (Returns query)) qw =
      Returns {| status_code := 200; status_body := StatusFound json |} /\
    json_status json =
      (if String.eqb status "COMPLETED" then "paid" else toLowerCase status) /\
    json_transactionId json = transaction_id transaction /\
    json_orderId json = transaction_identifier transaction /\
    json_paymentMethod json = transaction_paymentMethod transaction /\
    json_amount json = transaction_amount transaction /\
    json_currency json = transaction_currency transaction /\
    json_createdAt json = transaction_createdAt transaction /\
    json_paidAt json = transaction_payedAt transaction /\
    (json_pixInfo json = None <-> transaction_pixInformation transaction = None).
Proof.
  intros Hq Hpk Hsk Hf Hok Hj Hdata Hstatus. unfold resultQ.
  rewrite (GET_configured query qw publicKey secretKey Hq Hpk Hsk). cbv zeta.
  rewrite Hf, Hj. unfold lookup_answered. rewrite Hok, Hdata.
  unfold status_found. rewrite Hstatus.
  eexists. split; [reflexivity|]. simpl. repeat split; auto.
  - destruct (transaction_pixInformation transaction); [discriminate|reflexivity].
  - intros ->. reflexivity.
Qed.

(** X25. The lookup request carries [id] exactly when a non-empty
    transaction id was given and [clientIdentifier] exactly when a non-empty
    order id was given, in this order, together with the two credentials as
    headers. *)
Theorem X25_status_search_parameters query qw r :
  In (IssuedGet r) (issuedQ (GET (Returns query)) qw) ->
  get_searchParams r =
    (match truthy (query_transactionId query) with Some v => [("id", v)] | None => [] end ++
     match truthy (query_orderId query) with
     | Some v => [("clientIdentifier", v)]
     | None => []
     end)%list /\
  get_searchParams r <> [] /\
  exists publicKey secretKey,
    truthy (env_SLIMPAY_PUBLIC_KEY (base_world qw)) = Some publicKey /\
    truthy (env_SLIMPAY_SECRET_KEY (base_world qw)) = Some secretKey /\
    get_headers r = [("Content-Type", "application/json");
                     ("x-public-key", publicKey); ("x-secret-key", secretKey)].
Proof.
  unfold issuedQ. intros Hr.
  destruct (truthy (query_transactionId query)) as [tid|] eqn:Ht.
  2: destruct (truthy (query_orderId query)) as [oid|] eqn:Ho.
  3: { rewrite (GET_missing_parameters query qw Ht Ho) in Hr. destruct Hr. }
  all: rewrite GET_run in Hr by (unfold is_truthy; rewrite ?Ht, ?Ho; tauto).
  all: rewrite getTransaction_run in Hr.
  all: destruct (truthy (env_SLIMPAY_PUBLIC_KEY (base_world qw))) as [publicKey|];
    [destruct (truthy (env_SLIMPAY_SECRET_KEY (base_world qw))) as [secretKey|]|];
    try (destruct Hr; fail).
  all: cbv zeta in Hr; simpl in Hr; destruct Hr as [[= <-]|[]].
  all: unfold transaction_get, lookup_params; simpl.
  all: rewrite !truthy_idempotent, ?Ht, ?Ho.
  all: split; [reflexivity|]; split; [|eauto].
  all: try discriminate.
Qed.

(** X26. With a provider credential missing, a status query is answered 404
    with the configuration message and no request is issued. *)
Theorem X26_status_unconfigured query qw :
  is_truthy (query_transactionId query) = true \/ is_truthy (query_orderId query) = true ->
  truthy (env_SLIMPAY_PUBLIC_KEY (base_world qw)) = None \/
  truthy (env_SLIMPAY_SECRET_KEY (base_world qw)) = None ->
  GET (Returns query) qw = (Returns (status_error 404 credentials_message), []).
Proof.
  intros Hq Hkeys. rewrite (GET_run query qw Hq), getTransaction_run.
  destruct (truthy (env_SLIMPAY_PUBLIC_KEY (base_world qw))),
           (truthy (env_SLIMPAY_SECRET_KEY (base_world qw)));
    try reflexivity.
  destruct Hkeys; discriminate.
Qed.

(** X27. A failed lookup is answered 404. For a non-success status with a
    body that parses, the message is the [message] property of the body, or a
    fixed one when the body has none or an empty one; for the body [null],
    whose properties cannot be read, it is the message of the error thrown by
    reading it. For a success status with a falsy body it is the not-found
    message. When the request could not be delivered it is the error's
    message. A thrown value that is not an [Error], or has an empty message,
    is reported with a fixed message. *)
Theorem X27_status_not_found query qw publicKey secretKey :
  is_truthy (query_transactionId query) = true \/ is_truthy (query_orderId query) = true ->
  truthy (env_SLIMPAY_PUBLIC_KEY (base_world qw)) = Some publicKey ->
  truthy (env_SLIMPAY_SECRET_KEY (base_world qw)) = Some secretKey ->
  let r := transaction_get publicKey secretKey (lookup_params query) in
  let thrown e :=
    if negb (err_is_Error e) then "Erro de conexao com SlimPay"
    else if String.eqb (err_message e) "" then "Transação não encontrada"
    else err_message e in
  (forall response result,
      world_fetch_get qw r = Returns response ->
      get_response_json response = Returns result ->
      get_response_ok response = false ->
      resultQ (GET (Returns query)) qw =
        Returns (status_error 404
                   match reply_as_SlimPayError result with
                   | Returns error =>
                       match error_message error with
                       | Some message =>
                           if String.eqb message "" then "Erro ao buscar transacao"
                           else message
                       | None => "Erro ao buscar transacao"
                       end
                   | Throws e => thrown e
                   end)) /\
  (forall response result,
      world_fetch_get qw r = Returns response ->
      get_response_json response = Returns result ->
      get_response_ok response = true ->
      reply_as_SlimPayTransaction result = None ->
      resultQ (GET (Returns query)) qw =
        Returns (status_error 404 "Transação não encontrada")) /\
  (forall e,
      world_fetch_get qw r = Throws e ->
      resultQ (GET (Returns query)) qw = Returns (status_error 404 (thrown e))).
Proof.
  intros Hq Hpk Hsk r thrown. unfold resultQ.
  rewrite (GET_configured query qw publicKey secretKey Hq Hpk Hsk). cbv zeta. fold r.
  assert (Hthrown : forall e, or_string (Some (thrown_message e)) "Transação não encontrada"
                              = thrown e).
  { intros e. unfold thrown, thrown_message, or_string, truthy.
    destruct (err_is_Error e); simpl; [|reflexivity].
    destruct (String.eqb (err_message e) "") eqn:E; simpl; rewrite ?E; reflexivity. }
  split; [|split].
  - intros response result -> Hj Hok. rewrite Hj. unfold lookup_answered. rewrite Hok.
    destruct (reply_as_SlimPayError result) as [error|e]; cbn [lookup_failure fst].
    + unfold or_string, truthy.
      destruct (error_message error) as [message|]; [|reflexivity].
      destruct (String.eqb message "") eqn:E; simpl; rewrite ?E; reflexivity.
    + cbn [tr_success tr_data tr_error]. now rewrite Hthrown.
  - intros response result -> Hj Hok Hdata. rewrite Hj. unfold lookup_answered.
    rewrite Hok, Hdata. reflexivity.
  - intros e ->. cbn [lookup_failure fst tr_success tr_data tr_error]. now rewrite Hthrown.
Qed.

End StatusFacts.

(* ===================================================================== *)
(** * The further properties on concrete runs                             *)
(* ===================================================================== *)

Section Examples.
Import PixCreate PixCreateSpec PixCreateRun WebhookRun PixStatus PixStatusRun.

Lemma scenario_accepted :
  accepted Scenario.body "Ana Souza" "ana@example.com" "123.456.789-01" "(11) 99999-9999"
           Scenario.cart.
Proof. repeat split. discriminate. Qed.

Lemma X2_create_unconfigured_witness :
  POST (Returns Scenario.body)
       (Scenario.world None Scenario.provider_ok Demo.tracking_ok Scenario.parsing_dates)
  = (Returns (answer_error 400 credentials_message), []).
Proof.
  apply (X2_create_unconfigured _ _ _ _ _ _ _ scenario_accepted). left. reflexivity.
Defined.

Lemma X3_create_provider_error_witness :
  let rejecting :=
    Scenario.world (Some "pk") (Returns Scenario.provider_422) Demo.tracking_ok
                   Scenario.parsing_dates in
  let answering_null :=
    Scenario.world (Some "pk") (Scenario.provider_answers false Scenario.json_null)
                   Demo.tracking_ok Scenario.parsing_dates in
  let charge w :=
    charge_post "pk" "sk"
      (charge_request w Scenario.body "Ana Souza" "ana@example.com" "123.456.789-01"
                      "(11) 99999-9999" Scenario.cart) in
  POST (Returns Scenario.body) rejecting
  = (Returns (answer_error 400 "Documento invalido"), [charge rejecting]) /\
  POST (Returns Scenario.body) answering_null
  = (Returns (answer_error 400 "Cannot read properties of null (reading 'details')"),
     [charge answering_null]).
Proof.
  intros rejecting answering_null charge. split.
  - exact (X3_create_provider_error rejecting
             _ _ _ _ _ _ "pk" "sk" Scenario.provider_422
             Scenario.invalid_document scenario_accepted eq_refl eq_refl eq_refl eq_refl
             eq_refl).
  - exact (X3_create_provider_error answering_null
             _ _ _ _ _ _ "pk" "sk" _
             Scenario.json_null scenario_accepted eq_refl eq_refl eq_refl eq_refl eq_refl).
Defined.

(** A charge reported as created by a body without [pix] and [order]: the
    checkout is answered 500, after the charge request and the report. *)
Lemma X1_create_answers_witness :
  let w := Scenario.world (Some "pk") (Scenario.provider_answers true Scenario.json_empty_object)
                          Demo.tracking_ok Scenario.parsing_dates in
  exists resp,
    result_of (POST (Returns Scenario.body)) w = Returns resp /\ status resp = 500%Z.
Proof.
  intros w.
  destruct (X1_create_answers (Returns Scenario.body) w) as (resp & Hres & _ & _ & _ & Hbody).
  exists resp. split; [exact Hres|].
  apply (proj2 (Hbody Scenario.body eq_refl)
               "Ana Souza" "ana@example.com" "123.456.789-01" "(11) 99999-9999" Scenario.cart
               Scenario.no_charge scenario_accepted).
  - exists "pk", "sk". eexists _, Scenario.json_empty_object. repeat split.
  - left. reflexivity.
Defined.

Lemma X5_create_trace_witness :
  let w := Scenario.world (Some "pk") (Scenario.provider_answers true Scenario.json_empty_object)
                          Demo.tracking_ok Scenario.parsing_dates in
  exists c o resp,
    calls_of (POST (Returns Scenario.body)) w = [c; o] /\
    result_of (POST (Returns Scenario.body)) w = Returns resp /\
    status resp = 500%Z.
Proof.
  intros w.
  destruct (X5_create_trace w Scenario.body)
    as [H|[(c & data & H & _)|(c & o & data & order & charge & resp & H & _ & _ & Hc & Hres & Hs)]].
  - vm_compute in H. discriminate.
  - vm_compute in H. discriminate.
  - exists c, o, resp. split; [exact H|]. split; [exact Hres|].
    destruct Hs as [[_ Hcomplete]|[Hs _]]; [exfalso|exact Hs].
    vm_compute in Hres. injection Hres as <-.
    destruct Hc as (pk & sk & response & result & _ & _ & Hf & _ & Hj & Hcharge).
    vm_compute in Hf. injection Hf as <-.
    vm_compute in Hj. injection Hj as <-.
    vm_compute in Hcharge. injection Hcharge as <-.
    apply Hcomplete. left. reflexivity.
Defined.

Lemma X4_create_network_failure_witness :
  result_of (POST (Returns Scenario.body))
            (Scenario.world (Some "pk") (Throws Scenario.fetch_failed) Demo.tracking_ok
                            Scenario.parsing_dates)
  = Returns (answer_error 400 "fetch failed").
Proof.
  unfold result_of.
  now rewrite (X4_create_network_failure
                 (Scenario.world (Some "pk") (Throws Scenario.fetch_failed) Demo.tracking_ok
                                 Scenario.parsing_dates)
                 _ _ _ _ _ _ "pk" "sk" Scenario.fetch_failed
                 scenario_accepted eq_refl eq_refl eq_refl).
Defined.

Lemma X6_report_matches_charge_witness :
  let w := Scenario.world (Some "pk") Scenario.provider_ok Demo.tracking_ok
                          Scenario.parsing_dates in
  exists data order,
    In data (slimpay_requests (calls_of (POST (Returns Scenario.body)) w)) /\
    In order (utmfy_orders (calls_of (POST (Returns Scenario.body)) w)) /\
    uo_orderId order = pix_identifier data /\
    ucust_document (uo_customer order) = Some (client_document (pix_client data)).
Proof.
  intros w.
  destruct (slimpay_requests (calls_of (POST (Returns Scenario.body)) w))
    as [|data rest] eqn:Ed; [vm_compute in Ed; discriminate|].
  destruct (utmfy_orders (calls_of (POST (Returns Scenario.body)) w))
    as [|order rest'] eqn:Eo; [vm_compute in Eo; discriminate|].
  assert (Hd : In data (slimpay_requests (calls_of (POST (Returns Scenario.body)) w)))
    by (rewrite Ed; now left).
  assert (Ho : In order (utmfy_orders (calls_of (POST (Returns Scenario.body)) w)))
    by (rewrite Eo; now left).
  destruct (X6_report_matches_charge w Scenario.body data order Hd Ho)
    as (Hid & _ & _ & _ & Hdoc & _).
  exists data, order. repeat split; assumption || now left.
Defined.

Lemma X7_report_tracking_parameters_witness :
  let w := Scenario.world (Some "pk") Scenario.provider_ok Demo.tracking_ok
                          Scenario.parsing_dates in
  exists order,
    In order (utmfy_orders (calls_of (POST (Returns Scenario.body)) w)) /\
    tp_src (uo_trackingParameters order) = Some "fb" /\
    tp_utm_source (uo_trackingParameters order) = Some "ig" /\
    tp_utm_term (uo_trackingParameters order) = None.
Proof.
  intros w.
  destruct (utmfy_orders (calls_of (POST (Returns Scenario.body)) w))
    as [|order rest] eqn:Eo; [vm_compute in Eo; discriminate|].
  assert (Ho : In order (utmfy_orders (calls_of (POST (Returns Scenario.body)) w)))
    by (rewrite Eo; now left).
  pose proof (X7_report_tracking_parameters w Scenario.body order Ho) as H.
  cbv zeta in H. exists order. split; [now left|]. rewrite H. repeat split.
Defined.

Lemma X8_charge_fields_are_clean_witness :
  let w := Scenario.world (Some "pk") Scenario.provider_ok Demo.tracking_ok
                          Scenario.parsing_dates in
  exists data,
    In data (slimpay_requests (calls_of (POST (Returns Scenario.body)) w)) /\
    String.length (client_document (pix_client data)) = 11 /\
    client_cpf (pix_client data) = Some (client_document (pix_client data)) /\
    addr_zipCode <$> client_address (pix_client data) = Some "12345-678".
Proof.
  intros w.
  destruct (slimpay_requests (calls_of (POST (Returns Scenario.body)) w))
    as [|data rest] eqn:Ed; [vm_compute in Ed; discriminate|].
  assert (Hd : In data (slimpay_requests (calls_of (POST (Returns Scenario.body)) w)))
    by (rewrite Ed; now left).
  destruct (X8_charge_fields_are_clean w Scenario.body data Hd) as (Hlen & _ & Hcpf & _).
  exists data. split; [now left|]. split; [exact Hlen|]. split; [exact Hcpf|].
  vm_compute in Ed. injection Ed as <- _. reflexivity.
Defined.

Lemma X13_sendOrderToUtmfy_invalid_date_witness :
  sendOrderToUtmfy (report (Demo.payload "TRANSACTION_PAID" "") "approved" (Some "yesterday"))
                   (Scenario.world (Some "pk") Scenario.provider_ok Demo.tracking_ok
                                   Scenario.rejecting_dates)
  = (Returns {| sr_success := false;
                sr_error := Some "RangeError: Invalid time value";
                sr_response := None |}, []).
Proof.
  refine (X13_sendOrderToUtmfy_invalid_date
            (report (Demo.payload "TRANSACTION_PAID" "") "approved" (Some "yesterday"))
            (Scenario.world (Some "pk") Scenario.provider_ok Demo.tracking_ok
                            Scenario.rejecting_dates)
            "2025-01-01T00:00:00.000Z" "yesterday" _ eq_refl eq_refl _ eq_refl).
  discriminate.
Defined.

Lemma X14_sendOrderToUtmfy_network_failure_witness :
  result_of (sendOrderToUtmfy (report (Demo.payload "TRANSACTION_CANCELED" "") "refused" None))
            (Scenario.world (Some "pk") Scenario.provider_ok (Throws Scenario.fetch_failed)
                            Scenario.parsing_dates)
  = Returns {| sr_success := false;
               sr_error := Some "TypeError: fetch failed";
               sr_response := None |}.
Proof.
  unfold result_of.
  rewrite (X14_sendOrderToUtmfy_network_failure
             (report (Demo.payload "TRANSACTION_CANCELED" "") "refused" None)
             (Scenario.world (Some "pk") Scenario.provider_ok (Throws Scenario.fetch_failed)
                             Scenario.parsing_dates)
             (Some "2025-01-01 00:00:00") None Scenario.fetch_failed eq_refl); [reflexivity|].
  left. reflexivity.
Defined.

Lemma X17_webhook_ack_witness :
  result_of (SlimpayWebhook.POST (Returns (Demo.payload "TRANSACTION_PAID" "")))
            (Demo.world None Demo.tracking_down)
  = Returns {| status := 200;
               json_body := WebhookAckJson "TRANSACTION_PAID" "ORD-LQ2X7K3F-4FZYO8" "paid" |}.
Proof.
  refine (proj1 (X17_webhook_ack (Demo.world None Demo.tracking_down)
                   (Demo.payload "TRANSACTION_PAID" "") _)).
  left. reflexivity.
Defined.

Lemma X18_webhook_no_relay_witness :
  calls_of (SlimpayWebhook.POST (Returns (Demo.payload "TRANSACTION_CREATED" "")))
           (Demo.world None Demo.tracking_ok) = [].
Proof.
  apply X18_webhook_no_relay. simpl. intros [H|[H|[H|[]]]]; discriminate.
Defined.

Lemma X19_webhook_report_witness :
  let w := Demo.world None Demo.tracking_ok in
  let payload := Demo.payload "TRANSACTION_REFUNDED" "" in
  exists order,
    In order (utmfy_orders (calls_of (SlimpayWebhook.POST (Returns payload)) w)) /\
    uo_orderId order = "ORD-LQ2X7K3F-4FZYO8" /\
    uo_approvedDate order = None /\
    ucust_document (uo_customer order) = Some "12345678901".
Proof.
  intros w payload.
  destruct (utmfy_orders (calls_of (SlimpayWebhook.POST (Returns payload)) w))
    as [|order rest] eqn:Eo; [vm_compute in Eo; discriminate|].
  assert (Ho : In order (utmfy_orders (calls_of (SlimpayWebhook.POST (Returns payload)) w)))
    by (rewrite Eo; now left).
  destruct (X19_webhook_report w payload order Ho) as (Hid & _ & Hdate & _ & _ & Hdoc).
  exists order. split; [now left|]. split; [exact Hid|]. split; [|exact Hdoc].
  apply Hdate. discriminate.
Defined.

Lemma X20_webhook_paid_bad_date_witness :
  SlimpayWebhook.POST (Returns (Demo.payload "TRANSACTION_PAID" ""))
                      (Scenario.world (Some "pk") Scenario.provider_ok Demo.tracking_ok
                                      Scenario.rejecting_dates)
  = (Returns (ack (Demo.payload "TRANSACTION_PAID" "")), []).
Proof.
  refine (X20_webhook_paid_bad_date
            (Scenario.world (Some "pk") Scenario.provider_ok Demo.tracking_ok
                            Scenario.rejecting_dates)
            (Demo.payload "TRANSACTION_PAID" "") "2025-01-01T00:00:00.000Z"
            "2025-01-01T00:05:00.000Z" _ _ eq_refl eq_refl eq_refl _ eq_refl).
  - left. reflexivity.
  - discriminate.
Defined.

Lemma X21_webhook_paid_report_witness :
  exists order,
    utmfy_orders (calls_of (SlimpayWebhook.POST (Returns (Demo.payload "TRANSACTION_PAID" "")))
                           (Scenario.world (Some "pk") Scenario.provider_ok Demo.tracking_ok
                                           Scenario.parsing_dates))
    = [order] /\
    uo_status order = "paid" /\
    uo_approvedDate order = Some "2025-01-01 00:05:00" /\
    uo_createdAt order = "2025-01-01 00:00:00".
Proof.
  refine (proj1 (X21_webhook_paid_report
                   (Scenario.world (Some "pk") Scenario.provider_ok Demo.tracking_ok
                                   Scenario.parsing_dates)
                   (Demo.payload "TRANSACTION_PAID" "")
                   "2025-01-01T00:00:00.000Z" _ eq_refl eq_refl)
                "2025-01-01T00:05:00.000Z" "2025-01-01T00:05:00.000Z" eq_refl _ eq_refl).
  - left. reflexivity.
  - discriminate.
Defined.

Lemma X22_status_missing_parameters_witness :
  GET (Returns {| query_transactionId := None; query_orderId := Some "" |})
      (Scenario.query_world (Some "pk") (Returns (Scenario.found "PENDING")))
  = (Returns {| status_code := 400;
                status_body := StatusError "transactionId ou orderId é obrigatório" |}, []).
Proof.
  exact (X22_status_missing_parameters
           {| query_transactionId := None; query_orderId := Some "" |} _ eq_refl eq_refl).
Defined.

Lemma X24_status_found_witness :
  (exists json,
      resultQ (GET (Returns Scenario.by_order))
              (Scenario.query_world (Some "pk") (Returns (Scenario.found "CHARGED_BACK")))
      = Returns {| status_code := 200; status_body := StatusFound json |} /\
      json_status json = "charged_back") /\
  (exists json,
      resultQ (GET (Returns Scenario.by_order))
              (Scenario.query_world (Some "pk") (Returns (Scenario.found "COMPLETED")))
      = Returns {| status_code := 200; status_body := StatusFound json |} /\
      json_status json = "paid").
Proof.
  split.
  - destruct (X24_status_found Scenario.by_order
                (Scenario.query_world (Some "pk") (Returns (Scenario.found "CHARGED_BACK")))
                "pk" "sk" _ _ _ _ (or_intror eq_refl) eq_refl eq_refl eq_refl eq_refl
                eq_refl eq_refl eq_refl) as (json & Hres & Hstatus & _).
    exists json. split; [exact Hres|exact Hstatus].
  - destruct (X24_status_found Scenario.by_order
                (Scenario.query_world (Some "pk") (Returns (Scenario.found "COMPLETED")))
                "pk" "sk" _ _ _ _ (or_intror eq_refl) eq_refl eq_refl eq_refl eq_refl
                eq_refl eq_refl eq_refl) as (json & Hres & Hstatus & _).
    exists json. split; [exact Hres|exact Hstatus].
Defined.

Lemma X25_status_search_parameters_witness :
  exists r,
    In (IssuedGet r)
       (issuedQ (GET (Returns Scenario.by_order))
                (Scenario.query_world (Some "pk") (Returns (Scenario.found "PENDING")))) /\
    get_searchParams r = [("clientIdentifier", "ORD-LQ2X7K3F-4FZYO8")].
Proof.
  destruct (issuedQ (GET (Returns Scenario.by_order))
                    (Scenario.query_world (Some "pk") (Returns (Scenario.found "PENDING"))))
    as [|[r|r] rest] eqn:E; try (vm_compute in E; discriminate).
  assert (Hr : In (IssuedGet r)
                  (issuedQ (GET (Returns Scenario.by_order))
                     (Scenario.query_world (Some "pk") (Returns (Scenario.found "PENDING")))))
    by (rewrite E; now left).
  exists r. split; [now left|].
  exact (proj1 (X25_status_search_parameters _ _ r Hr)).
Defined.

Lemma X26_status_unconfigured_witness :
  GET (Returns Scenario.by_order)
      (Scenario.query_world None (Returns (Scenario.found "PENDING")))
  = (Returns (status_error 404 credentials_message), []).
Proof.
  apply X26_status_unconfigured; [right|left]; reflexivity.
Defined.

(** The lookup answered 404 with a message, and answered 500 with the body
    [null]. *)
Lemma X27_status_not_found_witness :
  resultQ (GET (Returns Scenario.by_order))
          (Scenario.query_world (Some "pk")
             (Returns {| get_response_ok := false;
                         get_response_json := Returns Scenario.not_found |}))
  = Returns (status_error 404 "Transaction not found") /\
  resultQ (GET (Returns Scenario.by_order))
          (Scenario.query_world (Some "pk")
             (Returns {| get_response_ok := false;
                         get_response_json := Returns Scenario.reply_null |}))
  = Returns (status_error 404 "Cannot read properties of null (reading 'message')").
Proof.
  split.
  - exact (proj1 (X27_status_not_found Scenario.by_order
                    (Scenario.query_world (Some "pk")
                       (Returns {| get_response_ok := false;
                                   get_response_json := Returns Scenario.not_found |}))
                    "pk" "sk" (or_intror eq_refl) eq_refl eq_refl)
                 _ Scenario.not_found eq_refl eq_refl eq_refl).
  - exact (proj1 (X27_status_not_found Scenario.by_order
                    (Scenario.query_world (Some "pk")
                       (Returns {| get_response_ok := false;
                                   get_response_json := Returns Scenario.reply_null |}))
                    "pk" "sk" (or_intror eq_refl) eq_refl eq_refl)
                 _ Scenario.reply_null eq_refl eq_refl eq_refl).
Defined.

(** A transaction found without a [status]: one request, answered 500. *)
Lemma X23_status_answers_witness :
  exists resp,
    resultQ (GET (Returns Scenario.by_order))
            (Scenario.query_world (Some "pk") (Returns Scenario.found_without_status))
    = Returns resp /\
    status_code resp = 500%Z.
Proof.
  destruct (X23_status_answers
              (Returns Scenario.by_order)
              (Scenario.query_world (Some "pk") (Returns Scenario.found_without_status)))
    as (resp & Hres & _ & _ & _ & _ & H500).
  exists resp. split; [exact Hres|].
  apply (H500 Scenario.by_order eq_refl). split; [right; reflexivity|].
  exists (demo_transaction None). split; [|reflexivity].
  exists "pk", "sk", Scenario.found_without_status. eexists. repeat split.
Defined.

End Examples.

(* ===================================================================== *)
(** * The provider status table, read backwards                           *)
(* ===================================================================== *)

(** X28. [mapSlimPayStatus] only returns the five internal statuses, and
    each of the four other than ["waiting_payment"] comes from exactly the
    provider statuses of its cases: ["paid"] only from [COMPLETED],
    ["refused"] only from [FAILED], [REJECTED] or [CANCELED], ["refunded"]
    only from [REFUNDED] and ["chargedback"] only from [CHARGED_BACK]. *)
Theorem X28_mapSlimPayStatus_preimages status :
  In (mapSlimPayStatus status) canonical_statuses /\
  (mapSlimPayStatus status = "paid" <-> status = "COMPLETED") /\
  (mapSlimPayStatus status = "refused" <->
   status = "FAILED" \/ status = "REJECTED" \/ status = "CANCELED") /\
  (mapSlimPayStatus status = "refunded" <-> status = "REFUNDED") /\
  (mapSlimPayStatus status = "chargedback" <-> status = "CHARGED_BACK").
Proof.
  split; [apply mapSlimPayStatus_canonical|].
  unfold mapSlimPayStatus.
  repeat match goal with
         | |- context [if String.eqb status ?x then _ else _] =>
             destruct (String.eqb_spec status x) as [->|?]
         end.
  all: repeat split; intros; try discriminate; try tauto; try congruence.
  all: repeat match goal with H : _ \/ _ |- _ => destruct H end;
    try discriminate; try congruence.
Qed.
